(** * dtm-weekly-insights: the fetchers' arithmetic helpers and the
      weekly report script, embedded and verified

    The JavaScript sources are embedded shallowly.

    - A JS number is a finite value, [NaN] or a signed infinity.  Finite
      values are exact rationals kept in lowest terms: the development
      reasons about the arithmetic the code writes down, not about the
      binary rounding of IEEE doubles, and it does not distinguish [-0]
      from [0].
    - The values that reach the arithmetic helpers are [undefined], [null]
      and numbers; coercions ([ToNumber], truthiness, [??]) follow
      ECMAScript on these.
    - Every [/] of the source goes through [divide], which also records its
      divisor, so that "never divides by zero" is a statement about the
      recorded divisors of a run.
    - An array is a list and [sort] a stable insertion sort, which agrees
      with every JS engine when the comparator is consistent: statements
      about an order therefore ask for keys that are not [NaN].
    - An object built by [Object.fromEntries] is a finite map; reading a
      property of it also sees the names inherited from
      [Object.prototype].
    - An asynchronous function is a result together with the requests it
      has issued.  The order of requests of functions that run
      concurrently is not observable, and no statement depends on it. *)

From Stdlib Require Import QArith Qround Qpower Qabs Qfield ZArith Lia Lqa Bool Ascii Sorted.
From stdpp Require Import base option list strings pretty gmap.

Local Open Scope Z_scope.

(** ** Numbers *)

Inductive number : Type :=
| Fin (q : Q)
| PInf
| NInf
| NaN.

Definition fin (q : Q) : number := Fin (Qred q).

Definition num_of_Z (z : Z) : number := Fin (inject_Z z).

Definition Qneg_b (q : Q) : bool := negb (Qle_bool 0 q).
Definition Qpos_b (q : Q) : bool := negb (Qle_bool q 0).
Definition Qzero_b (q : Q) : bool := Qeq_bool q 0.

Definition inf_of_sign (negative : bool) : number :=
  if negative then NInf else PInf.

Definition num_neg (a : number) : number :=
  match a with
  | Fin q => fin (- q)
  | PInf => NInf
  | NInf => PInf
  | NaN => NaN
  end.

Definition num_add (a b : number) : number :=
  match a, b with
  | NaN, _ | _, NaN => NaN
  | Fin x, Fin y => fin (x + y)
  | PInf, NInf | NInf, PInf => NaN
  | PInf, _ | _, PInf => PInf
  | NInf, _ | _, NInf => NInf
  end.

Definition num_sub (a b : number) : number := num_add a (num_neg b).

(** Sign of a non-[NaN] number: [None] for zero. *)
Definition num_sign (a : number) : option bool :=
  match a with
  | Fin q => if Qzero_b q then None else Some (Qneg_b q)
  | PInf => Some false
  | NInf => Some true
  | NaN => None
  end.

Definition num_mul (a b : number) : number :=
  match a, b with
  | NaN, _ | _, NaN => NaN
  | Fin x, Fin y => fin (x * y)
  | _, _ =>
      match num_sign a, num_sign b with
      | Some s, Some t => inf_of_sign (xorb s t)
      | _, _ => NaN
      end
  end.

(** [a / b] of ECMAScript.  A finite non-zero value over zero is an
    infinity, zero over zero is [NaN]; nothing throws. *)
Definition num_div (a b : number) : number :=
  match a, b with
  | NaN, _ | _, NaN => NaN
  | Fin x, Fin y =>
      if Qzero_b y then
        (if Qzero_b x then NaN else inf_of_sign (Qneg_b x))
      else fin (x / y)
  | Fin _, _ => Fin 0
  | _, Fin y => inf_of_sign (xorb (match a with NInf => true | _ => false end) (Qneg_b y))
  | _, _ => NaN
  end.

(** [Math.round]: the closest integer, a tie going towards [+Infinity]. *)
Definition Math_round (a : number) : number :=
  match a with
  | Fin q => num_of_Z (Qfloor (q + (1 # 2)))
  | _ => a
  end.

(** [Math.pow(10, d)] for an integral exponent. *)
Definition pow10 (d : Z) : Q := Qpower (10 # 1) d.
Definition Math_pow10 (d : Z) : number := fin (pow10 d).

Definition num_lt (a b : number) : bool :=
  match a, b with
  | NaN, _ | _, NaN => false
  | Fin x, Fin y => negb (Qle_bool y x)
  | NInf, (Fin _ | PInf) => true
  | Fin _, PInf => true
  | _, _ => false
  end.

Definition num_gt (a b : number) : bool := num_lt b a.

Definition num_is_zero (a : number) : bool :=
  match a with
  | Fin q => Qzero_b q
  | _ => false
  end.

(** [a <= b]: false as soon as one side is [NaN]. *)
Definition num_le (a b : number) : bool :=
  match a, b with
  | NaN, _ | _, NaN => false
  | _, _ => negb (num_lt b a)
  end.

(** [a >= b] *)
Definition num_ge (a b : number) : bool := num_le b a.

(** [Math.floor] *)
Definition Math_floor (a : number) : number :=
  match a with
  | Fin q => num_of_Z (Qfloor q)
  | _ => a
  end.

(** ** Values *)

Inductive jsval : Type :=
| JUndefined
| JNull
| JNum (n : number).

Definition to_number (v : jsval) : number :=
  match v with
  | JUndefined => NaN
  | JNull => Fin 0
  | JNum n => n
  end.

(** [!!v] *)
Definition truthy (v : jsval) : bool :=
  match v with
  | JUndefined | JNull => false
  | JNum (Fin q) => negb (Qzero_b q)
  | JNum NaN => false
  | JNum _ => true
  end.

(** [v === 0] *)
Definition strict_eq_zero (v : jsval) : bool :=
  match v with
  | JNum n => num_is_zero n
  | _ => false
  end.

(** [a ?? b] *)
Definition nullish (v d : jsval) : jsval :=
  match v with
  | JUndefined | JNull => d
  | _ => v
  end.

(** [a > b] and [a < b] on the values above: both sides go through
    [ToNumber], and a comparison with [NaN] is false. *)
Definition js_gt (a b : jsval) : bool := num_gt (to_number a) (to_number b).
Definition js_lt (a b : jsval) : bool := num_lt (to_number a) (to_number b).

(** ** Divisions are recorded *)

Definition W (A : Type) : Type := (A * list number)%type.

Definition ret {A} (a : A) : W A := (a, []).

Definition bind {A B} (m : W A) (k : A -> W B) : W B :=
  let (b, l2) := k (fst m) in (b, snd m ++ l2).

Notation "'let*' x ':=' m 'in' k" := (bind m (fun x => k))
  (at level 10, x name, m at level 100, k at level 200).

Definition returned {A} (m : W A) : A := fst m.
Definition divisors {A} (m : W A) : list number := snd m.

Definition divide (a b : number) : W number := (num_div a b, [b]).

(** A run divides by zero when one of its recorded divisors is zero. *)
Definition no_zero_divisor {A} (m : W A) : Prop :=
  Forall (fun d => num_is_zero d = false) (divisors m).

(** ** Exceptions, promises and vendor calls *)

Inductive error_kind : Type := ErrorK | TypeErrorK | SyntaxErrorK.

(** A thrown value, seen through what the code reads of it: its class
    ([instanceof SyntaxError]) and its [message], [None] when reading
    [reason?.message] gives [undefined]. *)
Record js_error : Type := {
  err_kind : error_kind;
  err_message : option string
}.

(** [new Error(msg)] *)
Definition new_Error (msg : string) : js_error :=
  {| err_kind := ErrorK; err_message := Some msg |}.

Inductive result (A : Type) : Type :=
| Ok (a : A)
| Threw (e : js_error).
Arguments Ok {A} a.
Arguments Threw {A} e.

(** An effectful computation: how it ends, and the events of kind [E] it
    caused on the way (vendor calls for a fetcher; API calls and file
    writes for the report script), oldest first. *)
Definition Eff (E A : Type) : Type := (result A * list E)%type.

Definition outcome {E A} (m : Eff E A) : result A := fst m.
Definition events {E A} (m : Eff E A) : list E := snd m.

Definition resolve {E A} (a : A) : Eff E A := (Ok a, []).
Definition throw {E A} (e : js_error) : Eff E A := (Threw e, []).
Definition lift {E A} (r : result A) : Eff E A := (r, []).
Definition emit {E} (e : E) : Eff E unit := (Ok tt, [e]).

(** Sequencing ([await] then continue): a rejection skips the rest. *)
Definition ebind {E A B} (m : Eff E A) (k : A -> Eff E B) : Eff E B :=
  match fst m with
  | Ok a => let (r, t) := k a in (r, snd m ++ t)
  | Threw e => (Threw e, snd m)
  end.

Notation "'await' x ':=' m 'in' k" := (ebind m (fun x => k))
  (at level 10, x name, m at level 100, k at level 200).
Notation "'await' ' pat ':=' m 'in' k" :=
  (ebind m (fun x => match x with pat => k end))
  (at level 10, pat pattern, m at level 100, k at level 200).

(** [try { m } catch (err) { h err }] *)
Definition try_catch {E A} (m : Eff E A) (h : js_error -> Eff E A) : Eff E A :=
  match fst m with
  | Ok a => m
  | Threw e => let (r, t) := h e in (r, snd m ++ t)
  end.

(** [Promise.all]: every branch is started, so the events of all of them
    happen; the result is the list of values, or a rejection when a branch
    rejects (the model reports the first rejected branch in list order). *)
Fixpoint Promise_all {E A} (ps : list (Eff E A)) : Eff E (list A) :=
  match ps with
  | [] => (Ok [], [])
  | p :: ps' =>
      let rest := Promise_all ps' in
      (match fst p, fst rest with
       | Ok a, Ok l => Ok (a :: l)
       | Threw e, _ => Threw e
       | Ok _, Threw e => Threw e
       end, snd p ++ snd rest)
  end.

(** [Promise.all([p, q])] with its result destructured. *)
Definition Promise_all2 {E A B} (p : Eff E A) (q : Eff E B) : Eff E (A * B) :=
  (match fst p, fst q with
   | Ok a, Ok b => Ok (a, b)
   | Threw e, _ => Threw e
   | Ok _, Threw e => Threw e
   end, snd p ++ snd q).

(** A vendor request: where it goes and its query parameters. *)
Record request : Type := {
  req_url : string;
  req_params : list (string * string)
}.

(** A fetcher's computation: its events are vendor requests. *)
Abbreviation Async A := (Eff request A).

(** What [fetch] resolves to, as far as the code looks at it. *)
Record response (R : Type) : Type := {
  res_ok : bool;
  res_status : Z;
  res_text : string;
  res_json : result R
}.
Arguments res_ok {R} r.
Arguments res_status {R} r.
Arguments res_text {R} r.
Arguments res_json {R} r.

(** A vendor endpoint: the reply to each request; [fetch] itself may throw. *)
Definition endpoint (R : Type) : Type := request -> result (response R).

(** [await fetch(...)]: the call is issued and recorded. *)
Definition fetch {R} (server : endpoint R) (rq : request) : Async (response R) :=
  (server rq, [rq]).

(** The double quote, for the JSON texts that go into requests. *)
Definition dq : string := String (Ascii.ascii_of_nat 34) EmptyString.

(** [process.env] *)
Definition getenv (env : gmap string string) (name : string) : option string :=
  env !! name.

(** Truthiness of a string that may be [undefined]. *)
Definition str_truthy (x : option string) : bool :=
  match x with
  | None => false
  | Some s => negb (String.eqb s "")
  end.

(** ** Arrays *)

(** [Array.prototype.sort(cmp)]: stable; [x] stays in front of [y] unless
    [cmp(x, y) > 0]. *)
Fixpoint sort_insert {A} (cmp : A -> A -> number) (x : A) (l : list A) : list A :=
  match l with
  | [] => [x]
  | y :: l' => if num_gt (cmp x y) (Fin 0) then y :: sort_insert cmp x l'
               else x :: l
  end.

Definition js_sort {A} (cmp : A -> A -> number) (l : list A) : list A :=
  foldr (sort_insert cmp) [] l.

(** [arr.slice(0, n)] *)
Definition slice0 {A} (n : nat) (l : list A) : list A := firstn n l.

(** [arr.length] as a number *)
Definition js_length {A} (l : list A) : number := num_of_Z (Z.of_nat (length l)).

(** [const x = process.env.NAME; if (!x) throw new Error(msg)] *)
Definition require_env (env : gmap string string) (name msg : string) : result string :=
  match getenv env name with
  | Some x => if String.eqb x "" then Threw (new_Error msg) else Ok x
  | None => Threw (new_Error msg)
  end.

(** A [TypeError] carrying the engine's message. *)
Definition TypeError_with (message : string) : js_error :=
  {| err_kind := TypeErrorK; err_message := Some message |}.

(** [arr.map(f)] for an [f] that may throw: the first throw ends it. *)
Fixpoint map_result {A B} (f : A -> result B) (l : list A) : result (list B) :=
  match l with
  | [] => Ok []
  | x :: rest =>
      match f x with
      | Threw e => Threw e
      | Ok y =>
          match map_result f rest with
          | Ok ys => Ok (y :: ys)
          | Threw e => Threw e
          end
      end
  end.

(** Sequencing of steps that may throw. *)
Definition and_then {A B} (r : result A) (k : A -> result B) : result B :=
  match r with
  | Ok a => k a
  | Threw e => Threw e
  end.

(** ** Plain objects used as maps *)

(** The property name a key that may be [undefined] stands for. *)
Definition property_key (k : option string) : string := default "undefined" k.

(** [Object.fromEntries(entries)]: own properties are defined one after the
    other, a later entry replacing an earlier one of the same name. *)
Definition fromEntries {V} (entries : list (string * V)) : gmap string V :=
  fold_left (fun m e => <[fst e := snd e]> m) entries ∅.

(** The names every plain object inherits from [Object.prototype]. *)
Definition Object_prototype : list string :=
  ["constructor"; "__defineGetter__"; "__defineSetter__"; "hasOwnProperty";
   "__lookupGetter__"; "__lookupSetter__"; "isPrototypeOf"; "propertyIsEnumerable";
   "toString"; "valueOf"; "__proto__"; "toLocaleString"].

(** What [obj[name]] finds on an object made by [Object.fromEntries]: an
    own property, a member of [Object.prototype] (a function, or the
    prototype itself for [__proto__]: truthy, and without any of the
    properties the fetchers read), or nothing. *)
Inductive property (V : Type) : Type :=
| Own (v : V)
| Inherited
| Absent.
Arguments Own {V} v.
Arguments Inherited {V}.
Arguments Absent {V}.

Definition get_property {V} (obj : gmap string V) (name : string) : property V :=
  match obj !! name with
  | Some v => Own v
  | None => if existsb (String.eqb name) Object_prototype then Inherited else Absent
  end.

(** * fetchers/ga4.js *)

Module Ga4.
Definition pct (current previous : jsval) : W jsval :=
  if negb (truthy previous) || strict_eq_zero previous then ret JNull
  else
    let* r := divide (num_sub (to_number current) (to_number previous))
                     (to_number previous) in
    let* p := divide (Math_round (num_mul r (num_of_Z 1000))) (num_of_Z 10) in
    ret (JNum p).

Section Fetch.
(** The service-account credentials, the reports of the Data API and the
    record the fetcher returns are kept abstract: [build] stands for the
    parse helpers and the assembly of [data], which may throw on a
    malformed report. *)
Context {credentials report data : Type}.
Variable JSON_parse : string -> result credentials.
Variable daysAgo : Z -> string.
Variable env : gmap string string.
Variable runReport : credentials -> request -> result report.
Variable build : report -> report -> report -> report -> result data.

Definition getGoogleAuth : result credentials :=
  match require_env env "GOOGLE_SERVICE_ACCOUNT"
          "GOOGLE_SERVICE_ACCOUNT env var is missing" with
  | Ok raw => JSON_parse raw
  | Threw e => Threw e
  end.

Definition report_request (propertyId kind : string) (ranges : list (Z * Z)) : request :=
  {| req_url := "properties/" +:+ propertyId;
     req_params := ("report", kind) ::
       flat_map (fun r => [("startDate", daysAgo (fst r)); ("endDate", daysAgo (snd r))])
                ranges |}.

Definition client_runReport (auth : credentials) (rq : request) : Async report :=
  (runReport auth rq, [rq]).

Definition fetchGA4Data : Async data :=
  await propertyId := lift (require_env env "GA4_PROPERTY_ID"
                              "GA4_PROPERTY_ID env var is missing") in
  await auth := lift getGoogleAuth in
  await overviewRes :=
    client_runReport auth (report_request propertyId "overview" [(7, 1); (14, 8)]) in
  await pagesRes :=
    client_runReport auth (report_request propertyId "pages" [(7, 1)]) in
  await channelRes :=
    client_runReport auth (report_request propertyId "channels" [(7, 1); (14, 8)]) in
  await dailyRes :=
    client_runReport auth (report_request propertyId "daily" [(7, 1)]) in
  lift (build overviewRes pagesRes channelRes dailyRes).
End Fetch.
End Ga4.

(** * fetchers/gsc.js *)

Module Gsc.
Section Fetch.
Context {credentials rows data : Type}.
Variable JSON_parse : string -> result credentials.
Variable daysAgo : Z -> string.
Variable env : gmap string string.
Variable searchanalytics_query : credentials -> request -> result rows.
Variable build : rows -> rows -> rows -> rows -> result data.

Definition getGoogleAuth : result credentials :=
  match require_env env "GOOGLE_SERVICE_ACCOUNT"
          "GOOGLE_SERVICE_ACCOUNT env var is missing" with
  | Ok raw => JSON_parse raw
  | Threw e => Threw e
  end.

Definition query_request (siteUrl dimension : string) (startDate endDate : string)
    (rowLimit : option string) : request :=
  {| req_url := siteUrl;
     req_params := [("startDate", startDate); ("endDate", endDate);
                    ("dimensions", dimension)] ++
                   match rowLimit with Some n => [("rowLimit", n)] | None => [] end ++
                   [("dataState", "final")] |}.

Definition sc_query (auth : credentials) (rq : request) : Async rows :=
  (searchanalytics_query auth rq, [rq]).

Definition fetchGSCData : Async data :=
  await siteUrl := lift (require_env env "GSC_SITE_URL"
                           "GSC_SITE_URL env var is missing") in
  await auth := lift getGoogleAuth in
  let thisWeekEnd := daysAgo 3 in
  let thisWeekStart := daysAgo 10 in
  let lastWeekEnd := daysAgo 11 in
  let lastWeekStart := daysAgo 17 in
  await queriesRes :=
    sc_query auth (query_request siteUrl "query" thisWeekStart thisWeekEnd (Some "50")) in
  await pagesRes :=
    sc_query auth (query_request siteUrl "page" thisWeekStart thisWeekEnd (Some "25")) in
  await lastWeekRes :=
    sc_query auth (query_request siteUrl "query" lastWeekStart lastWeekEnd (Some "50")) in
  await deviceRes :=
    sc_query auth (query_request siteUrl "device" thisWeekStart thisWeekEnd None) in
  lift (build queriesRes pagesRes lastWeekRes deviceRes).
End Fetch.
End Gsc.

(** ** fetchers/gsc.js: the rows, and the record made of them *)

Module GscData.
(** A row of a Search Analytics reply, through what the code reads:
    [row.keys], [row.clicks], [row.impressions], [row.ctr],
    [row.position]. *)
Record raw_row : Type := {
  keys : option (list string);
  r_clicks : jsval;
  r_impressions : jsval;
  r_ctr : jsval;
  r_position : jsval
}.

(** The [data] of a reply: its [rows], which the API leaves out when there
    are none. *)
Record reply : Type := { rows : option (list raw_row) }.

(** An element of [parseRows(...)]; [key] is [undefined] when [keys] is
    empty. *)
Record query : Type := {
  key : option string;
  clicks : jsval;
  impressions : jsval;
  ctr : number;
  position : number
}.

(** An element of [queriesWithDelta]: the query spread, and the three
    fields of the comparison. *)
Record query_delta : Type := {
  q_query : query;
  positionLastWeek : jsval;
  positionDelta : jsval;
  clicksDelta : jsval
}.

Record gsc_data : Type := {
  thisWeek_startDate : string;
  thisWeek_endDate : string;
  topQueries : list query_delta;
  topPages : list query;
  risingQueries : list query_delta;
  fallingQueries : list query_delta;
  opportunities : list query_delta;
  deviceBreakdown : list query;
  fetchedAt : string
}.

(** [Math.round(x) / 10] *)
Definition round_over_10 (x : number) : number :=
  returned (divide (Math_round x) (num_of_Z 10)).

Section Parse.
(** The engine's message for reading the named property of [undefined]. *)
Variable cannot_read : string -> string.

Definition parseRow (row : raw_row) : result query :=
  match keys row with
  | None => Threw (TypeError_with (cannot_read "0"))
  | Some ks =>
      Ok {| key := head ks;
            clicks := r_clicks row;
            impressions := r_impressions row;
            ctr := round_over_10 (num_mul (to_number (r_ctr row)) (num_of_Z 1000));
            position := round_over_10 (num_mul (to_number (r_position row)) (num_of_Z 10)) |}
  end.

(** [parseRows(rows = [])] *)
Definition parseRows (rws : option (list raw_row)) : result (list query) :=
  map_result parseRow (default [] rws).

(** [Object.fromEntries(lastWeekQueries.map(q => [q.key, q]))] *)
Definition lastWeekMap_of (lastWeekQueries : list query) : gmap string query :=
  fromEntries (map (fun q => (property_key (key q), q)) lastWeekQueries).

(** The callback of [thisWeekQueries.map]. *)
Definition with_delta (lastWeekMap : gmap string query) (q : query) : query_delta :=
  match get_property lastWeekMap (property_key (key q)) with
  | Own lw =>
      {| q_query := q;
         positionLastWeek := JNum (position lw);
         positionDelta :=
           JNum (round_over_10 (num_mul (num_sub (position lw) (position q)) (num_of_Z 10)));
         clicksDelta := JNum (num_sub (to_number (clicks q)) (to_number (clicks lw))) |}
  | Inherited =>
      {| q_query := q;
         positionLastWeek := JNull;
         positionDelta :=
           JNum (round_over_10 (num_mul (num_sub NaN (position q)) (num_of_Z 10)));
         clicksDelta := JNum (num_sub (to_number (clicks q)) NaN) |}
  | Absent =>
      {| q_query := q; positionLastWeek := JNull; positionDelta := JNull;
         clicksDelta := JNull |}
  end.

Definition is_rising (q : query_delta) : bool := js_gt (positionDelta q) (JNum (Fin 2)).
Definition is_falling (q : query_delta) : bool := js_lt (positionDelta q) (JNum (Fin (-2))).

(** High impressions, low click-through rate, not yet in the top 5. *)
Definition is_opportunity (q : query_delta) : bool :=
  js_gt (impressions (q_query q)) (JNum (Fin 50))
  && num_lt (ctr (q_query q)) (Fin 3)
  && num_gt (position (q_query q)) (Fin 5).

Definition by_impressions (a b : query_delta) : number :=
  num_sub (to_number (impressions (q_query b))) (to_number (impressions (q_query a))).

(** Everything [fetchGSCData] does once the four replies are in; [now] is
    the time read for [fetchedAt]. *)
Definition build (thisWeekStart thisWeekEnd now : string)
    (queriesRes pagesRes lastWeekRes deviceRes : reply) : result gsc_data :=
  and_then (parseRows (rows queriesRes)) (fun thisWeekQueries =>
  and_then (parseRows (rows lastWeekRes)) (fun lastWeekQueries =>
  let lastWeekMap := lastWeekMap_of lastWeekQueries in
  let queriesWithDelta := map (with_delta lastWeekMap) thisWeekQueries in
  let rising := slice0 10 (List.filter is_rising queriesWithDelta) in
  let falling := slice0 10 (List.filter is_falling queriesWithDelta) in
  let opps :=
    slice0 10 (js_sort by_impressions (List.filter is_opportunity queriesWithDelta)) in
  and_then (parseRows (rows pagesRes)) (fun pgs =>
  and_then (parseRows (rows deviceRes)) (fun devices =>
  Ok {| thisWeek_startDate := thisWeekStart;
        thisWeek_endDate := thisWeekEnd;
        topQueries := slice0 25 queriesWithDelta;
        topPages := slice0 15 pgs;
        risingQueries := rising;
        fallingQueries := falling;
        opportunities := opps;
        deviceBreakdown := devices;
        fetchedAt := now |})))).

(** The fetcher, with the replies and the returned record as above. *)
Definition fetchGSCData {credentials : Type} (JSON_parse : string -> result credentials)
    (daysAgo : Z -> string) (env : gmap string string)
    (searchanalytics_query : credentials -> request -> result reply) (now : string)
    : Async gsc_data :=
  Gsc.fetchGSCData JSON_parse daysAgo env searchanalytics_query
    (build (daysAgo 10) (daysAgo 3) now).
End Parse.
End GscData.

(** * fetchers/youtube.js *)

Module Youtube.
Definition pct (current previous : jsval) : W jsval :=
  if negb (truthy previous) || strict_eq_zero previous then ret JNull
  else
    let* r := divide (num_sub (to_number current) (to_number previous))
                     (to_number previous) in
    let* p := divide (Math_round (num_mul r (num_of_Z 1000))) (num_of_Z 10) in
    ret (JNum p).

Section Fetch.
(** The replies of the two Google APIs and the records made of them are
    kept abstract; the steps that read them may throw on a malformed reply,
    at the place where the source reads it. *)
Context {credentials channels report details channel_stats metrics data : Type}.
Variable JSON_parse : string -> result credentials.
Variable daysAgo : Z -> string.
Variable env : gmap string string.
Variable channels_list : credentials -> request -> result channels.
Variable reports_query : credentials -> request -> result report.
Variable videos_list : credentials -> request -> result details.
(** [channelData.items?.[0]?.id] *)
Variable channel_id : channels -> option string.
(** The video ids in the rows of a report. *)
Variable video_ids : report -> list string.
(** [channelStats], read off [channel.snippet] and [channel.statistics]. *)
Variable parseChannel : channels -> result channel_stats.
Variable parseChannelMetrics : report -> result metrics.
(** The week-over-week deltas, [topVideos], [trafficSources] and the
    returned object. *)
Variable build :
  channel_stats -> metrics -> metrics -> report -> option details -> report -> result data.

Definition getGoogleAuth : result credentials :=
  match require_env env "GOOGLE_SERVICE_ACCOUNT"
          "GOOGLE_SERVICE_ACCOUNT env var is missing" with
  | Ok raw => JSON_parse raw
  | Threw e => Threw e
  end.

Definition analytics_request (channelId : string) (first last : Z)
    (extra : list (string * string)) : request :=
  {| req_url := "channel==" +:+ channelId;
     req_params := [("startDate", daysAgo first); ("endDate", daysAgo last)] ++ extra |}.

Definition call {R} (api : credentials -> request -> result R)
    (auth : credentials) (rq : request) : Async R :=
  (api auth rq, [rq]).

Definition join_ids (ids : list string) : string :=
  match ids with
  | [] => ""
  | x :: rest => fold_left (fun acc y => acc +:+ "," +:+ y) rest x
  end.

Definition fetchYouTubeData : Async data :=
  await auth := lift getGoogleAuth in
  await channelData :=
    call channels_list auth {| req_url := "channels.list"; req_params := [("mine", "true")] |} in
  match channel_id channelData with
  | None => throw (new_Error "No YouTube channel found for this service account")
  | Some channelId =>
      if String.eqb channelId ""
      then throw (new_Error "No YouTube channel found for this service account")
      else
        await channelStats := lift (parseChannel channelData) in
        await '(thisWeekStats, lastWeekStats) := Promise_all2
          (call reports_query auth (analytics_request channelId 7 1 [("metrics", "channel")]))
          (call reports_query auth (analytics_request channelId 14 8 [("metrics", "channel")])) in
        await thisWeek := lift (parseChannelMetrics thisWeekStats) in
        await lastWeek := lift (parseChannelMetrics lastWeekStats) in
        await topVideosData :=
          call reports_query auth
            (analytics_request channelId 7 1
               [("dimensions", "video"); ("sort", "-views"); ("maxResults", "10")]) in
        let videoIds := video_ids topVideosData in
        await videoDetails :=
          match videoIds with
          | [] => resolve None
          | _ :: _ =>
              await d := call videos_list auth
                {| req_url := "videos.list"; req_params := [("id", join_ids videoIds)] |} in
              resolve (Some d)
          end in
        await sourcesData :=
          call reports_query auth
            (analytics_request channelId 7 1
               [("dimensions", "insightTrafficSourceType"); ("sort", "-views")]) in
        lift (build channelStats thisWeek lastWeek topVideosData videoDetails sourcesData)
  end.
End Fetch.
End Youtube.

(** ** fetchers/youtube.js: the channel metrics and their deltas *)

Module YoutubeData.
(** The [data] of a channel-level report: the names of its column headers
    ([h.name], which may be missing) and its rows of numbers. *)
Record report : Type := {
  columnHeaders : option (list (option string));
  rows : option (list (list jsval))
}.

Record deltas : Type := {
  viewsDelta : jsval;
  watchTimeDelta : jsval;
  avgDurationDelta : jsval;
  subscriberNetThis : number;
  subscriberNetLast : number
}.

(** [row[i] ?? 0] *)
Definition cell (row : list jsval) (i : nat) : jsval :=
  nullish (nth i row JUndefined) (JNum (Fin 0)).

Definition parseChannelMetrics (res : report) : gmap string jsval :=
  let headers := default [] (columnHeaders res) in
  let row := match rows res with
             | Some (r :: _) => r
             | _ => []
             end in
  fromEntries (imap (fun i h => (property_key h, cell row i)) headers).

(** [metrics.name] for a name that [Object.prototype] does not have. *)
Definition metric (metrics : gmap string jsval) (name : string) : jsval :=
  default JUndefined (metrics !! name).

Definition weekOverWeek_of (thisWeek lastWeek : gmap string jsval) : deltas :=
  {| viewsDelta := returned (Youtube.pct (metric thisWeek "views") (metric lastWeek "views"));
     watchTimeDelta :=
       returned (Youtube.pct (metric thisWeek "estimatedMinutesWatched")
                             (metric lastWeek "estimatedMinutesWatched"));
     avgDurationDelta :=
       returned (Youtube.pct (metric thisWeek "averageViewDuration")
                             (metric lastWeek "averageViewDuration"));
     subscriberNetThis :=
       num_sub (to_number (metric thisWeek "subscribersGained"))
               (to_number (metric thisWeek "subscribersLost"));
     subscriberNetLast :=
       num_sub (to_number (metric lastWeek "subscribersGained"))
               (to_number (metric lastWeek "subscribersLost")) |}.
End YoutubeData.

(** * fetchers/kit.js *)

Module Kit.
Definition KIT_BASE : string := "https://api.kit.com/v4".

Definition round (val : jsval) (decimals : Z) : W number :=
  let factor := Math_pow10 decimals in
  divide (Math_round (num_mul (to_number val) factor)) factor.

(** What the code reads of a broadcast of the listing:
    [b.id], [b.email_template?.name], [b.subject], [b.published_at],
    [b.send_at]. *)
Record broadcast : Type := {
  b_id : string;
  b_email_template_name : option string;
  b_subject : option string;
  b_published_at : option string;
  b_send_at : option string
}.

Record raw_stats : Type := {
  recipients : jsval;
  open_rate : jsval;
  click_rate : jsval;
  unsubscribe_rate : jsval;
  s_opens : jsval;
  s_clicks : jsval;
  s_unsubscribes : jsval
}.

(** [{}] *)
Definition empty_stats : raw_stats :=
  {| recipients := JUndefined; open_rate := JUndefined; click_rate := JUndefined;
     unsubscribe_rate := JUndefined; s_opens := JUndefined; s_clicks := JUndefined;
     s_unsubscribes := JUndefined |}.

(** [statsRes.broadcast?.stats] and [statsRes.stats] *)
Record stats_res : Type := {
  sr_broadcast_stats : option raw_stats;
  sr_stats : option raw_stats
}.

(** [broadcastsRes.broadcasts] and [broadcastsRes.data] *)
Record broadcasts_res : Type := {
  br_broadcasts : option (list broadcast);
  br_data : option (list broadcast)
}.

(** [res.pagination?.total_count] and [res.meta?.total_count] *)
Record count_res : Type := {
  pagination_total_count : jsval;
  meta_total_count : jsval
}.

(** An element of [broadcastsWithStats].  A field the object literal
    does not have reads as [undefined] ([None] for [statsAvailable]).
    Neither shape has an [error] field. *)
Record item : Type := {
  id : string;
  subject : string;
  publishedAt : option string;
  recipientCount : jsval;
  openRate : jsval;
  clickRate : jsval;
  unsubscribeRate : jsval;
  opens : jsval;
  clicks : jsval;
  unsubscribes : jsval;
  statsAvailable : option bool
}.

Record averages_t : Type := {
  avg_openRate : jsval;
  avg_clickRate : jsval;
  avg_unsubscribeRate : jsval
}.

Record kit_data : Type := {
  subscribers_active : jsval;
  subscribers_total : jsval;
  subscribers_newThisWeek : jsval;
  recentBroadcasts : list item;
  allBroadcasts : list item;
  averages : averages_t;
  bestBroadcast : option item;
  worstBroadcast : option item;
  fetchedAt : string
}.

(** [a ?? b] on strings that may be absent *)
Definition or_else {A} (a b : option A) : option A :=
  match a with Some _ => a | None => b end.

(** [v != null && !isNaN(v)] *)
Definition is_valid_number (v : jsval) : bool :=
  match v with
  | JUndefined | JNull => false
  | JNum NaN => false
  | JNum _ => true
  end.

(** The local [avg(arr, key)] of [fetchKitData]; [key] is the field read. *)
Definition avg (arr : list item) (key : item -> jsval) : W jsval :=
  let vals := List.filter is_valid_number (map key arr) in
  match vals with
  | [] => ret JNull
  | _ :: _ =>
      let* mean := divide (fold_left (fun a b => num_add a (to_number b)) vals (Fin 0))
                          (js_length vals) in
      let* r := round (JNum mean) 1 in
      ret (JNum r)
  end.

Section Fetch.
Variable env : gmap string string.
Variable broadcasts_api : endpoint broadcasts_res.
Variable stats_api : endpoint stats_res.
Variable subscribers_api : endpoint count_res.
(** The date seven days ago as [YYYY-MM-DD], and the time of return. *)
Variable isoDate : string.
Variable now : string.

Definition headers : result (list (string * string)) :=
  match require_env env "KIT_API_SECRET" "KIT_API_SECRET env var is missing" with
  | Ok secret => Ok [("Authorization", "Bearer " +:+ secret);
                     ("Content-Type", "application/json")]
  | Threw e => Threw e
  end.

Definition kitGet {R} (api : endpoint R) (path : string) : Async R :=
  await h := lift headers in
  await res := fetch api {| req_url := KIT_BASE +:+ path; req_params := h |} in
  if negb (res_ok res) then
    throw (new_Error ("Kit API error " +:+ pretty (res_status res) +:+ " on " +:+ path
                      +:+ ": " +:+ res_text res))
  else lift (res_json res).

(** The object returned by the [try] block. *)
Definition stats_item (b : broadcast) (statsRes : stats_res) : item :=
  let stats := default empty_stats
                 (or_else (sr_broadcast_stats statsRes) (sr_stats statsRes)) in
  {| id := b_id b;
     subject := default "Untitled" (or_else (b_email_template_name b) (b_subject b));
     publishedAt := or_else (b_published_at b) (b_send_at b);
     recipientCount := nullish (recipients stats) (JNum (Fin 0));
     openRate := JNum (returned (round (nullish (open_rate stats) (JNum (Fin 0))) 1));
     clickRate := JNum (returned (round (nullish (click_rate stats) (JNum (Fin 0))) 1));
     unsubscribeRate :=
       JNum (returned (round (nullish (unsubscribe_rate stats) (JNum (Fin 0))) 2));
     opens := nullish (s_opens stats) (JNum (Fin 0));
     clicks := nullish (s_clicks stats) (JNum (Fin 0));
     unsubscribes := nullish (s_unsubscribes stats) (JNum (Fin 0));
     statsAvailable := None |}.

(** The object returned by the [catch] block. *)
Definition pending_item (b : broadcast) : item :=
  {| id := b_id b;
     subject := default "Untitled" (b_subject b);
     publishedAt := or_else (b_published_at b) (b_send_at b);
     recipientCount := JUndefined; openRate := JUndefined;
     clickRate := JUndefined; unsubscribeRate := JUndefined;
     opens := JUndefined; clicks := JUndefined; unsubscribes := JUndefined;
     statsAvailable := Some false |}.

Definition with_stats (b : broadcast) : Async item :=
  try_catch
    (await statsRes := kitGet stats_api ("/broadcasts/" +:+ b_id b +:+ "/stats") in
     resolve (stats_item b statsRes))
    (fun _ => resolve (pending_item b)).

(** [b.statsAvailable !== false] *)
Definition is_completed (b : item) : bool :=
  match statsAvailable b with
  | Some false => false
  | _ => true
  end.

Definition total_count (r : count_res) : jsval :=
  nullish (nullish (pagination_total_count r) (meta_total_count r)) (JNum (Fin 0)).

Definition fetchKitData : Async kit_data :=
  await broadcastsRes :=
    kitGet broadcasts_api "/broadcasts?per_page=8&sort_field=published_at&sort_order=desc" in
  let broadcasts :=
    default [] (or_else (br_broadcasts broadcastsRes) (br_data broadcastsRes)) in
  await broadcastsWithStats := Promise_all (map with_stats (slice0 8 broadcasts)) in
  let completedBroadcasts := List.filter is_completed broadcastsWithStats in
  let recent := slice0 4 completedBroadcasts in
  await '(activeRes, totalRes) := Promise_all2
    (kitGet subscribers_api "/subscribers?status=active&per_page=1")
    (kitGet subscribers_api "/subscribers?per_page=1") in
  let activeSubscribers := total_count activeRes in
  let totalSubscribers := total_count totalRes in
  await newThisWeekRes :=
    kitGet subscribers_api
      ("/subscribers?status=active&created_after=" +:+ isoDate +:+ "&per_page=1") in
  let newThisWeek := total_count newThisWeekRes in
  let avgs :=
    {| avg_openRate := returned (avg recent openRate);
       avg_clickRate := returned (avg recent clickRate);
       avg_unsubscribeRate := returned (avg recent unsubscribeRate) |} in
  let sorted :=
    js_sort (fun a b => num_sub (to_number (openRate b)) (to_number (openRate a))) recent in
  resolve
    {| subscribers_active := activeSubscribers;
       subscribers_total := totalSubscribers;
       subscribers_newThisWeek := newThisWeek;
       recentBroadcasts := recent;
       allBroadcasts := completedBroadcasts;
       averages := avgs;
       bestBroadcast := head sorted;
       worstBroadcast := last sorted;
       fetchedAt := now |}.
End Fetch.
End Kit.

(** * fetchers/meta.js *)

Module Meta.
Definition META_BASE : string := "https://graph.facebook.com/v19.0".

Definition pct (current previous : jsval) : W jsval :=
  if negb (truthy previous) || strict_eq_zero previous then ret JNull
  else
    let* r := divide (num_sub (to_number current) (to_number previous))
                     (to_number previous) in
    let* p := divide (Math_round (num_mul r (num_of_Z 1000))) (num_of_Z 10) in
    ret (JNum p).

Definition round (val : jsval) (decimals : Z) : W number :=
  let factor := Math_pow10 decimals in
  divide (Math_round (num_mul (to_number val) factor)) factor.

Definition INSIGHT_FIELDS : string :=
  "campaign_name,adset_name,spend,impressions,reach,clicks,ctr,cpm,cpc,actions,cost_per_action_type,video_avg_time_watched_actions,video_p75_watched_actions".

Definition AD_FIELDS : string :=
  "ad_name,campaign_name,spend,impressions,clicks,ctr,actions,cost_per_action_type".

(** An entry of [actions] or [cost_per_action_type]. *)
Record action : Type := {
  action_type : string;
  action_value : option string
}.

(** A row of an insights reply; the Graph API sends numbers as strings. *)
Record raw_insight : Type := {
  campaign_name : option string;
  ad_name : option string;
  r_spend : option string;
  r_impressions : option string;
  r_reach : option string;
  r_clicks : option string;
  r_ctr : option string;
  r_cpm : option string;
  r_cpc : option string;
  r_actions : option (list action);
  r_cost_per_action_type : option (list action)
}.

(** [{}] *)
Definition empty_insight : raw_insight :=
  {| campaign_name := None; ad_name := None; r_spend := None; r_impressions := None;
     r_reach := None; r_clicks := None; r_ctr := None; r_cpm := None; r_cpc := None;
     r_actions := None; r_cost_per_action_type := None |}.

(** The reply to an insights query: [json.error?.message] and [json.data]. *)
Record payload : Type := {
  p_error : option string;
  p_data : option (list raw_insight)
}.

Record insight : Type := {
  spend : number;
  impressions : number;
  reach : number;
  clicks : number;
  ctr : number;
  cpm : number;
  cpc : number;
  leads : number;
  costPerLead : jsval;
  linkClicks : number
}.

Record campaign : Type := {
  campaignName : option string;
  c_insight : insight
}.

Record ad : Type := {
  adName : option string;
  ad_campaignName : option string;
  ad_insight : insight
}.

Record deltas : Type := {
  spendDelta : jsval;
  impressionsDelta : jsval;
  ctrDelta : jsval;
  cpmDelta : jsval;
  leadsDelta : jsval;
  costPerLeadDelta : jsval
}.

Record meta_data : Type := {
  thisWeek : insight * (string * string);
  lastWeek : insight * (string * string);
  weekOverWeek : deltas;
  campaigns : list campaign;
  topAds : list ad;
  underperforming : list campaign;
  fetchedAt : string
}.

(** [actions.find(a => a.action_type === t)?.value] *)
Definition find_value (actions : list action) (t : string) : option string :=
  match List.find (fun a => String.eqb (action_type a) t) actions with
  | Some a => action_value a
  | None => None
  end.

Definition first_some {A} (a b : option A) : option A :=
  match a with Some _ => a | None => b end.

(** The filter of [underperforming]: the cost-per-lead rule, or the
    click-through rule with its spend floor. *)
Definition is_underperforming (avgCPL : jsval) (c : campaign) : bool :=
  (truthy avgCPL && truthy (costPerLead (c_insight c)) &&
   num_gt (to_number (costPerLead (c_insight c)))
          (num_mul (to_number avgCPL) (Fin (3 # 2))))
  || (num_lt (ctr (c_insight c)) (Fin (1 # 2)) &&
      num_gt (spend (c_insight c)) (Fin 50)).

Definition select_underperforming (avgCPL : jsval) (cs : list campaign) : list campaign :=
  List.filter (is_underperforming avgCPL) cs.

Section Fetch.
(** [parseFloat] and [parseInt] on strings are those of the platform. *)
Variable parseFloat : string -> number.
Variable parseInt : string -> number.
Variable daysAgo : Z -> string.
Variable now : string.
Variable env : gmap string string.
Variable graph_api : endpoint payload.

Definition AD_ACCOUNT : result string :=
  require_env env "META_AD_ACCOUNT_ID" "META_AD_ACCOUNT_ID env var is missing".

Definition ACCESS_TOKEN : result string :=
  require_env env "META_ACCESS_TOKEN" "META_ACCESS_TOKEN env var is missing".

Definition metaGet (path : string) (params : list (string * string)) : Async payload :=
  await token := lift ACCESS_TOKEN in
  await res := fetch graph_api
    {| req_url := META_BASE +:+ path;
       req_params := ("access_token", token) :: params |} in
  await json := lift (res_json res) in
  match p_error json with
  | Some message => throw (new_Error ("Meta API error: " +:+ message))
  | None => resolve json
  end.

(** [parseFloat(x ?? 0)] and [parseInt(x ?? 0)] *)
Definition parseFloat0 (x : option string) : number :=
  match x with Some s => parseFloat s | None => Fin 0 end.
Definition parseInt0 (x : option string) : number :=
  match x with Some s => parseInt s | None => Fin 0 end.

Definition parseInsight (i : raw_insight) : insight :=
  let actions := default [] (r_actions i) in
  let costPerAction := default [] (r_cost_per_action_type i) in
  let leads_v := first_some (find_value actions "lead")
                   (find_value actions "onsite_conversion.lead_grouped") in
  let costPerLead_v := first_some (find_value costPerAction "lead")
                         (find_value costPerAction "onsite_conversion.lead_grouped") in
  let linkClicks_v := find_value actions "link_click" in
  {| spend := parseFloat0 (r_spend i);
     impressions := parseInt0 (r_impressions i);
     reach := parseInt0 (r_reach i);
     clicks := parseInt0 (r_clicks i);
     ctr := returned (round (JNum (parseFloat0 (r_ctr i))) 2);
     cpm := returned (round (JNum (parseFloat0 (r_cpm i))) 2);
     cpc := returned (round (JNum (parseFloat0 (r_cpc i))) 2);
     leads := parseInt0 leads_v;
     costPerLead :=
       match costPerLead_v with
       | Some s => if String.eqb s "" then JNull
                   else JNum (returned (round (JNum (parseFloat s)) 2))
       | None => JNull
       end;
     linkClicks := parseInt0 linkClicks_v |}.

Definition parseCampaigns (res : payload) : list campaign :=
  js_sort (fun a b => num_sub (spend (c_insight b)) (spend (c_insight a)))
    (map (fun c => {| campaignName := campaign_name c; c_insight := parseInsight c |})
         (default [] (p_data res))).

Definition parseAds (res : payload) : list ad :=
  map (fun a => {| adName := ad_name a; ad_campaignName := campaign_name a;
                   ad_insight := parseInsight a |})
      (default [] (p_data res)).

Definition first_row (res : payload) : raw_insight :=
  match p_data res with
  | Some (r :: _) => r
  | _ => empty_insight
  end.

(** [JSON.stringify({ since, until })] *)
Definition time_range (r : string * string) : string :=
  "{" +:+ dq +:+ "since" +:+ dq +:+ ":" +:+ dq +:+ fst r +:+ dq +:+ ","
  +:+ dq +:+ "until" +:+ dq +:+ ":" +:+ dq +:+ snd r +:+ dq +:+ "}".

Definition fetchMetaData : Async meta_data :=
  await accountId := lift AD_ACCOUNT in
  let thisWeekRange := (daysAgo 7, daysAgo 1) in
  let lastWeekRange := (daysAgo 14, daysAgo 8) in
  await '(thisWeekAccount, lastWeekAccount) := Promise_all2
    (metaGet ("/" +:+ accountId +:+ "/insights")
       [("fields", INSIGHT_FIELDS); ("date_preset", "last_7d");
        ("time_range", time_range thisWeekRange); ("level", "account")])
    (metaGet ("/" +:+ accountId +:+ "/insights")
       [("fields", INSIGHT_FIELDS); ("date_preset", "last_7d");
        ("time_range", time_range lastWeekRange); ("level", "account")]) in
  await campaignsRes :=
    metaGet ("/" +:+ accountId +:+ "/insights")
      [("fields", INSIGHT_FIELDS); ("time_range", time_range thisWeekRange);
       ("level", "campaign"); ("limit", "20")] in
  await adsRes :=
    metaGet ("/" +:+ accountId +:+ "/insights")
      [("fields", AD_FIELDS); ("time_range", time_range thisWeekRange);
       ("level", "ad"); ("limit", "20");
       ("sort", "[" +:+ dq +:+ "spend_descending" +:+ dq +:+ "]")] in
  let thisWeekSummary := parseInsight (first_row thisWeekAccount) in
  let lastWeekSummary := parseInsight (first_row lastWeekAccount) in
  let wow :=
    {| spendDelta := returned (pct (JNum (spend thisWeekSummary)) (JNum (spend lastWeekSummary)));
       impressionsDelta :=
         returned (pct (JNum (impressions thisWeekSummary)) (JNum (impressions lastWeekSummary)));
       ctrDelta := returned (pct (JNum (ctr thisWeekSummary)) (JNum (ctr lastWeekSummary)));
       cpmDelta := returned (pct (JNum (cpm thisWeekSummary)) (JNum (cpm lastWeekSummary)));
       leadsDelta := returned (pct (JNum (leads thisWeekSummary)) (JNum (leads lastWeekSummary)));
       costPerLeadDelta :=
         if truthy (costPerLead thisWeekSummary) && truthy (costPerLead lastWeekSummary)
         then returned (pct (costPerLead thisWeekSummary) (costPerLead lastWeekSummary))
         else JNull |} in
  let cs := parseCampaigns campaignsRes in
  let ads := parseAds adsRes in
  let avgCPL := costPerLead thisWeekSummary in
  resolve
    {| thisWeek := (thisWeekSummary, thisWeekRange);
       lastWeek := (lastWeekSummary, lastWeekRange);
       weekOverWeek := wow;
       campaigns := cs;
       topAds := slice0 10 ads;
       underperforming := select_underperforming avgCPL cs;
       fetchedAt := now |}.
End Fetch.
End Meta.

(** * fetchers/unbounce.js *)

Module Unbounce.
Definition UNBOUNCE_BASE : string := "https://api.unbounce.com".

Definition pct (current previous : jsval) : W jsval :=
  if negb (truthy previous) || strict_eq_zero previous then ret JNull
  else
    let* r := divide (num_sub (to_number current) (to_number previous))
                     (to_number previous) in
    let* p := divide (Math_round (num_mul r (num_of_Z 1000))) (num_of_Z 10) in
    ret (JNum p).

Definition avg (arr : list jsval) : W number :=
  match arr with
  | [] => ret (Fin 0)
  | _ :: _ =>
      divide (fold_left (fun a b => num_add a (to_number b)) arr (Fin 0)) (js_length arr)
  end.

Definition round (val : jsval) (decimals : Z) : W number :=
  let factor := Math_pow10 decimals in
  divide (Math_round (num_mul (to_number val) factor)) factor.

(** [data.access_token] of the OAuth reply *)
Record token_res : Type := { access_token : option string }.

(** [accountsRes.accounts], each account seen through its [id] *)
Record accounts_res : Type := { accounts : option (list string) }.

Record page : Type := {
  p_id : string;
  p_name : option string;
  p_url : option string;
  p_state : option string
}.

Record pages_res : Type := { pages : option (list page) }.

Record raw_stats : Type := {
  rs_id : option string;
  rs_visitors : jsval;
  rs_conversions : jsval;
  rs_conversion_rate : jsval
}.

(** A stats reply: its [page_group_stats] array, and the reply itself read
    as a stats object (the fallback of [parsePageStats]). *)
Record stats_res : Type := {
  page_group_stats : option (list raw_stats);
  sr_self : raw_stats
}.

Record week_stats : Type := {
  visitors : jsval;
  conversions : jsval;
  conversionRate : number
}.

(** An element of [pageStats]; of the two object literals, the first has
    no [error] and the second no [thisWeek], [lastWeek] or deltas. *)
Record page_item : Type := {
  pageId : string;
  pageName : option string;
  url : option string;
  state : option string;
  thisWeek : option week_stats;
  lastWeek : option week_stats;
  conversionDelta : jsval;
  visitorsDelta : jsval;
  error : option string
}.

Record variant : Type := {
  variantId : option string;
  v_visitors : jsval;
  v_conversionRate : number;
  v_conversions : jsval
}.

Record ab_test : Type := {
  ab_pageName : option string;
  variants : list variant
}.

Record unbounce_data : Type := {
  topPages : list page_item;
  bestPages : list page_item;
  problemPages : list page_item;
  activeABTests : list ab_test;
  averageConversionRate : number;
  fetchedAt : string
}.

Definition parsePageStats (res : stats_res) : week_stats :=
  let stats := match page_group_stats res with
               | Some (s :: _) => s
               | _ => sr_self res
               end in
  {| visitors := nullish (rs_visitors stats) (JNum (Fin 0));
     conversions := nullish (rs_conversions stats) (JNum (Fin 0));
     conversionRate :=
       returned (round (JNum (num_mul (to_number (nullish (rs_conversion_rate stats)
                                                          (JNum (Fin 0))))
                                      (num_of_Z 100))) 1) |}.

(** [p.thisWeek?.visitors] and [p.thisWeek?.conversionRate] *)
Definition tw_visitors (p : page_item) : jsval :=
  match thisWeek p with Some w => visitors w | None => JUndefined end.
Definition tw_conversionRate (p : page_item) : jsval :=
  match thisWeek p with Some w => JNum (conversionRate w) | None => JUndefined end.

(** [p.state === 'published' && !p.error] *)
Definition is_published (p : page_item) : bool :=
  match state p with
  | Some st => String.eqb st "published"
  | None => false
  end && negb (str_truthy (error p)).

(** The filter of [problemPages]. *)
Definition is_problem (avgConvRate : number) (p : page_item) : bool :=
  js_gt (tw_visitors p) (JNum (Fin 50)) &&
  js_lt (tw_conversionRate p) (JNum (num_mul avgConvRate (Fin (1 # 2)))).

Definition avgConvRate_of (publishedPages : list page_item) : number :=
  returned (avg (List.filter truthy (map tw_conversionRate publishedPages))).

Section Fetch.
Variable env : gmap string string.
Variable oauth_api : endpoint token_res.
Variable accounts_api : endpoint accounts_res.
Variable pages_api : endpoint pages_res.
Variable stats_api : endpoint stats_res.
Variable daysAgo : Z -> string.
Variable now : string.

Definition getAccessToken : Async string :=
  let token := getenv env "UNBOUNCE_ACCESS_TOKEN" in
  let refreshToken := getenv env "UNBOUNCE_REFRESH_TOKEN" in
  let clientId := getenv env "UNBOUNCE_CLIENT_ID" in
  let clientSecret := getenv env "UNBOUNCE_CLIENT_SECRET" in
  await token :=
    if str_truthy refreshToken && str_truthy clientId && str_truthy clientSecret then
      await res := fetch oauth_api
        {| req_url := UNBOUNCE_BASE +:+ "/0.1/oauth/token";
           req_params := [("grant_type", "refresh_token");
                          ("refresh_token", default "" refreshToken);
                          ("client_id", default "" clientId);
                          ("client_secret", default "" clientSecret)] |} in
      if res_ok res then
        await data := lift (res_json res) in
        resolve (access_token data)
      else resolve token
    else resolve token in
  match token with
  | Some t => if String.eqb t ""
              then throw (new_Error "UNBOUNCE_ACCESS_TOKEN env var is missing")
              else resolve t
  | None => throw (new_Error "UNBOUNCE_ACCESS_TOKEN env var is missing")
  end.

Definition unbounceGet {R} (api : endpoint R) (path token : string) : Async R :=
  await res := fetch api
    {| req_url := UNBOUNCE_BASE +:+ path;
       req_params := [("Authorization", "Bearer " +:+ token);
                      ("Accept", "application/json")] |} in
  if negb (res_ok res) then
    throw (new_Error ("Unbounce API error " +:+ pretty (res_status res) +:+ " on "
                      +:+ path +:+ ": " +:+ res_text res))
  else lift (res_json res).

Definition stats_path (p : page) (from to : string) : string :=
  "/0.1/pages/" +:+ p_id p +:+ "/page_group_stats?from=" +:+ from +:+ "&to=" +:+ to.

(** The object returned by the [try] block. *)
Definition measured_page (p : page) (thisWeekStats lastWeekStats : stats_res) : page_item :=
  let tw := parsePageStats thisWeekStats in
  let lw := parsePageStats lastWeekStats in
  {| pageId := p_id p; pageName := p_name p; url := p_url p; state := p_state p;
     thisWeek := Some tw; lastWeek := Some lw;
     conversionDelta := returned (pct (JNum (conversionRate tw)) (JNum (conversionRate lw)));
     visitorsDelta := returned (pct (visitors tw) (visitors lw));
     error := None |}.

(** The object returned by the [catch] block. *)
Definition unavailable_page (p : page) : page_item :=
  {| pageId := p_id p; pageName := p_name p; url := p_url p; state := p_state p;
     thisWeek := None; lastWeek := None;
     conversionDelta := JUndefined; visitorsDelta := JUndefined;
     error := Some "Stats unavailable" |}.

Definition page_stats (token thisWeekStart thisWeekEnd lastWeekStart lastWeekEnd : string)
    (p : page) : Async page_item :=
  try_catch
    (await '(thisWeekStats, lastWeekStats) := Promise_all2
       (unbounceGet stats_api (stats_path p thisWeekStart thisWeekEnd) token)
       (unbounceGet stats_api (stats_path p lastWeekStart lastWeekEnd) token) in
     resolve (measured_page p thisWeekStats lastWeekStats))
    (fun _ => resolve (unavailable_page p)).

Definition page_variants (token thisWeekStart thisWeekEnd : string) (p : page)
    : Async (option ab_test) :=
  try_catch
    (await variantsRes :=
       unbounceGet stats_api
         (stats_path p thisWeekStart thisWeekEnd +:+ "&include_sub_pages=true") token in
     let vs := default [] (page_group_stats variantsRes) in
     if (1 <? length vs)%nat then
       resolve (Some
         {| ab_pageName := p_name p;
            variants :=
              js_sort (fun a b => num_sub (v_conversionRate b) (v_conversionRate a))
                (map (fun v =>
                        {| variantId := rs_id v;
                           v_visitors := rs_visitors v;
                           v_conversionRate :=
                             returned (round (JNum (num_mul (to_number (rs_conversion_rate v))
                                                            (num_of_Z 100))) 1);
                           v_conversions := rs_conversions v |}) vs) |})
     else resolve None)
    (fun _ => resolve None).

Definition fetchUnbounceData : Async unbounce_data :=
  await token := getAccessToken in
  await accountsRes := unbounceGet accounts_api "/0.1/accounts" token in
  match default [] (accounts accountsRes) with
  | [] => throw (new_Error "No Unbounce accounts found")
  | accountId :: _ =>
      await pagesRes :=
        unbounceGet pages_api
          ("/0.1/accounts/" +:+ accountId +:+ "/pages?count=50&include_sub_pages=true")
          token in
      let pgs := default [] (pages pagesRes) in
      let thisWeekStart := daysAgo 7 in
      let thisWeekEnd := daysAgo 1 in
      let lastWeekStart := daysAgo 14 in
      let lastWeekEnd := daysAgo 8 in
      await pageStats := Promise_all
        (map (page_stats token thisWeekStart thisWeekEnd lastWeekStart lastWeekEnd) pgs) in
      let publishedPages := List.filter is_published pageStats in
      let byVisitors :=
        js_sort (fun a b =>
                   num_sub (to_number (nullish (tw_visitors b) (JNum (Fin 0))))
                           (to_number (nullish (tw_visitors a) (JNum (Fin 0)))))
                publishedPages in
      let avgConvRate := avgConvRate_of publishedPages in
      let problem := List.filter (is_problem avgConvRate) publishedPages in
      let best :=
        slice0 5
          (js_sort (fun a b =>
                      num_sub (to_number (nullish (tw_conversionRate b) (JNum (Fin 0))))
                              (to_number (nullish (tw_conversionRate a) (JNum (Fin 0)))))
                   publishedPages) in
      await pagesWithVariants := Promise_all
        (map (page_variants token thisWeekStart thisWeekEnd) (slice0 10 pgs)) in
      let active := omap (fun x => x) pagesWithVariants in
      resolve
        {| topPages := slice0 10 byVisitors;
           bestPages := best;
           problemPages := problem;
           activeABTests := active;
           averageConversionRate := returned (round (JNum avgConvRate) 1);
           fetchedAt := now |}
  end.
End Fetch.
End Unbounce.

(** * fetchers/vimeo.js *)

Module Vimeo.
Definition VIMEO_BASE : string := "https://api.vimeo.com".

Definition pct (current previous : jsval) : W jsval :=
  if negb (truthy previous) || strict_eq_zero previous then ret JNull
  else
    let* r := divide (num_sub (to_number current) (to_number previous))
                     (to_number previous) in
    let* p := divide (Math_round (num_mul r (num_of_Z 1000))) (num_of_Z 10) in
    ret (JNum p).

(** [v != null && !isNaN(v)] *)
Definition is_valid_number (v : jsval) : bool :=
  match v with
  | JUndefined | JNull => false
  | JNum NaN => false
  | JNum _ => true
  end.

Definition avg (arr : list jsval) : W number :=
  let valid := List.filter is_valid_number arr in
  match valid with
  | [] => ret (Fin 0)
  | _ :: _ =>
      divide (fold_left (fun a b => num_add a (to_number b)) valid (Fin 0))
             (js_length valid)
  end.

Definition sum {A} (arr : list A) (fn : A -> jsval) : number :=
  fold_left (fun acc v => num_add acc (to_number (fn v))) arr (Fin 0).

Definition round (val : jsval) (decimals : Z) : W number :=
  let factor := Math_pow10 decimals in
  divide (Math_round (num_mul (to_number val) factor)) factor.

(** A video of the listing: [v.uri], [v.name], [v.duration],
    [v.stats?.plays], [v.created_time]. *)
Record raw_video : Type := {
  rv_uri : string;
  rv_name : option string;
  rv_duration : jsval;
  rv_stats_plays : jsval;
  rv_created_time : option string
}.

Record videos_res : Type := { vr_data : option (list raw_video) }.

Record video : Type := {
  id : string;
  uri : string;
  title : option string;
  duration : jsval;
  totalPlays : jsval;
  createdAt : option string
}.

(** A data point of an analytics reply. *)
Record row : Type := {
  r_plays : jsval;
  r_finishes : jsval;
  r_impressions : jsval;
  r_watch_time : jsval
}.

(** An analytics reply: its [data] array (an entry may be [null]), and
    the reply itself read as a data point. *)
Record analytics_res : Type := {
  ar_data : option (list (option row));
  ar_self : row
}.

Record week_stats : Type := {
  plays : jsval;
  finishes : jsval;
  impressions : jsval;
  watchMinutes : number;
  playRate : jsval;
  finishRate : jsval
}.

(** [res.data?.[0] ?? res] *)
Definition row_of (res : analytics_res) : row :=
  match ar_data res with
  | Some (Some r :: _) => r
  | _ => ar_self res
  end.

Definition parse_row (row : row) : W week_stats :=
  let* minutes := divide (to_number (nullish (r_watch_time row) (JNum (Fin 0))))
                         (num_of_Z 60) in
  let* wm := round (JNum minutes) 1 in
  let* pr :=
    if js_gt (r_impressions row) (JNum (Fin 0)) then
      let* q := divide (to_number (r_plays row)) (to_number (r_impressions row)) in
      let* r := round (JNum (num_mul q (num_of_Z 100))) 1 in
      ret (JNum r)
    else ret JNull in
  let* fr :=
    if js_gt (r_plays row) (JNum (Fin 0)) then
      let* q := divide (to_number (r_finishes row)) (to_number (r_plays row)) in
      let* r := round (JNum (num_mul q (num_of_Z 100))) 1 in
      ret (JNum r)
    else ret JNull in
  ret {| plays := nullish (nullish (r_plays row) (r_impressions row)) (JNum (Fin 0));
         finishes := nullish (r_finishes row) (JNum (Fin 0));
         impressions := nullish (r_impressions row) (JNum (Fin 0));
         watchMinutes := wm;
         playRate := pr;
         finishRate := fr |}.

Definition parseAnalytics (res : analytics_res) : W week_stats :=
  parse_row (row_of res).

(** [s.replace(pat, '')]: the first occurrence only. *)
Definition remove_first (pat s : string) : string :=
  match String.index 0 pat s with
  | Some n =>
      String.substring 0 n s +:+
      String.substring (n + String.length pat)
                       (String.length s - n - String.length pat) s
  | None => s
  end.

Section Fetch.
(** The engagement reply and what [parseEngagement] makes of it are kept
    abstract; [parseEngagement] may throw on a malformed reply, inside
    the inner [try]. *)
Context {engagement_res engagement_t : Type}.
Variable parseEngagement : engagement_res -> jsval -> result (option engagement_t).
Variable env : gmap string string.
Variable videos_api : endpoint videos_res.
Variable analytics_api : endpoint analytics_res.
Variable engagement_api : endpoint engagement_res.
Variable daysAgo : Z -> string.
(** Two readings of the clock: when the windows are computed, and on
    return. *)
Variable now : string.
Variable fetched : string.

(** An element of [videosWithStats]: the video spread into either the
    stats fields or [error: err.message]. *)
Record item : Type := {
  i_video : video;
  thisWeek : option week_stats;
  lastWeek : option week_stats;
  playsDelta : jsval;
  finishRateDelta : jsval;
  engagement : option engagement_t;
  error : option string
}.

Record totals_t : Type := {
  t_totalPlays : number;
  t_totalWatchMinutes : number;
  t_avgFinishRate : number
}.

(** The returned object; the early return for an empty account has only
    [videos] and [fetchedAt]. *)
Record vimeo_data : Type := {
  videos : list item;
  topVideos : option (list item);
  lowFinishRateVideos : option (list item);
  totals : option totals_t;
  errors : option (list (option string * option string));
  fetchedAt : string
}.

Definition headers : result (list (string * string)) :=
  match require_env env "VIMEO_ACCESS_TOKEN" "VIMEO_ACCESS_TOKEN env var is missing" with
  | Ok token => Ok [("Authorization", "Bearer " +:+ token);
                    ("Content-Type", "application/json");
                    ("Accept", "application/vnd.vimeo.*+json;version=3.4")]
  | Threw e => Threw e
  end.

Definition vimeoGet {R} (api : endpoint R) (path : string)
    (params : list (string * string)) : Async R :=
  await h := lift headers in
  await res := fetch api {| req_url := VIMEO_BASE +:+ path; req_params := params ++ h |} in
  if negb (res_ok res) then
    if (res_status res =? 403)%Z then
      throw (new_Error "Vimeo 403: Analytics data requires Vimeo Pro or higher plan")
    else
      throw (new_Error ("Vimeo API error " +:+ pretty (res_status res) +:+ " on " +:+ path
                        +:+ ": " +:+ res_text res))
  else lift (res_json res).

Definition to_video (v : raw_video) : video :=
  {| id := remove_first "/videos/" (rv_uri v);
     uri := rv_uri v;
     title := rv_name v;
     duration := rv_duration v;
     totalPlays := nullish (rv_stats_plays v) (JNum (Fin 0));
     createdAt := rv_created_time v |}.

(** The object returned by the outer [try] block. *)
Definition measured_video (v : video) (thisWeekStats lastWeekStats : analytics_res)
    (engagementData : option engagement_t) : item :=
  let tw := returned (parseAnalytics thisWeekStats) in
  let lw := returned (parseAnalytics lastWeekStats) in
  {| i_video := v;
     thisWeek := Some tw;
     lastWeek := Some lw;
     playsDelta := returned (pct (plays tw) (plays lw));
     finishRateDelta := returned (pct (finishRate tw) (finishRate lw));
     engagement := engagementData;
     error := None |}.

(** The object returned by the outer [catch] block. *)
Definition failed_video (v : video) (err : js_error) : item :=
  {| i_video := v; thisWeek := None; lastWeek := None;
     playsDelta := JUndefined; finishRateDelta := JUndefined;
     engagement := None;
     error := err_message err |}.

Definition with_stats (startThisWeek startLastWeek endLastWeek : string) (v : video)
    : Async item :=
  try_catch
    (await '(thisWeekStats, lastWeekStats) := Promise_all2
       (vimeoGet analytics_api ("/videos/" +:+ id v +:+ "/analytics")
          [("dimension", "total"); ("from", startThisWeek); ("to", now)])
       (vimeoGet analytics_api ("/videos/" +:+ id v +:+ "/analytics")
          [("dimension", "total"); ("from", startLastWeek); ("to", endLastWeek)]) in
     await engagementData :=
       try_catch
         (await engagementRes :=
            vimeoGet engagement_api ("/videos/" +:+ id v +:+ "/analytics")
              [("dimension", "video_segment"); ("from", startThisWeek); ("to", now)] in
          lift (parseEngagement engagementRes (duration v)))
         (fun _ => resolve None) in
     resolve (measured_video v thisWeekStats lastWeekStats engagementData))
    (fun err => resolve (failed_video v err)).

(** [v.thisWeek?.f] *)
Definition tw (f : week_stats -> jsval) (v : item) : jsval :=
  match thisWeek v with Some w => f w | None => JUndefined end.

(** The filter of [lowFinishRate]. *)
Definition is_low_finish (avgFinishRate : number) (v : item) : bool :=
  js_gt (tw plays v) (JNum (Fin 10)) &&
  js_lt (tw finishRate v) (JNum (num_mul avgFinishRate (Fin (7 # 10)))).

Definition avgFinishRate_of (validVideos : list item) : number :=
  returned (avg (List.filter truthy (map (tw finishRate) validVideos))).

Definition fetchVimeoData : Async vimeo_data :=
  await videosRes :=
    vimeoGet videos_api "/me/videos"
      [("fields", "uri,name,duration,created_time,pictures,stats");
       ("per_page", "25"); ("sort", "date"); ("direction", "desc")] in
  let vids := map to_video (default [] (vr_data videosRes)) in
  match vids with
  | [] =>
      resolve {| videos := []; topVideos := None; lowFinishRateVideos := None;
                 totals := None; errors := None; fetchedAt := fetched |}
  | _ :: _ =>
      let startThisWeek := daysAgo 7 in
      let startLastWeek := daysAgo 14 in
      let endLastWeek := daysAgo 8 in
      await videosWithStats := Promise_all
        (map (with_stats startThisWeek startLastWeek endLastWeek) (slice0 15 vids)) in
      let validVideos := List.filter (fun v => negb (str_truthy (error v))) videosWithStats in
      let errorVideos := List.filter (fun v => str_truthy (error v)) videosWithStats in
      let byPlays :=
        js_sort (fun a b =>
                   num_sub (to_number (nullish (tw plays b) (JNum (Fin 0))))
                           (to_number (nullish (tw plays a) (JNum (Fin 0)))))
                validVideos in
      let avgFinishRate := avgFinishRate_of validVideos in
      let lowFinishRate := List.filter (is_low_finish avgFinishRate) validVideos in
      let tot :=
        {| t_totalPlays := sum validVideos (fun v => nullish (tw plays v) (JNum (Fin 0)));
           t_totalWatchMinutes :=
             sum validVideos
                 (fun v => nullish (tw (fun w => JNum (watchMinutes w)) v) (JNum (Fin 0)));
           t_avgFinishRate := returned (round (JNum avgFinishRate) 1) |} in
      resolve
        {| videos := byPlays;
           topVideos := Some (slice0 5 byPlays);
           lowFinishRateVideos := Some lowFinishRate;
           totals := Some tot;
           errors :=
             match errorVideos with
             | [] => None
             | _ :: _ => Some (map (fun v => (title (i_video v), error v)) errorVideos)
             end;
           fetchedAt := fetched |}
  end.
End Fetch.
End Vimeo.

(** ** fetchers/vimeo.js: the engagement heatmap *)

Module VimeoEngagement.
(** [s.segment]: its [start_time] and [end_time]. *)
Record span : Type := {
  start_time : jsval;
  end_time : jsval
}.

(** An entry of the reply's [data]: [s.segment] and [s.retention]. *)
Record segment_t : Type := {
  segment : option span;
  retention : jsval
}.

Record reply : Type := { data : option (list segment_t) }.

(** The returned object: the retention at the four milestones, and the
    biggest drop. *)
Record engagement : Type := {
  pct25 : jsval;
  pct50 : jsval;
  pct75 : jsval;
  pct90 : jsval;
  biggestDropSeconds : jsval;
  biggestDropPct : jsval
}.

(** [s.segment?.start_time <= targetSecond && s.segment?.end_time >= targetSecond] *)
Definition covers (targetSecond : number) (s : segment_t) : bool :=
  match segment s with
  | Some sp =>
      num_le (to_number (start_time sp)) targetSecond
      && num_ge (to_number (end_time sp)) targetSecond
  | None => false
  end.

(** One turn of the loop over the milestones. *)
Definition retention_at (segments : list segment_t) (durationSeconds : jsval)
    (milestone : Q) : jsval :=
  let targetSecond := Math_floor (num_mul (to_number durationSeconds) (Fin milestone)) in
  match List.find (covers targetSecond) segments with
  | Some s =>
      JNum (returned (Vimeo.round
                        (JNum (num_mul (to_number (retention s)) (num_of_Z 100))) 1))
  | None => JNull
  end.

(** [segments[i].segment?.start_time ?? null] *)
Definition start_of (s : segment_t) : jsval :=
  nullish (match segment s with Some sp => start_time sp | None => JUndefined end) JNull.

(** [(segments[i - 1].retention ?? 0) - (segments[i].retention ?? 0)] *)
Definition drop_between (previous current : segment_t) : number :=
  num_sub (to_number (nullish (retention previous) (JNum (Fin 0))))
          (to_number (nullish (retention current) (JNum (Fin 0)))).

(** The loop over [i = 1 .. segments.length - 1]; the state is
    [(biggestDrop, biggestDropAt)], and [previous] is [segments[i - 1]]. *)
Fixpoint scan (previous : segment_t) (rest : list segment_t) (state : jsval * jsval)
    : jsval * jsval :=
  match rest with
  | [] => state
  | current :: rest' =>
      let drop := drop_between previous current in
      scan current rest'
        (if negb (truthy (fst state)) || js_gt (JNum drop) (fst state)
         then (JNum drop, start_of current)
         else state)
  end.

Definition biggest_drop (segments : list segment_t) : jsval * jsval :=
  match segments with
  | [] => (JNull, JNull)
  | first :: rest => scan first rest (JNull, JNull)
  end.

Definition parseEngagement (res : reply) (durationSeconds : jsval) : option engagement :=
  let segments := default [] (data res) in
  match segments with
  | [] => None
  | _ :: _ =>
      if negb (truthy durationSeconds) then None
      else
        let '(biggestDrop, biggestDropAt) := biggest_drop segments in
        Some {| pct25 := retention_at segments durationSeconds (1 # 4);
                pct50 := retention_at segments durationSeconds (1 # 2);
                pct75 := retention_at segments durationSeconds (3 # 4);
                pct90 := retention_at segments durationSeconds (9 # 10);
                biggestDropSeconds := biggestDropAt;
                biggestDropPct :=
                  if truthy biggestDrop
                  then JNum (returned (Vimeo.round
                                         (JNum (num_mul (to_number biggestDrop)
                                                        (num_of_Z 100))) 1))
                  else JNull |}
  end.

(** The fetcher with this [parseEngagement]. *)
Definition fetchVimeoData (env : gmap string string) (videos_api : endpoint Vimeo.videos_res)
    (analytics_api : endpoint Vimeo.analytics_res) (engagement_api : endpoint reply)
    (daysAgo : Z -> string) (now fetched : string) : Async (Vimeo.vimeo_data (engagement_t := engagement)) :=
  Vimeo.fetchVimeoData (fun res d => Ok (parseEngagement res d)) env videos_api analytics_api
    engagement_api daysAgo now fetched.
End VimeoEngagement.

(** * scripts/generate-report.js *)

(** A JavaScript value as [JSON.stringify] sees it: the document the text
    generator returns, the fetchers' records, the combined snapshot.  An
    object is the list of its own properties in insertion order. *)
#[local] Unset Elimination Schemes.
Inductive value : Type :=
| VUndefined
| VNull
| VBool (b : bool)
| VNumber (n : number)
| VString (s : string)
| VArray (xs : list value)
| VObject (fields : list (string * value)).
#[local] Set Elimination Schemes.

Definition value_truthy (v : value) : bool :=
  match v with
  | VUndefined | VNull => false
  | VBool b => b
  | VNumber n => truthy (JNum n)
  | VString s => negb (String.eqb s "")
  | VArray _ | VObject _ => true
  end.

Fixpoint get_field (fields : list (string * value)) (k : string) : value :=
  match fields with
  | [] => VUndefined
  | (k', v) :: rest => if String.eqb k' k then v else get_field rest k
  end.

(** Assignment to a property: in place when it exists, appended otherwise. *)
Fixpoint set_field (fields : list (string * value)) (k : string) (x : value)
    : list (string * value) :=
  match fields with
  | [] => [(k, x)]
  | (k', v) :: rest =>
      if String.eqb k' k then (k, x) :: rest else (k', v) :: set_field rest k x
  end.

Definition TypeError_ : js_error := {| err_kind := TypeErrorK; err_message := None |}.

(** [v.k] for a property name that is not an array index or [length]. *)
Definition read_prop (v : value) (k : string) : result value :=
  match v with
  | VUndefined | VNull => Threw TypeError_
  | VObject fields => Ok (get_field fields k)
  | _ => Ok VUndefined
  end.

(** [v.k = x] in module (strict) code.  Assigning to a property of
    [null], [undefined] or a primitive throws.  A named property set on an
    array is not part of what [JSON.stringify] writes, so the array is
    unchanged as a [value]. *)
Definition write_prop (v : value) (k : string) (x : value) : result value :=
  match v with
  | VObject fields => Ok (VObject (set_field fields k x))
  | VArray xs => Ok (VArray xs)
  | _ => Threw TypeError_
  end.

Module Report.
Definition OUTPUT_PATH : string := "./dashboard/public/insights.json".
Definition OUTPUT_DIR : string := "./dashboard/public".
Definition MODEL : string := "claude-opus-4-5-20251101".

Definition CORRECTION : string :=
  "Your response was not valid JSON. Return ONLY the JSON object with no markdown, no backticks, no commentary. Start your response with { and end with }.".

Record message : Type := {
  role : string;
  content : string
}.

Record create_params : Type := {
  model : string;
  max_tokens : Z;
  messages : list message
}.

(** The reply of [anthropic.messages.create]: the [text] of each content
    block ([None] when the block has none). *)
Record api_message : Type := { content_text : list (option string) }.

(** What a run does to the outside: the fetchers' vendor calls, the calls
    to the text generator, and the files it has written. *)
Inductive event : Type :=
| Vendor (rq : request)
| ApiCall (p : create_params)
| Mkdir (path : string)
| WriteFile (path content : string).

Definition api_call_of (e : event) : option create_params :=
  match e with ApiCall p => Some p | _ => None end.

Definition file_of (e : event) : option (string * string) :=
  match e with WriteFile p c => Some (p, c) | _ => None end.

(** The seven fetchers, each returning its record as a [value]. *)
Record fetchers : Type := {
  fetchGA4Data : Async value;
  fetchGSCData : Async value;
  fetchYouTubeData : Async value;
  fetchKitData : Async value;
  fetchMetaData : Async value;
  fetchUnbounceData : Async value;
  fetchVimeoData : Async value
}.

(** [Promise.allSettled]: every promise runs to its end; never rejects. *)
Definition Promise_allSettled {E A} (ps : list (Eff E A)) : Eff E (list (result A)) :=
  (Ok (map outcome ps), concat (map events ps)).

Definition vendor_events {A} (m : Async A) : Eff event A :=
  (outcome m, map Vendor (events m)).

(** [r.status === 'fulfilled' ? r.value : { error: r.reason?.message }] *)
Definition slot (r : result value) : value :=
  match r with
  | Ok v => v
  | Threw reason =>
      VObject [("error", match err_message reason with
                         | Some m => VString m
                         | None => VUndefined
                         end)]
  end.

(** The object literal [data]. *)
Definition combine (ga4Result gscResult youtubeResult kitResult metaResult
                    unbounceResult vimeoResult : result value) : value :=
  VObject [("ga4", slot ga4Result);
           ("gsc", slot gscResult);
           ("youtube", slot youtubeResult);
           ("kit", slot kitResult);
           ("meta", slot metaResult);
           ("unbounce", slot unbounceResult);
           ("vimeo", slot vimeoResult)].

(** [data.k] *)
Definition data_prop (data : value) (k : string) : value :=
  match data with
  | VObject fields => get_field fields k
  | _ => VUndefined
  end.

(** [s.split('T')[0]] *)
Fixpoint before_T (s : string) : string :=
  match s with
  | EmptyString => EmptyString
  | String c rest =>
      if Ascii.eqb c "T"%char then EmptyString else String c (before_T rest)
  end.

Section Main.
(** Built-ins of the platform and the fixed text of the prompt. *)
Variable JSON_stringify : value -> string.
Variable JSON_parse : string -> option value.
Variable syntax_error_message : string -> string.
(** [.replace(/^```json\s*/i, '').replace(/\s*```$/, '')] *)
Variable strip_fences : string -> string.
Variable trim : string -> string.
(** The template of [buildPrompt] up to the data sections. *)
Variable PROMPT_INSTRUCTIONS : string.

(** The outside world of one run. *)
Variable create : create_params -> result api_message.
(** [new Date().toISOString()] when [weekOf] is defaulted and when
    [generatedAt] is stamped. *)
Variable clock_weekOf : string.
Variable clock_generatedAt : string.
Variable existsSync : string -> bool.
Variable mkdirSync : string -> result unit.
Variable writeFileSync : string -> string -> result unit.

Definition parse (s : string) : result value :=
  match JSON_parse s with
  | Some v => Ok v
  | None => Threw {| err_kind := SyntaxErrorK;
                     err_message := Some (syntax_error_message s) |}
  end.

Definition buildPrompt (data : value) : string :=
  PROMPT_INSTRUCTIONS
  +:+ "## GA4 — Website Analytics" +:+ JSON_stringify (data_prop data "ga4")
  +:+ "## Google Search Console — Organic Search" +:+ JSON_stringify (data_prop data "gsc")
  +:+ "## YouTube — Video Analytics" +:+ JSON_stringify (data_prop data "youtube")
  +:+ "## Meta Ads — Paid Social" +:+ JSON_stringify (data_prop data "meta")
  +:+ "## Kit (ConvertKit) — Email Newsletter" +:+ JSON_stringify (data_prop data "kit")
  +:+ "## Unbounce — Landing Pages" +:+ JSON_stringify (data_prop data "unbounce")
  +:+ "## Vimeo — Video Sales Letters" +:+ JSON_stringify (data_prop data "vimeo").

Definition messages_create (msgs : list message) : Eff event api_message :=
  let p := {| model := MODEL; max_tokens := 4096; messages := msgs |} in
  (create p, [ApiCall p]).

(** [message.content[0].text] *)
Definition first_text (m : api_message) : result (option string) :=
  match content_text m with
  | [] => Threw TypeError_
  | t :: _ => Ok t
  end.

(** A string method called on a value that may be [undefined]. *)
Definition on_string {A} (f : string -> A) (s : option string) : result A :=
  match s with
  | Some x => Ok (f x)
  | None => Threw TypeError_
  end.

(** One step of a [try] block: go on with [k], or leave to the [catch]. *)
Definition try_step {E A B} (m : Eff E A) (k : A -> Eff E B)
    (handler : js_error -> Eff E B) : Eff E B :=
  match fst m with
  | Ok a => let (r, t) := k a in (r, snd m ++ t)
  | Threw e => let (r, t) := handler e in (r, snd m ++ t)
  end.

(** Step 1: run all fetchers, keep what each one gave. *)
Definition gather (f : fetchers) : Eff event value :=
  await results := Promise_allSettled
    [ vendor_events (fetchGA4Data f);
      vendor_events (fetchGSCData f);
      vendor_events (fetchYouTubeData f);
      vendor_events (fetchKitData f);
      vendor_events (fetchMetaData f);
      vendor_events (fetchUnbounceData f);
      vendor_events (fetchVimeoData f) ] in
  match results with
  | [ga4Result; gscResult; youtubeResult; kitResult; metaResult;
     unbounceResult; vimeoResult] =>
      resolve (combine ga4Result gscResult youtubeResult kitResult metaResult
                       unbounceResult vimeoResult)
  | _ => throw TypeError_
  end.

(** The [catch] of step 2; [rawResponse] is the variable's value when the
    [try] block was left. *)
Definition on_failure (data : value) (rawResponse : option string) (err : js_error)
    : Eff event value :=
  match err_kind err with
  | SyntaxErrorK =>
      await retryMessage := messages_create
        [ {| role := "user"; content := buildPrompt data |};
          {| role := "assistant"; content := default "" rawResponse |};
          {| role := "user"; content := CORRECTION |} ] in
      await text := lift (first_text retryMessage) in
      await retryText := lift (on_string trim text) in
      lift (parse retryText)
  | _ => throw err
  end.

(** Step 2: ask for the analysis, parse it, retry once on a syntax error. *)
Definition analyse (data : value) : Eff event value :=
  try_step
    (messages_create [ {| role := "user"; content := buildPrompt data |} ])
    (fun message =>
       try_step (lift (first_text message))
         (fun rawResponse =>
            try_step
              (await cleaned :=
                 lift (on_string (fun s => trim (strip_fences s)) rawResponse) in
               lift (parse cleaned))
              resolve
              (on_failure data rawResponse))
         (on_failure data None))
    (on_failure data None).

(** Step 3: [weekOf], [generatedAt], [rawData]. *)
Definition enrich (data insights : value) : result value :=
  match read_prop insights "weekOf" with
  | Threw e => Threw e
  | Ok w =>
      let weekOf := if value_truthy w then w else VString (before_T clock_weekOf) in
      match write_prop insights "weekOf" weekOf with
      | Threw e => Threw e
      | Ok i1 =>
          match write_prop i1 "generatedAt" (VString clock_generatedAt) with
          | Threw e => Threw e
          | Ok i2 => write_prop i2 "rawData" data
          end
      end
  end.

(** Step 4: create the directory when needed, write the file. *)
Definition persist (insights : value) : Eff event unit :=
  await _ :=
    if negb (existsSync OUTPUT_DIR) then
      match mkdirSync OUTPUT_DIR with
      | Ok _ => emit (Mkdir OUTPUT_DIR)
      | Threw e => throw e
      end
    else resolve tt in
  let text := JSON_stringify insights in
  match writeFileSync OUTPUT_PATH text with
  | Ok _ => emit (WriteFile OUTPUT_PATH text)
  | Threw e => throw e
  end.

(** Steps 3 and 4 on the document the generator gave. *)
Definition finish (data insights : value) : Eff event unit :=
  await enriched := lift (enrich data insights) in
  persist enriched.

Definition main (f : fetchers) : Eff event unit :=
  await data := gather f in
  await insights := analyse data in
  finish data insights.

(** [main().catch(err => process.exit(1))] *)
Definition exit_code (run : Eff event unit) : Z :=
  match outcome run with
  | Ok _ => 0
  | Threw _ => 1
  end.

Definition api_calls (run : Eff event unit) : list create_params :=
  omap api_call_of (events run).

Definition files_written (run : Eff event unit) : list (string * string) :=
  omap file_of (events run).
End Main.
End Report.

(** * The conventions the specification names, on rationals *)

(** [round(((current - previous) / previous) * 1000) / 10] *)
Definition delta_formula (c p : Q) : Q :=
  (inject_Z (Qfloor (((c - p) / p) * inject_Z 1000 + (1 # 2))) / inject_Z 10)%Q.

(** Rounding to the nearest integer, a tie going away from zero. *)
Definition round_half_away (q : Q) : Z :=
  if Qle_bool 0 q then Qfloor (q + (1 # 2)) else Qceiling (q - (1 # 2)).

(** Rounding to the nearest integer, a tie going up. *)
Definition round_half_up (q : Q) : Z := Qfloor (q + (1 # 2)).

(** [q] lies exactly halfway between two integers. *)
Definition is_tie (q : Q) : Prop := (inject_Z (Qfloor (q + (1 # 2))) == q + (1 # 2))%Q.

(** A rounding of [v * 10^n], divided back by [10^n]. *)
Definition scaled (rnd : Q -> Z) (v : Q) (n : Z) : Q :=
  (inject_Z (rnd (v * pow10 n)) / pow10 n)%Q.

(** * What the specification asks of a slot of the combined snapshot *)

(** The slot [k] holds the fetcher's value when it fulfilled, and
    [{ error: message }] when it rejected. *)
Definition slot_holds (fields : list (string * value)) (k : string) (r : result value)
    : Prop :=
  match r with
  | Ok v => get_field fields k = v
  | Threw reason =>
      get_field fields k =
      VObject [("error", match err_message reason with
                         | Some m => VString m
                         | None => VUndefined
                         end)]
  end.

(** The request sent to the text generator for a conversation. *)
Definition request_of (msgs : list Report.message) : Report.create_params :=
  {| Report.model := Report.MODEL; Report.max_tokens := 4096; Report.messages := msgs |}.

(** The original conversation, and the one of the retry: the original, the
    reply that did not parse, and the correction. *)
Definition first_conversation (prompt : string) : list Report.message :=
  [ {| Report.role := "user"; Report.content := prompt |} ].

Definition retry_conversation (prompt raw : string) : list Report.message :=
  first_conversation prompt ++
  [ {| Report.role := "assistant"; Report.content := raw |};
    {| Report.role := "user"; Report.content := Report.CORRECTION |} ].

(** The combined snapshot of a run. *)
Definition snapshot (f : Report.fetchers) : value :=
  Report.combine (outcome (Report.fetchGA4Data f)) (outcome (Report.fetchGSCData f))
    (outcome (Report.fetchYouTubeData f)) (outcome (Report.fetchKitData f))
    (outcome (Report.fetchMetaData f)) (outcome (Report.fetchUnbounceData f))
    (outcome (Report.fetchVimeoData f)).

(** The output directory exists or can be created, and the file can be
    written. *)
Definition fs_ok (existsSync : string -> bool) (mkdirSync : string -> result unit)
    (writeFileSync : string -> string -> result unit) : Prop :=
  (existsSync Report.OUTPUT_DIR = true \/ mkdirSync Report.OUTPUT_DIR = Ok tt)
  /\ forall text, writeFileSync Report.OUTPUT_PATH text = Ok tt.

(** The outcome of the retry, once the second reply is in: its first
    block's text, trimmed and parsed. *)
Definition retry_outcome (JSON_parse : string -> option value)
    (syntax_error_message trim : string -> string)
    (reply : result Report.api_message) : result value :=
  match reply with
  | Threw e => Threw e
  | Ok m =>
      match Report.content_text m with
      | Some text :: _ => Report.parse JSON_parse syntax_error_message (trim text)
      | _ => Threw TypeError_
      end
  end.

(** Values on which a property can be set: objects and arrays. *)
Definition takes_properties (v : value) : bool :=
  match v with
  | VObject _ | VArray _ => true
  | _ => false
  end.

(** * What the specification asks of a fetcher about its credentials *)

(** [process.env.NAME] is unset or empty. *)
Definition missing (env : gmap string string) (name : string) : Prop :=
  str_truthy (getenv env name) = false.

(** The fetcher rejects with an error whose message names the variable, and
    has issued no vendor call. *)
Definition rejects_naming {A} (run : Async A) (name : string) : Prop :=
  run = (Threw (new_Error (name +:+ " env var is missing")), []).

(** The three credentials of Unbounce's token refresh are all set. *)
Definition can_refresh (env : gmap string string) : bool :=
  str_truthy (getenv env "UNBOUNCE_REFRESH_TOKEN")
  && str_truthy (getenv env "UNBOUNCE_CLIENT_ID")
  && str_truthy (getenv env "UNBOUNCE_CLIENT_SECRET").

(** The token refresh call. *)
Definition refresh_request (env : gmap string string) : request :=
  {| req_url := "https://api.unbounce.com/0.1/oauth/token";
     req_params := [("grant_type", "refresh_token");
                    ("refresh_token", default "" (getenv env "UNBOUNCE_REFRESH_TOKEN"));
                    ("client_id", default "" (getenv env "UNBOUNCE_CLIENT_ID"));
                    ("client_secret", default "" (getenv env "UNBOUNCE_CLIENT_SECRET"))] |}.

(** * What becomes of the items of a fetcher *)

(** The error a promise rejects with, if it rejects. *)
Definition rejection {E A} (m : Eff E A) : option js_error :=
  match outcome m with
  | Ok _ => None
  | Threw e => Some e
  end.

(** The stats request of a Kit broadcast. *)
Definition kit_stats_request (env : gmap string string) (stats_api : endpoint Kit.stats_res)
    (b : Kit.broadcast) : Async Kit.stats_res :=
  Kit.kitGet env stats_api ("/broadcasts/" +:+ Kit.b_id b +:+ "/stats").

(** The two stats requests of an Unbounce page. *)
Definition unbounce_stats_requests (stats_api : endpoint Unbounce.stats_res)
    (token : string) (daysAgo : Z -> string) (p : Unbounce.page)
    : Async (Unbounce.stats_res * Unbounce.stats_res) :=
  Promise_all2
    (Unbounce.unbounceGet stats_api (Unbounce.stats_path p (daysAgo 7) (daysAgo 1)) token)
    (Unbounce.unbounceGet stats_api (Unbounce.stats_path p (daysAgo 14) (daysAgo 8)) token).

(** The two analytics requests of a Vimeo video. *)
Definition vimeo_stats_requests (env : gmap string string)
    (analytics_api : endpoint Vimeo.analytics_res) (daysAgo : Z -> string) (now : string)
    (v : Vimeo.video) : Async (Vimeo.analytics_res * Vimeo.analytics_res) :=
  Promise_all2
    (Vimeo.vimeoGet env analytics_api ("/videos/" +:+ Vimeo.id v +:+ "/analytics")
       [("dimension", "total"); ("from", daysAgo 7); ("to", now)])
    (Vimeo.vimeoGet env analytics_api ("/videos/" +:+ Vimeo.id v +:+ "/analytics")
       [("dimension", "total"); ("from", daysAgo 14); ("to", daysAgo 8)]).

(** * Orderings and bounds of what the fetchers return *)

(** [a] may stand in front of [b] in a list sorted by [key], largest
    first: [key a] is not below [key b]. *)
Definition not_below {A} (key : A -> number) (a b : A) : Prop :=
  num_lt (key a) (key b) = false.

(** The comparator [(a, b) => key(b) - key(a)]. *)
Definition descending_by {A} (key : A -> number) (a b : A) : number :=
  num_sub (key b) (key a).

(** Every key is a number other than [NaN]. *)
Definition comparable {A} (key : A -> number) (l : list A) : Prop :=
  Forall (fun a => key a <> NaN) l.

(** [if (!token) throw new Error('UNBOUNCE_ACCESS_TOKEN env var is missing');
    return token] *)
Definition token_or_missing (token : option string) : result string :=
  if str_truthy token then Ok (default "" token)
  else Threw (new_Error "UNBOUNCE_ACCESS_TOKEN env var is missing").

(** The requests of Unbounce for the accounts and for the pages of one. *)
Definition unbounce_request (path token : string) : request :=
  {| req_url := "https://api.unbounce.com" +:+ path;
     req_params := [("Authorization", "Bearer " +:+ token); ("Accept", "application/json")] |}.

Definition unbounce_pages_path (accountId : string) : string :=
  "/0.1/accounts/" +:+ accountId +:+ "/pages?count=50&include_sub_pages=true".

(** The keys Unbounce's pages are sorted by: [p.thisWeek?.visitors ?? 0]
    and [p.thisWeek?.conversionRate ?? 0]. *)
Definition unbounce_visitors (p : Unbounce.page_item) : number :=
  to_number (nullish (Unbounce.tw_visitors p) (JNum (Fin 0))).

Definition unbounce_conversion (p : Unbounce.page_item) : number :=
  to_number (nullish (Unbounce.tw_conversionRate p) (JNum (Fin 0))).

(** The arithmetic mean of rationals, and a rational as a value. *)
Definition Qsum (l : list Q) : Q := fold_right Qplus 0%Q l.

Definition mean (l : list Q) : Q := (Qsum l / inject_Z (Z.of_nat (length l)))%Q.

Definition finite (q : Q) : jsval := JNum (Fin q).

(** The key Vimeo's videos are sorted by: [v.thisWeek?.plays ?? 0]. *)
Definition vimeo_plays {engagement_t : Type} (v : Vimeo.item (engagement_t := engagement_t))
    : number :=
  to_number (nullish (Vimeo.tw Vimeo.plays v) (JNum (Fin 0))).

(** The listing request of Vimeo, and the engagement request of a video. *)
Definition vimeo_listing (env : gmap string string) (videos_api : endpoint Vimeo.videos_res)
    : Async Vimeo.videos_res :=
  Vimeo.vimeoGet env videos_api "/me/videos"
    [("fields", "uri,name,duration,created_time,pictures,stats");
     ("per_page", "25"); ("sort", "date"); ("direction", "desc")].

Definition vimeo_engagement_request {engagement_res : Type} (env : gmap string string)
    (engagement_api : endpoint engagement_res) (daysAgo : Z -> string) (now : string)
    (v : Vimeo.video) : Async engagement_res :=
  Vimeo.vimeoGet env engagement_api ("/videos/" +:+ Vimeo.id v +:+ "/analytics")
    [("dimension", "video_segment"); ("from", daysAgo 7); ("to", now)].

(** The key Meta's campaigns are sorted by. *)
Definition meta_spend (c : Meta.campaign) : number := Meta.spend (Meta.c_insight c).

(** The request [metaGet] sends. *)
Definition meta_request (token path : string) (params : list (string * string)) : request :=
  {| req_url := "https://graph.facebook.com/v19.0" +:+ path;
     req_params := ("access_token", token) :: params |}.

(** The key Search Console's opportunities are sorted by. *)
Definition gsc_impressions (q : GscData.query_delta) : number :=
  to_number (GscData.impressions (GscData.q_query q)).

(** A percentage with one decimal, and a number with one decimal, as
    [parseRows] computes them. *)
Definition as_percent (c : Q) : Q := (inject_Z (round_half_up (c * inject_Z 1000)) / inject_Z 10)%Q.

Definition one_decimal (p : Q) : Q := (inject_Z (round_half_up (p * inject_Z 10)) / inject_Z 10)%Q.

(** The query [q] has the key [name], seen as a property name. *)
Definition named (name : string) (q : GscData.query) : Prop :=
  property_key (GscData.key q) = name.

(** The pairs of neighbours of a list, and for the segments of an
    engagement reply the drop of retention between neighbours, each with
    the start of the later segment. *)
Definition consecutive {A} (l : list A) : list (A * A) := zip l (tail l).

Definition drops_of (segments : list VimeoEngagement.segment_t) : list (number * jsval) :=
  map (fun pc => (VimeoEngagement.drop_between (fst pc) (snd pc),
                  VimeoEngagement.start_of (snd pc)))
      (consecutive segments).

(** The second of the video a milestone falls on. *)
Definition milestone_second (durationSeconds : jsval) (milestone : Q) : number :=
  Math_floor (num_mul (to_number durationSeconds) (Fin milestone)).

(** [round(x * 100, 1)] of Vimeo, as a value. *)
Definition vimeo_percent (x : number) : jsval :=
  JNum (returned (Vimeo.round (JNum (num_mul x (num_of_Z 100))) 1)).

(** The four milestones of the heatmap, each with the field it fills
    ([25pct], [50pct], [75pct], [90pct]). *)
Definition milestones : list (Q * (VimeoEngagement.engagement -> jsval)) :=
  [ (1 # 4, VimeoEngagement.pct25); (1 # 2, VimeoEngagement.pct50);
    (3 # 4, VimeoEngagement.pct75); (9 # 10, VimeoEngagement.pct90) ].

(** The requests the seven fetchers of a run have issued. *)
Definition requests_of (f : Report.fetchers) : list request :=
  events (Report.fetchGA4Data f) ++ events (Report.fetchGSCData f)
  ++ events (Report.fetchYouTubeData f) ++ events (Report.fetchKitData f)
  ++ events (Report.fetchMetaData f) ++ events (Report.fetchUnbounceData f)
  ++ events (Report.fetchVimeoData f).

(** What a run can have done to the file system, in order: nothing, the
    write, the creation of the directory, or both. *)
Definition file_steps (steps : list Report.event) : Prop :=
  steps = []
  \/ steps = [Report.Mkdir Report.OUTPUT_DIR]
  \/ (exists text, steps = [Report.WriteFile Report.OUTPUT_PATH text])
  \/ (exists text, steps = [Report.Mkdir Report.OUTPUT_DIR;
                            Report.WriteFile Report.OUTPUT_PATH text]).

(** The run has written the output file, and that was the last thing it
    did. *)
Definition ends_with_the_write (steps : list Report.event) : Prop :=
  exists text, last steps = Some (Report.WriteFile Report.OUTPUT_PATH text).

(** * Concrete inputs *)

(** A Meta campaign that spent 5, with click-through rate 1 and cost per
    lead 20. *)
Definition low_spend_campaign : Meta.campaign :=
  {| Meta.campaignName := Some "Retargeting";
     Meta.c_insight :=
       {| Meta.spend := Fin 5; Meta.impressions := Fin 500; Meta.reach := Fin 400;
          Meta.clicks := Fin 5; Meta.ctr := Fin 1; Meta.cpm := Fin 10; Meta.cpc := Fin 1;
          Meta.leads := Fin 1; Meta.costPerLead := JNum (Fin 20);
          Meta.linkClicks := Fin 5 |} |}.

(** A Vimeo analytics reply with one data point: 50 plays, 20 finishes,
    200 impressions, 600 seconds watched. *)
Definition sample_analytics : Vimeo.analytics_res :=
  {| Vimeo.ar_data :=
       Some [Some {| Vimeo.r_plays := JNum (Fin 50); Vimeo.r_finishes := JNum (Fin 20);
                     Vimeo.r_impressions := JNum (Fin 200);
                     Vimeo.r_watch_time := JNum (Fin 600) |}];
     Vimeo.ar_self :=
       {| Vimeo.r_plays := JUndefined; Vimeo.r_finishes := JUndefined;
          Vimeo.r_impressions := JUndefined; Vimeo.r_watch_time := JUndefined |} |}.

(** An endpoint that answers every request with 401. *)
Definition refused {R : Type} : endpoint R :=
  fun _ => Ok {| res_ok := false; res_status := 401; res_text := "unauthorized";
                 res_json := Threw (new_Error "Unexpected end of JSON input") |}.

(** An endpoint that answers every request with 200 and the given body. *)
Definition replying {R : Type} (body : R) : endpoint R :=
  fun _ => Ok {| res_ok := true; res_status := 200; res_text := "";
                 res_json := Ok body |}.

(** No credential is set. *)
Definition empty_env : gmap string string := ∅.

(** Only the three credentials of Unbounce's token refresh are set. *)
Definition refresh_only_env : gmap string string :=
  list_to_map [("UNBOUNCE_REFRESH_TOKEN", "refresh-1");
               ("UNBOUNCE_CLIENT_ID", "client-1");
               ("UNBOUNCE_CLIENT_SECRET", "secret-1")].

(** Every credential is set. *)
Definition full_env : gmap string string :=
  list_to_map [("GA4_PROPERTY_ID", "123456"); ("GOOGLE_SERVICE_ACCOUNT", "{}");
               ("GSC_SITE_URL", "sc-domain:example.com"); ("KIT_API_SECRET", "kit-1");
               ("META_AD_ACCOUNT_ID", "act_1"); ("META_ACCESS_TOKEN", "meta-1");
               ("UNBOUNCE_ACCESS_TOKEN", "unbounce-1"); ("VIMEO_ACCESS_TOKEN", "vimeo-1")].

(** The calendar of the sample runs. *)
Definition sample_daysAgo (n : Z) : string := "2026-10-" +:+ pretty (33 - n).

(** An Unbounce account with one published page. *)
Definition sample_page : Unbounce.page :=
  {| Unbounce.p_id := "page-1"; Unbounce.p_name := Some "Webinar signup";
     Unbounce.p_url := Some "https://get.example.com/webinar";
     Unbounce.p_state := Some "published" |}.

Definition sample_accounts : endpoint Unbounce.accounts_res :=
  replying {| Unbounce.accounts := Some ["account-1"] |}.

Definition sample_pages : endpoint Unbounce.pages_res :=
  replying {| Unbounce.pages := Some [sample_page] |}.

(** A Vimeo account with two videos; the analytics of the second are
    refused. *)
Definition sample_videos : endpoint Vimeo.videos_res :=
  replying
    {| Vimeo.vr_data :=
         Some [ {| Vimeo.rv_uri := "/videos/101"; Vimeo.rv_name := Some "Intro VSL";
                   Vimeo.rv_duration := JNum (Fin 300);
                   Vimeo.rv_stats_plays := JNum (Fin 900);
                   Vimeo.rv_created_time := Some "2026-09-01T00:00:00+00:00" |};
                {| Vimeo.rv_uri := "/videos/102"; Vimeo.rv_name := Some "Launch VSL";
                   Vimeo.rv_duration := JNum (Fin 480);
                   Vimeo.rv_stats_plays := JUndefined;
                   Vimeo.rv_created_time := Some "2026-10-01T00:00:00+00:00" |} ] |}.

Definition sample_video_analytics : endpoint Vimeo.analytics_res :=
  fun rq =>
    if String.eqb (req_url rq) "https://api.vimeo.com/videos/101/analytics"
    then replying sample_analytics rq
    else refused rq.

Definition no_engagement : unit -> jsval -> result (option unit) :=
  fun _ _ => Ok None.

(** A Meta account whose every insights query returns one row: spend
    120.50, click-through rate 0.31. *)
Definition sample_parseFloat (s : string) : number :=
  if String.eqb s "120.50" then Fin (241 # 2)
  else if String.eqb s "0.31" then Fin (31 # 100)
  else NaN.

Definition sample_parseInt (s : string) : number :=
  if String.eqb s "4000" then Fin 4000 else NaN.

Definition sample_graph_api : endpoint Meta.payload :=
  replying
    {| Meta.p_error := None;
       Meta.p_data :=
         Some [ {| Meta.campaign_name := Some "Cold audience";
                   Meta.ad_name := Some "Video A";
                   Meta.r_spend := Some "120.50";
                   Meta.r_impressions := Some "4000";
                   Meta.r_reach := None; Meta.r_clicks := None;
                   Meta.r_ctr := Some "0.31";
                   Meta.r_cpm := None; Meta.r_cpc := None;
                   Meta.r_actions := None; Meta.r_cost_per_action_type := None |} ] |}.

(** A report the generator may return, as text and parsed. *)
Definition sample_doc_text : string :=
  "{" +:+ dq +:+ "weeklyVerdict" +:+ dq +:+ ":" +:+ dq +:+ "Steady week." +:+ dq +:+ "}".

Definition sample_doc : value := VObject [("weeklyVerdict", VString "Steady week.")].

(** [JSON.parse] on the texts of the sample runs; anything else is a
    syntax error. *)
Definition sample_parse (s : string) : option value :=
  if String.eqb s sample_doc_text then Some sample_doc
  else if String.eqb s "null" then Some VNull
  else if String.eqb s "[]" then Some (VArray [])
  else None.

(** A stand-in for [JSON.stringify] that shows the shape of a value and
    the keys of an object. *)
Definition sample_stringify (v : value) : string :=
  match v with
  | VNull => "null"
  | VArray [] => "[]"
  | VArray _ => "[...]"
  | VObject fields => "{" +:+ String.concat "," (map fst fields) +:+ "}"
  | _ => "..."
  end.

(** Six fetchers resolve, Kit rejects. *)
Definition sample_fetchers : Report.fetchers :=
  {| Report.fetchGA4Data := resolve (VObject [("fetchedAt", VString "2026-11-02T06:00:01.000Z")]);
     Report.fetchGSCData := resolve (VObject [("fetchedAt", VString "2026-11-02T06:00:02.000Z")]);
     Report.fetchYouTubeData :=
       resolve (VObject [("fetchedAt", VString "2026-11-02T06:00:02.000Z")]);
     Report.fetchKitData := throw (new_Error "KIT_API_SECRET env var is missing");
     Report.fetchMetaData := resolve (VObject [("fetchedAt", VString "2026-11-02T06:00:03.000Z")]);
     Report.fetchUnbounceData :=
       resolve (VObject [("fetchedAt", VString "2026-11-02T06:00:03.000Z")]);
     Report.fetchVimeoData :=
       resolve (VObject [("fetchedAt", VString "2026-11-02T06:00:04.000Z")]) |}.

(** A generator whose first reply is prose and whose reply to the retry is
    [second]; and one that always replies [text]. *)
Definition generator_retrying (second : string)
    : Report.create_params -> result Report.api_message :=
  fun p =>
    match Report.messages p with
    | [_] => Ok {| Report.content_text := [Some "Here is your report."] |}
    | _ => Ok {| Report.content_text := [Some second] |}
    end.

Definition generator_saying (text : string)
    : Report.create_params -> result Report.api_message :=
  fun _ => Ok {| Report.content_text := [Some text] |}.

(** A run of the script on the sample fetchers, with a file system that
    accepts every write. *)
Definition sample_main (create : Report.create_params -> result Report.api_message)
    : Eff Report.event unit :=
  Report.main sample_stringify sample_parse (fun _ => "Unexpected token") (fun s => s)
    (fun s => s) "You are a senior marketing strategist." create
    "2026-11-02T06:00:10.000Z" "2026-11-02T06:00:11.000Z"
    (fun _ => true) (fun _ => Ok tt) (fun _ _ => Ok tt) sample_fetchers.

(** A Kit account with two broadcasts and 1200 subscribers; the first
    broadcast was opened by 45.26 percent of its recipients, the second by
    38.5 percent. *)
Definition sample_broadcasts : endpoint Kit.broadcasts_res :=
  replying
    {| Kit.br_broadcasts :=
         Some [ {| Kit.b_id := "b1"; Kit.b_email_template_name := None;
                   Kit.b_subject := Some "Five referral scripts";
                   Kit.b_published_at := Some "2026-10-27T14:00:00Z";
                   Kit.b_send_at := None |};
                {| Kit.b_id := "b2"; Kit.b_email_template_name := None;
                   Kit.b_subject := Some "Pricing teardown";
                   Kit.b_published_at := Some "2026-10-20T14:00:00Z";
                   Kit.b_send_at := None |} ];
       Kit.br_data := None |}.

Definition sample_kit_stats : endpoint Kit.stats_res :=
  fun rq =>
    replying
      {| Kit.sr_broadcast_stats := None;
         Kit.sr_stats :=
           Some {| Kit.recipients := JNum (Fin 1000);
                   Kit.open_rate :=
                     if String.eqb (req_url rq) "https://api.kit.com/v4/broadcasts/b1/stats"
                     then JNum (Fin (2263 # 50)) else JNum (Fin (77 # 2));
                   Kit.click_rate := JNum (Fin (31 # 10));
                   Kit.unsubscribe_rate := JNum (Fin (1 # 5));
                   Kit.s_opens := JNum (Fin 450); Kit.s_clicks := JNum (Fin 31);
                   Kit.s_unsubscribes := JNum (Fin 2) |} |} rq.

Definition sample_subscribers : endpoint Kit.count_res :=
  replying {| Kit.pagination_total_count := JNum (Fin 1200);
              Kit.meta_total_count := JUndefined |}.

Definition sample_kit : Async Kit.kit_data :=
  Kit.fetchKitData full_env sample_broadcasts sample_kit_stats sample_subscribers
    "2026-10-26" "2026-11-02T06:00:00.000Z".

(** The three refresh credentials and a stored access token are set. *)
Definition refreshing_env : gmap string string :=
  list_to_map [("UNBOUNCE_ACCESS_TOKEN", "unbounce-1");
               ("UNBOUNCE_REFRESH_TOKEN", "refresh-1");
               ("UNBOUNCE_CLIENT_ID", "client-1");
               ("UNBOUNCE_CLIENT_SECRET", "secret-1")].

(** Stats of the sample page: 200 visitors, 10 conversions, in two variants. *)
Definition sample_unbounce_stats : endpoint Unbounce.stats_res :=
  replying
    {| Unbounce.page_group_stats :=
         Some [ {| Unbounce.rs_id := Some "a"; Unbounce.rs_visitors := JNum (Fin 120);
                   Unbounce.rs_conversions := JNum (Fin 4);
                   Unbounce.rs_conversion_rate := JNum (Fin (1 # 30)) |};
                {| Unbounce.rs_id := Some "b"; Unbounce.rs_visitors := JNum (Fin 80);
                   Unbounce.rs_conversions := JNum (Fin 6);
                   Unbounce.rs_conversion_rate := JNum (Fin (3 # 40)) |} ];
       Unbounce.sr_self :=
         {| Unbounce.rs_id := None; Unbounce.rs_visitors := JUndefined;
            Unbounce.rs_conversions := JUndefined;
            Unbounce.rs_conversion_rate := JUndefined |} |}.

Definition sample_unbounce : Async Unbounce.unbounce_data :=
  Unbounce.fetchUnbounceData full_env refused sample_accounts sample_pages
    sample_unbounce_stats sample_daysAgo "2026-11-02T06:00:00.000Z".

(** The first video of the sample account, and the sample run of Vimeo. *)
Definition sample_raw_video : Vimeo.raw_video :=
  {| Vimeo.rv_uri := "/videos/101"; Vimeo.rv_name := Some "Intro VSL";
     Vimeo.rv_duration := JNum (Fin 300); Vimeo.rv_stats_plays := JNum (Fin 900);
     Vimeo.rv_created_time := Some "2026-09-01T00:00:00+00:00" |}.

Definition sample_vimeo : Async (Vimeo.vimeo_data (engagement_t := unit)) :=
  Vimeo.fetchVimeoData no_engagement full_env sample_videos sample_video_analytics refused
    sample_daysAgo "2026-11-02T06:00:00.000Z" "2026-11-02T06:00:05.000Z".

(** The sample run of Meta, and a Graph API that answers 400 with an
    error object. *)
Definition sample_meta : Async Meta.meta_data :=
  Meta.fetchMetaData sample_parseFloat sample_parseInt sample_daysAgo
    "2026-11-02T06:00:00.000Z" full_env sample_graph_api.

Definition expired_graph_api : endpoint Meta.payload :=
  fun _ => Ok {| res_ok := false; res_status := 400; res_text := "";
                 res_json := Ok {| Meta.p_error := Some "Session has expired";
                                   Meta.p_data := None |} |}.

(** An account row with two lead actions. *)
Definition sample_lead_row : Meta.raw_insight :=
  {| Meta.campaign_name := None; Meta.ad_name := None; Meta.r_spend := Some "120.50";
     Meta.r_impressions := Some "4000"; Meta.r_reach := None; Meta.r_clicks := None;
     Meta.r_ctr := Some "0.31"; Meta.r_cpm := None; Meta.r_cpc := None;
     Meta.r_actions :=
       Some [ {| Meta.action_type := "link_click"; Meta.action_value := Some "4000" |};
              {| Meta.action_type := "onsite_conversion.lead_grouped";
                 Meta.action_value := Some "0.31" |};
              {| Meta.action_type := "lead"; Meta.action_value := Some "4000" |} ];
     Meta.r_cost_per_action_type := None |}.

(** Two weeks of Search Console rows.  This week: "marketing plan" at
    position 4.2 and "constructor" at position 9; last week: "marketing
    plan" twice, at positions 8.04 and 7.31. *)
Definition sample_gsc_row (k : string) (clicks impressions : Z) (ctr position : Q)
    : GscData.raw_row :=
  {| GscData.keys := Some [k];
     GscData.r_clicks := JNum (num_of_Z clicks);
     GscData.r_impressions := JNum (num_of_Z impressions);
     GscData.r_ctr := JNum (Fin ctr);
     GscData.r_position := JNum (Fin position) |}.

Definition sample_gsc_this_week : GscData.reply :=
  {| GscData.rows :=
       Some [ sample_gsc_row "marketing plan" 40 900 (2 # 45) (21 # 5);
              sample_gsc_row "constructor" 1 120 (1 # 120) 9 ] |}.

Definition sample_gsc_last_week : GscData.reply :=
  {| GscData.rows :=
       Some [ sample_gsc_row "marketing plan" 10 400 (1 # 40) (201 # 25);
              sample_gsc_row "marketing plan" 25 800 (1 # 32) (731 # 100) ] |}.

(** The queries of the two sample weeks, as [parseRows] gives them. *)
Definition sample_last_week_queries : list GscData.query :=
  [ {| GscData.key := Some "marketing plan"; GscData.clicks := JNum (Fin 10);
       GscData.impressions := JNum (Fin 400); GscData.ctr := Fin (5 # 2);
       GscData.position := Fin 8 |};
    {| GscData.key := Some "marketing plan"; GscData.clicks := JNum (Fin 25);
       GscData.impressions := JNum (Fin 800); GscData.ctr := Fin (31 # 10);
       GscData.position := Fin (73 # 10) |} ].

Definition sample_constructor_query : GscData.query :=
  {| GscData.key := Some "constructor"; GscData.clicks := JNum (Fin 1);
     GscData.impressions := JNum (Fin 120); GscData.ctr := Fin (4 # 5);
     GscData.position := Fin 9 |}.

Definition sample_plan_query : GscData.query :=
  {| GscData.key := Some "marketing plan"; GscData.clicks := JNum (Fin 40);
     GscData.impressions := JNum (Fin 900); GscData.ctr := Fin (22 # 5);
     GscData.position := Fin (21 # 5) |}.

(** A Search Console that answers every query with this week's rows. *)
Definition sample_gsc : Async GscData.gsc_data :=
  GscData.fetchGSCData
    (fun name => "Cannot read properties of undefined (reading '" +:+ name +:+ "')")
    (fun raw => Ok raw) sample_daysAgo full_env
    (fun _ rq =>
       Ok (if String.eqb (default "" (snd <$> head (req_params rq))) "2026-10-16"
           then sample_gsc_last_week else sample_gsc_this_week))
    "2026-11-02T06:00:00.000Z".

(** A channel report of one row, and one without rows. *)
Definition sample_channel_report : YoutubeData.report :=
  {| YoutubeData.columnHeaders :=
       Some [Some "views"; Some "estimatedMinutesWatched"; Some "averageViewDuration";
             Some "subscribersGained"; Some "subscribersLost"];
     YoutubeData.rows :=
       Some [[JNum (Fin 5200); JNum (Fin 18400); JNum (Fin 212); JNum (Fin 61)]] |}.

Definition empty_channel_report : YoutubeData.report :=
  {| YoutubeData.columnHeaders :=
       Some [Some "views"; Some "estimatedMinutesWatched"; Some "averageViewDuration";
             Some "subscribersGained"; Some "subscribersLost"];
     YoutubeData.rows := None |}.

(** The engagement of a 300-second video in four segments, the retention
    falling from 1 to 0.8, 0.5 and 0.45; and one whose retention stays at
    0.6 and then rises to 0.7. *)
Definition sample_segment (first last : Z) (kept : Q) : VimeoEngagement.segment_t :=
  {| VimeoEngagement.segment :=
       Some {| VimeoEngagement.start_time := JNum (num_of_Z first);
               VimeoEngagement.end_time := JNum (num_of_Z last) |};
     VimeoEngagement.retention := JNum (Fin kept) |}.

Definition sample_engagement : VimeoEngagement.reply :=
  {| VimeoEngagement.data :=
       Some [ sample_segment 0 74 1; sample_segment 75 149 (4 # 5);
              sample_segment 150 224 (1 # 2); sample_segment 225 300 (9 # 20) ] |}.

Definition rising_engagement : VimeoEngagement.reply :=
  {| VimeoEngagement.data :=
       Some [ sample_segment 0 99 (3 # 5); sample_segment 100 199 (3 # 5);
              sample_segment 200 300 (7 # 10) ] |}.

(** A generator whose reply has no content block, and one whose call
    fails with a [SyntaxError] before any reply is read. *)
Definition generator_without_text : Report.create_params -> result Report.api_message :=
  fun _ => Ok {| Report.content_text := [] |}.

Definition generator_garbled : Report.create_params -> result Report.api_message :=
  fun p =>
    match Report.messages p with
    | [_] => Threw {| err_kind := SyntaxErrorK;
                      err_message := Some "Unexpected end of JSON input" |}
    | _ => Ok {| Report.content_text := [Some sample_doc_text] |}
    end.

(** * Theorems *)

#[local] Arguments Qfloor : simpl never.
#[local] Arguments Qceiling : simpl never.
#[local] Arguments Qred : simpl never.
#[local] Arguments Qplus : simpl never.
#[local] Arguments Qmult : simpl never.
#[local] Arguments Qdiv : simpl never.
#[local] Arguments Qopp : simpl never.
#[local] Arguments Qinv : simpl never.
#[local] Arguments Qminus : simpl never.
#[local] Arguments inject_Z : simpl never.
#[local] Arguments Qeq_bool : simpl never.
#[local] Arguments Qle_bool : simpl never.
#[local] Arguments Qpower : simpl never.
#[local] Arguments pow10 : simpl never.
#[local] Arguments Report.on_failure : simpl never.
#[local] Arguments slice0 : simpl never.
#[local] Arguments js_sort : simpl never.

(** ** Rationals in lowest terms *)

(** Two rational expressions that differ only by reductions to lowest
    terms are equal as rationals. *)
Ltac unred :=
  unfold Qminus;
  match goal with
  | |- (Qred ?a == _)%Q => transitivity a; [apply Qred_correct | unred]
  | |- (?a + ?b == ?c + ?d)%Q => apply Qplus_comp; unred
  | |- (?a * ?b == ?c * ?d)%Q => apply Qmult_comp; unred
  | |- (?a / ?b == ?c / ?d)%Q => apply Qdiv_comp; unred
  | |- (- ?a == - ?b)%Q => apply Qopp_comp; unred
  | |- (inject_Z (Qfloor ?a) == inject_Z (Qfloor ?b))%Q =>
      let H := fresh in
      assert (Qfloor a = Qfloor b) as H by (apply Qfloor_comp; unred);
      rewrite H; reflexivity
  | |- _ => reflexivity
  end.

Lemma fin_eq (a b : Q) : (a == b)%Q -> fin a = fin b.
Proof. intros H. unfold fin. f_equal. apply Qred_complete, H. Qed.

Lemma Qzero_b_false (q : Q) : ~ (q == 0)%Q -> Qzero_b q = false.
Proof.
  intros H. unfold Qzero_b. destruct (Qeq_bool q 0) eqn:E; [|reflexivity].
  apply Qeq_bool_iff in E. contradiction.
Qed.

Lemma Qzero_b_true (q : Q) : (q == 0)%Q -> Qzero_b q = true.
Proof. intros H. apply Qeq_bool_iff, H. Qed.

Lemma Qzero_b_Qred (q : Q) : Qzero_b (Qred q) = Qzero_b q.
Proof.
  unfold Qzero_b. destruct (Qeq_bool q 0) eqn:E.
  - apply Qeq_bool_iff. rewrite Qred_correct. apply Qeq_bool_iff, E.
  - apply Qzero_b_false. rewrite Qred_correct. apply Qeq_bool_neq, E.
Qed.

Lemma Qneg_b_false (q : Q) : (0 <= q)%Q -> Qneg_b q = false.
Proof. intros H. unfold Qneg_b. apply Qle_bool_iff in H. rewrite H. reflexivity. Qed.

Lemma Qneg_b_true (q : Q) : (q < 0)%Q -> Qneg_b q = true.
Proof.
  intros H. unfold Qneg_b. destruct (Qle_bool 0 q) eqn:E; [|reflexivity].
  apply Qle_bool_iff in E. exfalso. apply (Qlt_not_le _ _ H E).
Qed.

Lemma pow10_pos (n : Z) : (0 < pow10 n)%Q.
Proof. apply Qpower_0_lt. reflexivity. Qed.

Lemma pow10_nonzero (n : Z) : ~ (pow10 n == 0)%Q.
Proof. intros H. pose proof (pow10_pos n) as P. rewrite H in P. discriminate P. Qed.

Lemma Qred_pow10_pos (n : Z) : (0 < Qred (pow10 n))%Q.
Proof. rewrite Qred_correct. apply pow10_pos. Qed.

Lemma Qred_pow10_nonzero (n : Z) : Qzero_b (Qred (pow10 n)) = false.
Proof. rewrite Qzero_b_Qred. apply Qzero_b_false, pow10_nonzero. Qed.

Lemma Qred_pow10_not_neg (n : Z) : Qneg_b (Qred (pow10 n)) = false.
Proof. apply Qneg_b_false, Qlt_le_weak, Qred_pow10_pos. Qed.

(** The floor is determined by the unit interval it starts. *)
Lemma Qfloor_unique (x : Q) (z : Z) :
  (inject_Z z <= x)%Q -> (x < inject_Z (z + 1))%Q -> Qfloor x = z.
Proof.
  intros Hle Hlt.
  pose proof (Qfloor_resp_le _ _ Hle) as H1. rewrite Qfloor_Z in H1.
  pose proof (Qfloor_le x) as H2.
  assert (inject_Z (Qfloor x) < inject_Z (z + 1))%Q as H3
    by (eapply Qle_lt_trans; eassumption).
  rewrite <- Zlt_Qlt in H3. lia.
Qed.

Lemma Qfloor_half_of_Z (z : Z) : Qfloor (inject_Z z + (1 # 2)) = z.
Proof.
  apply Qfloor_unique.
  - rewrite <- (Qplus_0_r (inject_Z z)) at 1. apply Qplus_le_r. discriminate.
  - rewrite inject_Z_plus. apply Qplus_lt_r. reflexivity.
Qed.

(** ** Recorded divisions *)

Lemma returned_bind {A B} (m : W A) (k : A -> W B) :
  returned (bind m k) = returned (k (returned m)).
Proof. unfold returned, bind. destruct (k (fst m)). reflexivity. Qed.

Lemma divisors_bind {A B} (m : W A) (k : A -> W B) :
  divisors (bind m k) = divisors m ++ divisors (k (returned m)).
Proof. unfold divisors, returned, bind. destruct (k (fst m)). reflexivity. Qed.

Lemma no_zero_divisor_bind {A B} (m : W A) (k : A -> W B) :
  no_zero_divisor m -> no_zero_divisor (k (returned m)) -> no_zero_divisor (bind m k).
Proof.
  unfold no_zero_divisor. rewrite divisors_bind. intros. apply Forall_app. split; assumption.
Qed.

Lemma no_zero_divisor_ret {A} (a : A) : no_zero_divisor (ret a).
Proof. constructor. Qed.

Lemma no_zero_divisor_divide (a b : number) :
  num_is_zero b = false -> no_zero_divisor (divide a b).
Proof. intros H. constructor; [exact H | constructor]. Qed.

Lemma truthy_not_zero (v : jsval) : truthy v = true -> num_is_zero (to_number v) = false.
Proof.
  destruct v as [| |[q| | |]]; simpl; try discriminate; try reflexivity.
  intros H. apply negb_true_iff in H. exact H.
Qed.

Lemma js_gt_zero_not_zero (v : jsval) :
  js_gt v (JNum (Fin 0)) = true -> num_is_zero (to_number v) = false.
Proof.
  unfold js_gt, num_gt. destruct v as [| |[q| | |]]; simpl; try discriminate; try reflexivity.
  intros H. apply negb_true_iff in H. apply Qzero_b_false. intros E.
  rewrite E in H. discriminate H.
Qed.

(** ** The delta helper *)

Lemma pct_unfold_truthy (current previous : jsval) :
  truthy previous = true ->
  Ga4.pct current previous =
  (JNum (num_div (Math_round (num_mul (num_div (num_sub (to_number current)
                                                         (to_number previous))
                                                (to_number previous))
                                       (num_of_Z 1000)))
                 (num_of_Z 10)),
   [to_number previous; num_of_Z 10]).
Proof.
  intros T. unfold Ga4.pct. rewrite T.
  pose proof (truthy_not_zero _ T) as Z.
  assert (strict_eq_zero previous = false) as ->.
  { destruct previous; simpl in *; try reflexivity. exact Z. }
  reflexivity.
Qed.

Lemma pct_unfold_falsy (current previous : jsval) :
  truthy previous = false -> Ga4.pct current previous = (JNull, []).
Proof. intros T. unfold Ga4.pct. rewrite T. reflexivity. Qed.

Lemma pct_no_zero_divisor (current previous : jsval) :
  no_zero_divisor (Ga4.pct current previous).
Proof.
  destruct (truthy previous) eqn:T.
  - rewrite pct_unfold_truthy by exact T. unfold no_zero_divisor. simpl.
    repeat constructor. apply truthy_not_zero, T.
  - rewrite pct_unfold_falsy by exact T. constructor.
Qed.

Lemma pct_finite (c p : Q) :
  ~ (p == 0)%Q ->
  returned (Ga4.pct (JNum (Fin c)) (JNum (Fin p))) = JNum (fin (delta_formula c p)).
Proof.
  intros Hp. pose proof (Qzero_b_false _ Hp) as Z.
  rewrite pct_unfold_truthy by (simpl; rewrite Z; reflexivity).
  unfold returned. simpl. unfold num_sub, num_add, num_neg, fin. simpl.
  rewrite Z. unfold fin. simpl.
  change (Qzero_b (inject_Z 10)) with false. cbn iota.
  f_equal. apply fin_eq.
  unfold delta_formula. unred.
Qed.



(** ** The rounding helper *)

Lemma round_finite (v : Q) (n : Z) :
  Meta.round (JNum (Fin v)) n = (fin (scaled round_half_up v n), [fin (pow10 n)]).
Proof.
  unfold Meta.round, divide, Math_pow10. simpl. unfold fin, num_of_Z. simpl.
  rewrite Qred_pow10_nonzero. f_equal. apply fin_eq.
  unfold scaled, round_half_up. unred.
Qed.

Lemma round_not_finite (x : jsval) (n : Z) :
  (forall v, to_number x <> Fin v) -> returned (Meta.round x n) = to_number x.
Proof.
  intros H. unfold Meta.round, divide, Math_pow10, returned, fin. simpl.
  destruct (to_number x) as [v| | |] eqn:E; simpl.
  - destruct (H v). reflexivity.
  - rewrite Qred_pow10_nonzero, Qred_pow10_not_neg. simpl.
    rewrite Qred_pow10_not_neg. reflexivity.
  - rewrite Qred_pow10_nonzero, Qred_pow10_not_neg. simpl.
    rewrite Qred_pow10_not_neg. reflexivity.
  - reflexivity.
Qed.

Lemma round_no_zero_divisor (x : jsval) (n : Z) : no_zero_divisor (Meta.round x n).
Proof.
  unfold Meta.round. apply no_zero_divisor_divide. unfold Math_pow10, fin. simpl.
  apply Qred_pow10_nonzero.
Qed.

Lemma scaled_half_up_fixed (k : Z) (n : Z) :
  (scaled round_half_up (Qred (inject_Z k / pow10 n)) n == inject_Z k / pow10 n)%Q.
Proof.
  unfold scaled, round_half_up.
  assert (Qred (inject_Z k / pow10 n) * pow10 n == inject_Z k)%Q as E.
  { rewrite Qred_correct. field. apply pow10_nonzero. }
  rewrite E, Qfloor_half_of_Z. reflexivity.
Qed.

Lemma round_idempotent (x : jsval) (n : Z) :
  returned (Meta.round (JNum (returned (Meta.round x n))) n) = returned (Meta.round x n).
Proof.
  destruct (to_number x) as [v| | |] eqn:E.
  - assert (Meta.round x n = Meta.round (JNum (Fin v)) n) as ->.
    { unfold Meta.round. rewrite E. reflexivity. }
    rewrite round_finite. unfold returned. cbn [fst]. unfold fin at 1.
    rewrite round_finite. cbn [fst].
    apply fin_eq. unfold scaled at 2. apply scaled_half_up_fixed.
  - rewrite (round_not_finite x) by (rewrite E; discriminate).
    rewrite E. apply round_not_finite. discriminate.
  - rewrite (round_not_finite x) by (rewrite E; discriminate).
    rewrite E. apply round_not_finite. discriminate.
  - rewrite (round_not_finite x) by (rewrite E; discriminate).
    rewrite E. apply round_not_finite. discriminate.
Qed.

Lemma half_away_is_half_up (q : Q) :
  (0 <= q)%Q \/ ~ is_tie q -> round_half_away q = round_half_up q.
Proof.
  unfold round_half_away, round_half_up, is_tie.
  destruct (Qle_bool 0 q) eqn:E; [reflexivity|].
  intros [H | H].
  - apply Qle_bool_iff in H. congruence.
  - set (z := Qfloor (q + (1 # 2))) in *.
    pose proof (Qfloor_le (q + (1 # 2))) as L. fold z in L.
    pose proof (Qlt_floor (q + (1 # 2))) as U. fold z in U.
    rewrite inject_Z_plus in U.
    assert (inject_Z z < q + (1 # 2))%Q as S.
    { apply Qle_lt_or_eq in L. destruct L as [L | L]; [exact L | contradiction]. }
    unfold Qceiling.
    assert (Qfloor (- (q - (1 # 2))) = - z) as ->; [|lia].
    apply Qfloor_unique.
    + rewrite inject_Z_opp. change (inject_Z 1) with 1%Q in U. lra.
    + rewrite inject_Z_plus, inject_Z_opp. change (inject_Z 1) with 1%Q. lra.
Qed.





(** ** Vimeo's parseAnalytics *)

Lemma vimeo_round_no_zero_divisor (x : jsval) (n : Z) :
  no_zero_divisor (Vimeo.round x n).
Proof. exact (round_no_zero_divisor x n). Qed.

Lemma rate_no_zero_divisor (num den : jsval) :
  no_zero_divisor
    (if js_gt den (JNum (Fin 0)) then
       let* q := divide (to_number num) (to_number den) in
       let* r := Vimeo.round (JNum (num_mul q (num_of_Z 100))) 1 in
       ret (JNum r)
     else ret JNull).
Proof.
  destruct (js_gt den (JNum (Fin 0))) eqn:G.
  - apply no_zero_divisor_bind.
    + apply no_zero_divisor_divide, js_gt_zero_not_zero, G.
    + apply no_zero_divisor_bind; [apply vimeo_round_no_zero_divisor|].
      apply no_zero_divisor_ret.
  - apply no_zero_divisor_ret.
Qed.

Lemma rate_returned (num den : jsval) :
  returned
    (if js_gt den (JNum (Fin 0)) then
       let* q := divide (to_number num) (to_number den) in
       let* r := Vimeo.round (JNum (num_mul q (num_of_Z 100))) 1 in
       ret (JNum r)
     else ret JNull)
  = if js_gt den (JNum (Fin 0))
    then JNum (returned (Vimeo.round
                           (JNum (num_mul (num_div (to_number num) (to_number den))
                                          (num_of_Z 100))) 1))
    else JNull.
Proof. destruct (js_gt den (JNum (Fin 0))); reflexivity. Qed.

Lemma parse_row_rates (row : Vimeo.row) :
  Vimeo.playRate (returned (Vimeo.parse_row row)) =
    (if js_gt (Vimeo.r_impressions row) (JNum (Fin 0))
     then JNum (returned (Vimeo.round
                  (JNum (num_mul (num_div (to_number (Vimeo.r_plays row))
                                          (to_number (Vimeo.r_impressions row)))
                                 (num_of_Z 100))) 1))
     else JNull)
  /\ Vimeo.finishRate (returned (Vimeo.parse_row row)) =
    (if js_gt (Vimeo.r_plays row) (JNum (Fin 0))
     then JNum (returned (Vimeo.round
                  (JNum (num_mul (num_div (to_number (Vimeo.r_finishes row))
                                          (to_number (Vimeo.r_plays row)))
                                 (num_of_Z 100))) 1))
     else JNull).
Proof.
  unfold Vimeo.parse_row. rewrite !returned_bind. unfold ret at 1 2. unfold returned at 1 4.
  cbn [fst Vimeo.playRate Vimeo.finishRate].
  split; apply rate_returned.
Qed.

Lemma parse_row_no_zero_divisor (row : Vimeo.row) :
  no_zero_divisor (Vimeo.parse_row row).
Proof.
  unfold Vimeo.parse_row.
  apply no_zero_divisor_bind; [apply no_zero_divisor_divide; reflexivity|].
  apply no_zero_divisor_bind; [apply vimeo_round_no_zero_divisor|].
  apply no_zero_divisor_bind; [apply rate_no_zero_divisor|].
  apply no_zero_divisor_bind; [apply rate_no_zero_divisor|].
  apply no_zero_divisor_ret.
Qed.

Lemma js_gt_zero_pos (q : Q) : (0 < q)%Q -> js_gt (JNum (Fin q)) (JNum (Fin 0)) = true.
Proof.
  intros H. unfold js_gt, num_gt. simpl. apply negb_true_iff.
  destruct (Qle_bool q 0) eqn:E; [|reflexivity].
  apply Qle_bool_iff in E. exfalso. apply (Qlt_not_le _ _ H E).
Qed.

Lemma js_gt_zero_absent (v : jsval) :
  v = JUndefined \/ v = JNull \/ (exists q : Q, v = JNum (Fin q) /\ (q <= 0)%Q) ->
  js_gt v (JNum (Fin 0)) = false.
Proof.
  intros [-> | [-> | [q [-> H]]]]; try reflexivity.
  unfold js_gt, num_gt. simpl. apply Qle_bool_iff in H. rewrite H. reflexivity.
Qed.

Lemma rate_finite (a b : Q) :
  (0 < b)%Q ->
  returned (Vimeo.round (JNum (num_mul (num_div (Fin a) (Fin b)) (num_of_Z 100))) 1)
  = fin (scaled round_half_up (a / b * inject_Z 100) 1).
Proof.
  intros H.
  assert (Qzero_b b = false) as Z.
  { apply Qzero_b_false. intros E. rewrite E in H. discriminate H. }
  unfold num_div. rewrite Z. unfold fin, num_of_Z. cbn [num_mul]. unfold fin.
  change (Vimeo.round ?x ?n) with (Meta.round x n).
  rewrite round_finite. unfold returned. cbn [fst]. apply fin_eq.
  unfold scaled, round_half_up. unred.
Qed.



(** ** Effects *)

Lemma ebind_ok {E A B} (m : Eff E A) (k : A -> Eff E B) (b : B) :
  outcome (ebind m k) = Ok b -> exists a, outcome m = Ok a /\ outcome (k a) = Ok b.
Proof.
  unfold outcome, ebind. destruct (fst m) as [a | e]; [|discriminate].
  intros H. exists a. split; [reflexivity|]. destruct (k a). exact H.
Qed.

Lemma ebind_outcome {E A B} (m : Eff E A) (k : A -> Eff E B) :
  outcome (ebind m k) =
  match outcome m with
  | Ok a => outcome (k a)
  | Threw e => Threw e
  end.
Proof. unfold outcome, ebind. destruct (fst m); [destruct (k a)|]; reflexivity. Qed.

Lemma ebind_events {E A B} (m : Eff E A) (k : A -> Eff E B) :
  events (ebind m k) =
  match outcome m with
  | Ok a => events m ++ events (k a)
  | Threw e => events m
  end.
Proof. unfold outcome, events, ebind. destruct (fst m); [destruct (k a)|]; reflexivity. Qed.

Lemma try_catch_resolve {E A} (m : Eff E A) (h : js_error -> A) :
  outcome (try_catch m (fun e => resolve (h e))) =
  Ok (match outcome m with Ok a => a | Threw e => h e end).
Proof. unfold outcome, try_catch. destruct m as [[a | e] t]; reflexivity. Qed.

Lemma Promise_all_total {E A B} (f : A -> Eff E B) (g : A -> B) (xs : list A) :
  (forall x, outcome (f x) = Ok (g x)) ->
  outcome (Promise_all (map f xs)) = Ok (map g xs).
Proof.
  intros H. induction xs as [| x xs IH]; [reflexivity|].
  unfold outcome in *. cbn [map Promise_all fst]. rewrite (H x), IH. reflexivity.
Qed.

Lemma In_filter {A} (f : A -> bool) (x : A) (l : list A) :
  In x (List.filter f l) <-> In x l /\ f x = true.
Proof. apply List.filter_In. Qed.

(** ** The threshold filters *)

Lemma meta_underperforming_of
    (parseFloat parseInt : string -> number) (daysAgo : Z -> string) (now : string)
    (env : gmap string string) (graph_api : endpoint Meta.payload) (d : Meta.meta_data) :
  outcome (Meta.fetchMetaData parseFloat parseInt daysAgo now env graph_api) = Ok d ->
  Meta.underperforming d =
  Meta.select_underperforming (Meta.costPerLead (fst (Meta.thisWeek d))) (Meta.campaigns d).
Proof.
  unfold Meta.fetchMetaData. intros H.
  apply ebind_ok in H. destruct H as [accountId [_ H]].
  apply ebind_ok in H. destruct H as [[tw lw] [_ H]].
  apply ebind_ok in H. destruct H as [campaignsRes [_ H]].
  apply ebind_ok in H. destruct H as [adsRes [_ H]].
  unfold outcome, resolve in H. cbn [fst] in H. injection H as <-. reflexivity.
Qed.

Lemma unbounce_problemPages_of
    (env : gmap string string) (oauth_api : endpoint Unbounce.token_res)
    (accounts_api : endpoint Unbounce.accounts_res) (pages_api : endpoint Unbounce.pages_res)
    (stats_api : endpoint Unbounce.stats_res) (daysAgo : Z -> string) (now : string)
    (d : Unbounce.unbounce_data) :
  outcome (Unbounce.fetchUnbounceData env oauth_api accounts_api pages_api stats_api
             daysAgo now) = Ok d ->
  exists pageStats : list Unbounce.page_item,
    let publishedPages := List.filter Unbounce.is_published pageStats in
    Unbounce.problemPages d =
      List.filter (Unbounce.is_problem (Unbounce.avgConvRate_of publishedPages)) publishedPages
    /\ Unbounce.averageConversionRate d =
       returned (Unbounce.round (JNum (Unbounce.avgConvRate_of publishedPages)) 1).
Proof.
  unfold Unbounce.fetchUnbounceData. intros H.
  apply ebind_ok in H. destruct H as [token [_ H]].
  apply ebind_ok in H. destruct H as [accountsRes [_ H]].
  destruct (default [] (Unbounce.accounts accountsRes)) as [| accountId rest];
    [discriminate H|].
  apply ebind_ok in H. destruct H as [pagesRes [_ H]].
  apply ebind_ok in H. destruct H as [pageStats [_ H]].
  apply ebind_ok in H. destruct H as [pagesWithVariants [_ H]].
  unfold outcome, resolve in H. cbn [fst] in H. injection H as <-.
  exists pageStats. split; reflexivity.
Qed.

Lemma vimeo_lowFinishRate_of {engagement_res engagement_t : Type}
    (parseEngagement : engagement_res -> jsval -> result (option engagement_t))
    (env : gmap string string) (videos_api : endpoint Vimeo.videos_res)
    (analytics_api : endpoint Vimeo.analytics_res) (engagement_api : endpoint engagement_res)
    (daysAgo : Z -> string) (now fetched : string)
    (d : Vimeo.vimeo_data) (low : list Vimeo.item) :
  outcome (Vimeo.fetchVimeoData parseEngagement env videos_api analytics_api engagement_api
             daysAgo now fetched) = Ok d ->
  Vimeo.lowFinishRateVideos d = Some low ->
  exists videosWithStats : list Vimeo.item,
    let validVideos :=
      List.filter (fun v => negb (str_truthy (Vimeo.error v))) videosWithStats in
    low = List.filter (Vimeo.is_low_finish (Vimeo.avgFinishRate_of validVideos)) validVideos.
Proof.
  unfold Vimeo.fetchVimeoData. intros H L.
  apply ebind_ok in H. destruct H as [videosRes [_ H]].
  destruct (map Vimeo.to_video (default [] (Vimeo.vr_data videosRes))) as [| v0 vs].
  - unfold outcome, resolve in H. cbn [fst] in H. injection H as <-. discriminate L.
  - apply ebind_ok in H. destruct H as [videosWithStats [_ H]].
    unfold outcome, resolve in H. cbn [fst] in H. injection H as <-.
    cbn [Vimeo.lowFinishRateVideos] in L. injection L as <-.
    exists videosWithStats. reflexivity.
Qed.



(** ** Objects *)

Lemma get_set_same (fields : list (string * value)) (k : string) (x : value) :
  get_field (set_field fields k x) k = x.
Proof.
  induction fields as [| [k' v] rest IH]; cbn [set_field get_field].
  - rewrite String.eqb_refl. reflexivity.
  - destruct (String.eqb k' k) eqn:E; cbn [get_field].
    + rewrite String.eqb_refl. reflexivity.
    + rewrite E. exact IH.
Qed.

Lemma get_set_other (fields : list (string * value)) (k k' : string) (x : value) :
  k <> k' -> get_field (set_field fields k x) k' = get_field fields k'.
Proof.
  intros N. induction fields as [| [k0 v] rest IH]; cbn [set_field get_field].
  - apply String.eqb_neq in N. rewrite N. reflexivity.
  - destruct (String.eqb k0 k) eqn:E; cbn [get_field].
    + apply String.eqb_eq in E. subst k0.
      apply String.eqb_neq in N. rewrite N. reflexivity.
    + destruct (String.eqb k0 k'); [reflexivity | exact IH].
Qed.

Lemma before_T_date (date time : string) :
  (forall c, In c (String.list_ascii_of_string date) -> c <> "T"%char) ->
  Report.before_T (date +:+ "T" +:+ time) = date.
Proof.
  induction date as [| c date IH]; intros H.
  - reflexivity.
  - simpl.
    assert (Ascii.eqb c "T" = false) as ->.
    { apply Ascii.eqb_neq. apply H. left. reflexivity. }
    f_equal. apply IH. intros c' Hc. apply H. right. exact Hc.
Qed.

(** ** The report script *)

Section ReportFacts.
Variable JSON_stringify : value -> string.
Variable JSON_parse : string -> option value.
Variable syntax_error_message : string -> string.
Variable strip_fences : string -> string.
Variable trim : string -> string.
Variable PROMPT_INSTRUCTIONS : string.
Variable create : Report.create_params -> result Report.api_message.
Variable clock_weekOf : string.
Variable clock_generatedAt : string.
Variable existsSync : string -> bool.
Variable mkdirSync : string -> result unit.
Variable writeFileSync : string -> string -> result unit.

Local Abbreviation main :=
  (Report.main JSON_stringify JSON_parse syntax_error_message strip_fences trim
     PROMPT_INSTRUCTIONS create clock_weekOf clock_generatedAt existsSync mkdirSync
     writeFileSync).
Local Abbreviation analyse :=
  (Report.analyse JSON_stringify JSON_parse syntax_error_message strip_fences trim
     PROMPT_INSTRUCTIONS create).
Local Abbreviation on_failure :=
  (Report.on_failure JSON_stringify JSON_parse syntax_error_message trim
     PROMPT_INSTRUCTIONS create).
Local Abbreviation finish :=
  (Report.finish JSON_stringify clock_weekOf clock_generatedAt existsSync mkdirSync
     writeFileSync).
Local Abbreviation persist :=
  (Report.persist JSON_stringify existsSync mkdirSync writeFileSync).
Local Abbreviation enrich := (Report.enrich clock_weekOf clock_generatedAt).
Local Abbreviation prompt_of := (Report.buildPrompt JSON_stringify PROMPT_INSTRUCTIONS).
Local Abbreviation retry_result := (retry_outcome JSON_parse syntax_error_message trim).

Lemma gather_outcome (f : Report.fetchers) :
  outcome (Report.gather f) = Ok (snapshot f).
Proof. reflexivity. Qed.

Lemma gather_events (f : Report.fetchers) :
  exists rqs, events (Report.gather f) = map Report.Vendor rqs.
Proof.
  exists (events (Report.fetchGA4Data f) ++ events (Report.fetchGSCData f) ++
          events (Report.fetchYouTubeData f) ++ events (Report.fetchKitData f) ++
          events (Report.fetchMetaData f) ++ events (Report.fetchUnbounceData f) ++
          events (Report.fetchVimeoData f)).
  unfold Report.gather, events, ebind, Report.Promise_allSettled, Report.vendor_events.
  cbn. rewrite !map_app, !app_nil_r. reflexivity.
Qed.

Lemma omap_vendor {B} (sel : Report.event -> option B) (rqs : list request) :
  (forall rq, sel (Report.Vendor rq) = None) -> omap sel (map Report.Vendor rqs) = [].
Proof.
  intros H. induction rqs as [| rq rqs IH]; [reflexivity|].
  cbn. rewrite H. exact IH.
Qed.

Lemma main_shape (f : Report.fetchers) :
  main f =
  match outcome (analyse (snapshot f)) with
  | Ok doc =>
      (outcome (finish (snapshot f) doc),
       events (Report.gather f) ++ events (analyse (snapshot f))
         ++ events (finish (snapshot f) doc))
  | Threw e => (Threw e, events (Report.gather f) ++ events (analyse (snapshot f)))
  end.
Proof.
  unfold Report.main. unfold ebind at 1. pose proof (gather_outcome f) as G.
  unfold outcome in G. rewrite G.
  unfold ebind, outcome, events.
  destruct (analyse (snapshot f)) as [[doc | e] t]; cbn [fst snd].
  - destruct (finish (snapshot f) doc) as [r t']. cbn [fst snd].
    rewrite app_assoc. reflexivity.
  - reflexivity.
Qed.
Lemma omap_api_calls {B} (sel : Report.event -> option B) (ps : list Report.create_params) :
  (forall p, sel (Report.ApiCall p) = None) -> omap sel (map Report.ApiCall ps) = [].
Proof.
  intros H. induction ps as [| p ps IH]; [reflexivity|].
  cbn. rewrite H. exact IH.
Qed.

Lemma omap_api_call_of (ps : list Report.create_params) :
  omap Report.api_call_of (map Report.ApiCall ps) = ps.
Proof. induction ps as [| p ps IH]; [reflexivity|]. cbn. f_equal. exact IH. Qed.

Lemma on_failure_syntax (data : value) (rawResponse : option string) (err : js_error) :
  err_kind err = SyntaxErrorK ->
  let P2 := request_of (retry_conversation (prompt_of data) (default "" rawResponse)) in
  on_failure data rawResponse err = (retry_result (create P2), [Report.ApiCall P2]).
Proof.
  intros K. unfold Report.on_failure. rewrite K. cbv zeta.
  unfold Report.messages_create, ebind, lift, retry_outcome, request_of, retry_conversation,
    first_conversation.
  cbn [fst snd app].
  destruct (create _) as [m | e]; [|reflexivity].
  unfold Report.first_text.
  destruct (Report.content_text m) as [| [text |] rest]; cbn; try reflexivity.
Qed.

Lemma on_failure_other (data : value) (rawResponse : option string) (err : js_error) :
  err_kind err <> SyntaxErrorK -> on_failure data rawResponse err = (Threw err, []).
Proof.
  intros K. unfold Report.on_failure. destruct (err_kind err); try reflexivity.
  contradiction.
Qed.

Lemma analyse_rejected (data : value) (e : js_error) :
  create (request_of (first_conversation (prompt_of data))) = Threw e ->
  err_kind e <> SyntaxErrorK ->
  analyse data = (Threw e, [Report.ApiCall (request_of (first_conversation (prompt_of data)))]).
Proof.
  intros C K. unfold Report.analyse, Report.try_step, Report.messages_create.
  cbn [fst snd]. fold (first_conversation (prompt_of data)).
  fold (request_of (first_conversation (prompt_of data))).
  rewrite C. rewrite (on_failure_other _ _ _ K). reflexivity.
Qed.

Lemma analyse_parsed (data : value) (m : Report.api_message) (raw : string)
    (rest : list (option string)) (doc : value) :
  create (request_of (first_conversation (prompt_of data))) = Ok m ->
  Report.content_text m = Some raw :: rest ->
  JSON_parse (trim (strip_fences raw)) = Some doc ->
  analyse data = (Ok doc, [Report.ApiCall (request_of (first_conversation (prompt_of data)))]).
Proof.
  intros C T P. unfold Report.analyse, Report.try_step, Report.messages_create.
  cbn [fst snd]. fold (first_conversation (prompt_of data)).
  fold (request_of (first_conversation (prompt_of data))).
  rewrite C. unfold Report.first_text. rewrite T. cbn.
  unfold Report.parse. rewrite P. reflexivity.
Qed.

Lemma analyse_retried (data : value) (m : Report.api_message) (raw : string)
    (rest : list (option string)) :
  create (request_of (first_conversation (prompt_of data))) = Ok m ->
  Report.content_text m = Some raw :: rest ->
  JSON_parse (trim (strip_fences raw)) = None ->
  let P1 := request_of (first_conversation (prompt_of data)) in
  let P2 := request_of (retry_conversation (prompt_of data) raw) in
  analyse data = (retry_result (create P2), [Report.ApiCall P1; Report.ApiCall P2]).
Proof.
  intros C T P. cbv zeta. unfold Report.analyse, Report.try_step, Report.messages_create.
  cbn [fst snd]. fold (first_conversation (prompt_of data)).
  fold (request_of (first_conversation (prompt_of data))).
  rewrite C. unfold Report.first_text. rewrite T. cbn.
  unfold Report.parse at 1. rewrite P. cbn.
  rewrite on_failure_syntax by reflexivity. reflexivity.
Qed.

(** Whatever happens, step 2 calls the generator once or twice, and does
    nothing else to the outside. *)
Lemma analyse_trace (data : value) :
  exists ps : list Report.create_params,
    events (analyse data) = map Report.ApiCall ps
    /\ (ps = [request_of (first_conversation (prompt_of data))]
        \/ exists raw, ps = [request_of (first_conversation (prompt_of data));
                             request_of (retry_conversation (prompt_of data) raw)]).
Proof.
  assert (forall raw err,
            events (on_failure data raw err) = []
            \/ events (on_failure data raw err) =
               [Report.ApiCall (request_of (retry_conversation (prompt_of data)
                                              (default "" raw)))]) as F.
  { intros raw err. destruct (err_kind err) eqn:K.
    - left. rewrite on_failure_other by congruence. reflexivity.
    - left. rewrite on_failure_other by congruence. reflexivity.
    - right. rewrite on_failure_syntax by exact K. reflexivity. }
  unfold Report.analyse, Report.try_step, Report.messages_create.
  cbn [fst snd]. fold (first_conversation (prompt_of data)).
  fold (request_of (first_conversation (prompt_of data))).
  set (P1 := request_of (first_conversation (prompt_of data))).
  assert (forall raw err,
            exists ps, events (let (r, t) := on_failure data raw err in
                               (r, [Report.ApiCall P1] ++ t)) = map Report.ApiCall ps
                       /\ (ps = [P1] \/ exists raw', ps = [P1; request_of
                             (retry_conversation (prompt_of data) raw')])) as G.
  { intros raw err. destruct (F raw err) as [E | E];
      destruct (on_failure data raw err) as [r t]; unfold events in *; cbn [snd] in *;
      subst t.
    - exists [P1]. split; [reflexivity | left; reflexivity].
    - eexists [P1; _]. split; [reflexivity | right; eexists; reflexivity]. }
  destruct (create P1) as [m | e]; [|apply G].
  unfold Report.first_text.
  destruct (Report.content_text m) as [| [raw |] rest]; cbn [lift fst snd].
  - destruct (G None TypeError_) as [ps [E H]]. exists ps. split; [|exact H].
    destruct (on_failure data None TypeError_) as [r t]. exact E.
  - cbn. destruct (Report.parse JSON_parse syntax_error_message (trim (strip_fences raw)))
      as [doc | err]; cbn.
    + exists [P1]. split; [reflexivity | left; reflexivity].
    + destruct (G (Some raw) err) as [ps [E H]]. exists ps. split; [|exact H].
      destruct (on_failure data (Some raw) err) as [r t]. exact E.
  - cbn. destruct (G None TypeError_) as [ps [E H]]. exists ps. split; [|exact H].
    destruct (on_failure data None TypeError_) as [r t]. exact E.
Qed.

Lemma enrich_object (data : value) (fields : list (string * value)) :
  enrich data (VObject fields) =
  Ok (VObject
        (set_field
           (set_field
              (set_field fields "weekOf"
                 (if value_truthy (get_field fields "weekOf")
                  then get_field fields "weekOf"
                  else VString (Report.before_T clock_weekOf)))
              "generatedAt" (VString clock_generatedAt))
           "rawData" data)).
Proof. reflexivity. Qed.

Lemma enrich_takes (data doc : value) :
  takes_properties doc = true -> exists enriched, enrich data doc = Ok enriched.
Proof.
  destruct doc; try discriminate; intros _; eexists; reflexivity.
Qed.

Lemma enrich_refuses (data doc : value) :
  takes_properties doc = false -> enrich data doc = Threw TypeError_.
Proof. destruct doc; try discriminate; reflexivity. Qed.

Lemma persist_cases (v : value) :
  omap Report.api_call_of (events (persist v)) = []
  /\ ((Report.files_written (persist v) = [] /\ exists e, outcome (persist v) = Threw e)
      \/ (Report.files_written (persist v) = [(Report.OUTPUT_PATH, JSON_stringify v)]
          /\ outcome (persist v) = Ok tt)).
Proof.
  unfold Report.persist, Report.files_written, outcome, events, ebind, emit, throw, resolve.
  destruct (existsSync Report.OUTPUT_DIR); cbn [negb fst snd];
    [| destruct (mkdirSync Report.OUTPUT_DIR) as [[] | e0]; cbn [fst snd] ];
    try (destruct (writeFileSync Report.OUTPUT_PATH (JSON_stringify v)) as [[] | e1]);
    cbn; split; try reflexivity; eauto.
Qed.

Lemma persist_ok (v : value) :
  fs_ok existsSync mkdirSync writeFileSync ->
  outcome (persist v) = Ok tt
  /\ Report.files_written (persist v) = [(Report.OUTPUT_PATH, JSON_stringify v)].
Proof.
  intros [D Wr].
  unfold Report.persist, Report.files_written, outcome, events, ebind, emit, throw, resolve.
  rewrite Wr.
  destruct (existsSync Report.OUTPUT_DIR); cbn [negb fst snd].
  - cbn. split; reflexivity.
  - destruct D as [D | D]; [discriminate D|]. rewrite D. cbn. split; reflexivity.
Qed.

Lemma finish_enriched (data doc enriched : value) :
  enrich data doc = Ok enriched ->
  outcome (finish data doc) = outcome (persist enriched)
  /\ events (finish data doc) = events (persist enriched).
Proof.
  intros E. unfold Report.finish, ebind, lift, outcome, events. rewrite E. cbn [fst snd].
  destruct (persist enriched). split; reflexivity.
Qed.

Lemma finish_refused (data doc : value) (e : js_error) :
  enrich data doc = Threw e -> finish data doc = (Threw e, []).
Proof. intros E. unfold Report.finish, ebind, lift. rewrite E. reflexivity. Qed.

Lemma finish_api_calls (data doc : value) :
  omap Report.api_call_of (events (finish data doc)) = [].
Proof.
  destruct (enrich data doc) as [enriched | e] eqn:E.
  - destruct (finish_enriched _ _ _ E) as [_ ->]. apply persist_cases.
  - rewrite (finish_refused _ _ _ E). reflexivity.
Qed.

Lemma main_outcome (f : Report.fetchers) :
  outcome (main f) =
  match outcome (analyse (snapshot f)) with
  | Ok doc => outcome (finish (snapshot f) doc)
  | Threw e => Threw e
  end.
Proof. rewrite main_shape. destruct (outcome (analyse (snapshot f))); reflexivity. Qed.

Lemma main_api_calls (f : Report.fetchers) (ps : list Report.create_params) :
  events (analyse (snapshot f)) = map Report.ApiCall ps ->
  Report.api_calls (main f) = ps.
Proof.
  intros E. unfold Report.api_calls. rewrite main_shape.
  destruct (gather_events f) as [rqs G].
  destruct (outcome (analyse (snapshot f))) as [doc | e]; unfold events at 1; cbn [snd];
    rewrite !omap_app, G, E, omap_api_call_of, omap_vendor by reflexivity.
  - rewrite finish_api_calls, app_nil_r. reflexivity.
  - reflexivity.
Qed.

Lemma main_files (f : Report.fetchers) :
  Report.files_written (main f) =
  match outcome (analyse (snapshot f)) with
  | Ok doc => Report.files_written (finish (snapshot f) doc)
  | Threw _ => []
  end.
Proof.
  unfold Report.files_written. rewrite main_shape.
  destruct (gather_events f) as [rqs G].
  destruct (analyse_trace (snapshot f)) as [ps [E _]].
  destruct (outcome (analyse (snapshot f))) as [doc | e]; unfold events at 1; cbn [snd];
    rewrite !omap_app, G, E, omap_api_calls, omap_vendor by reflexivity; reflexivity.
Qed.

(** C1.  Whatever subset of the seven fetchers fails, step 1 produces the
    combined snapshot: an object with exactly the keys [ga4], [gsc],
    [youtube], [kit], [meta], [unbounce], [vimeo], each holding the
    fetcher's value when it fulfilled and [{ error: message }] when it
    rejected; and the run goes on to ask the generator for the report, with
    the prompt built from this snapshot. *)
Theorem snapshot_keys (f : Report.fetchers) :
  exists fields : list (string * value),
    outcome (Report.gather f) = Ok (VObject fields)
    /\ map fst fields = ["ga4"; "gsc"; "youtube"; "kit"; "meta"; "unbounce"; "vimeo"]
    /\ length fields = 7%nat
    /\ slot_holds fields "ga4" (outcome (Report.fetchGA4Data f))
    /\ slot_holds fields "gsc" (outcome (Report.fetchGSCData f))
    /\ slot_holds fields "youtube" (outcome (Report.fetchYouTubeData f))
    /\ slot_holds fields "kit" (outcome (Report.fetchKitData f))
    /\ slot_holds fields "meta" (outcome (Report.fetchMetaData f))
    /\ slot_holds fields "unbounce" (outcome (Report.fetchUnbounceData f))
    /\ slot_holds fields "vimeo" (outcome (Report.fetchVimeoData f))
    /\ exists rest,
         Report.api_calls (main f) =
         request_of (first_conversation (prompt_of (VObject fields))) :: rest.
Proof.
  eexists. split; [apply gather_outcome|].
  split; [reflexivity|]. split; [reflexivity|].
  repeat (split; [unfold slot_holds; destruct (outcome _); reflexivity|]).
  destruct (analyse_trace (snapshot f)) as [ps [E H]].
  rewrite (main_api_calls f ps E).
  destruct H as [-> | [raw ->]]; eexists; reflexivity.
Qed.

Lemma main_after_retry (f : Report.fetchers) (m : Report.api_message) (raw : string)
    (rest : list (option string)) :
  create (request_of (first_conversation (prompt_of (snapshot f)))) = Ok m ->
  Report.content_text m = Some raw :: rest ->
  JSON_parse (trim (strip_fences raw)) = None ->
  outcome (analyse (snapshot f)) =
    retry_result (create (request_of (retry_conversation (prompt_of (snapshot f)) raw)))
  /\ Report.api_calls (main f) =
     [request_of (first_conversation (prompt_of (snapshot f)));
      request_of (retry_conversation (prompt_of (snapshot f)) raw)].
Proof.
  intros C T P. pose proof (analyse_retried _ _ _ _ C T P) as A. cbv zeta in A.
  split.
  - rewrite A. reflexivity.
  - apply main_api_calls. rewrite A. reflexivity.
Qed.

Lemma exit_code_of (run : Eff Report.event unit) :
  Report.exit_code run = match outcome run with Ok _ => 0 | Threw _ => 1 end.
Proof. reflexivity. Qed.


(** C8, amended.  A file the run writes is the output file, and it holds
    the generator's parsed document as step 3 left it.  When that document
    is a JSON object, the written object has [generatedAt] set to the time
    read when it is stamped, [weekOf] equal to the document's own [weekOf]
    when that is truthy (a non-empty string) and otherwise to the date part
    of the current time, [rawData] equal to the combined snapshot, and every
    other property as the document had it.  When the document is an array,
    the array is written as it is.  The date part of an ISO time
    [date "T" time] is [date]. *)
Theorem artifact_fields (f : Report.fetchers) :
  (forall path content,
      In (path, content) (Report.files_written (main f)) ->
      path = Report.OUTPUT_PATH
      /\ exists doc enriched,
           outcome (analyse (snapshot f)) = Ok doc
           /\ enrich (snapshot f) doc = Ok enriched
           /\ content = JSON_stringify enriched
           /\ (forall fields, doc = VObject fields ->
               exists fields',
                 enriched = VObject fields'
                 /\ get_field fields' "generatedAt" = VString clock_generatedAt
                 /\ get_field fields' "weekOf" =
                    (if value_truthy (get_field fields "weekOf")
                     then get_field fields "weekOf"
                     else VString (Report.before_T clock_weekOf))
                 /\ get_field fields' "rawData" = snapshot f
                 /\ (forall k, k <> "weekOf" -> k <> "generatedAt" -> k <> "rawData" ->
                     get_field fields' k = get_field fields k))
           /\ (forall xs, doc = VArray xs -> enriched = VArray xs))
  /\ (forall date time,
        (forall c, In c (String.list_ascii_of_string date) -> c <> "T"%char) ->
        clock_weekOf = date +:+ "T" +:+ time ->
        Report.before_T clock_weekOf = date).
Proof.
  split.
  - intros path content Hin. rewrite main_files in Hin.
    destruct (outcome (analyse (snapshot f))) as [doc | e] eqn:O; [|destruct Hin].
    destruct (enrich (snapshot f) doc) as [enriched | e] eqn:En.
    + destruct (finish_enriched _ _ _ En) as [_ Ef].
      unfold Report.files_written in Hin. rewrite Ef in Hin.
      destruct (persist_cases enriched) as [_ [[Pf _] | [Pf _]]];
        unfold Report.files_written in Pf; rewrite Pf in Hin; [destruct Hin|].
      destruct Hin as [Hin | []]. injection Hin as <- <-.
      split; [reflexivity|]. exists doc, enriched.
      split; [reflexivity|]. split; [exact En|]. split; [reflexivity|]. split.
      * intros fields ->. rewrite enrich_object in En. injection En as <-.
        eexists. split; [reflexivity|].
        split; [|split; [|split]].
        -- rewrite get_set_other by discriminate. apply get_set_same.
        -- rewrite !get_set_other by discriminate. apply get_set_same.
        -- apply get_set_same.
        -- intros k K1 K2 K3. rewrite !get_set_other by congruence. reflexivity.
      * intros xs ->. cbn in En. injection En as <-. reflexivity.
    + rewrite (finish_refused _ _ _ En) in Hin. destruct Hin.
  - intros date time H ->. apply before_T_date, H.
Qed.

End ReportFacts.

(** ** Credentials *)

Lemma require_env_missing (env : gmap string string) (name msg : string) :
  missing env name -> require_env env name msg = Threw (new_Error msg).
Proof.
  unfold missing, require_env, str_truthy. destruct (getenv env name) as [x |].
  - destruct (String.eqb x ""); [reflexivity | discriminate].
  - reflexivity.
Qed.

Lemma require_env_present (env : gmap string string) (name msg : string) :
  ~ missing env name -> exists x, require_env env name msg = Ok x.
Proof.
  unfold missing, require_env, str_truthy. destruct (getenv env name) as [x |].
  - destruct (String.eqb x ""); [intros H; destruct H; reflexivity | eauto].
  - intros H; destruct H; reflexivity.
Qed.

Lemma ebind_throw {E A B} (e : js_error) (k : A -> Eff E B) :
  ebind (Threw e, []) k = (Threw e, []).
Proof. reflexivity. Qed.

Lemma ebind_events_prefix {E A B} (m : Eff E A) (k : A -> Eff E B) :
  exists rest, events (ebind m k) = events m ++ rest.
Proof.
  rewrite ebind_events. destruct (outcome m); [eauto | exists []; rewrite app_nil_r; reflexivity].
Qed.

Lemma ga4_credentials {credentials report data : Type}
    (JSON_parse : string -> result credentials) (daysAgo : Z -> string)
    (env : gmap string string) (runReport : credentials -> request -> result report)
    (build : report -> report -> report -> report -> result data) :
  (missing env "GA4_PROPERTY_ID" ->
   rejects_naming (Ga4.fetchGA4Data JSON_parse daysAgo env runReport build) "GA4_PROPERTY_ID")
  /\ (~ missing env "GA4_PROPERTY_ID" -> missing env "GOOGLE_SERVICE_ACCOUNT" ->
      rejects_naming (Ga4.fetchGA4Data JSON_parse daysAgo env runReport build)
        "GOOGLE_SERVICE_ACCOUNT").
Proof.
  unfold rejects_naming, Ga4.fetchGA4Data, Ga4.getGoogleAuth, lift. split.
  - intros M. rewrite (require_env_missing _ _ _ M). reflexivity.
  - intros P M. destruct (require_env_present _ _ "GA4_PROPERTY_ID env var is missing" P)
      as [x ->].
    rewrite (require_env_missing _ _ _ M). reflexivity.
Qed.

Lemma gsc_credentials {credentials rows data : Type}
    (JSON_parse : string -> result credentials) (daysAgo : Z -> string)
    (env : gmap string string) (query : credentials -> request -> result rows)
    (build : rows -> rows -> rows -> rows -> result data) :
  (missing env "GSC_SITE_URL" ->
   rejects_naming (Gsc.fetchGSCData JSON_parse daysAgo env query build) "GSC_SITE_URL")
  /\ (~ missing env "GSC_SITE_URL" -> missing env "GOOGLE_SERVICE_ACCOUNT" ->
      rejects_naming (Gsc.fetchGSCData JSON_parse daysAgo env query build)
        "GOOGLE_SERVICE_ACCOUNT").
Proof.
  unfold rejects_naming, Gsc.fetchGSCData, Gsc.getGoogleAuth, lift. split.
  - intros M. rewrite (require_env_missing _ _ _ M). reflexivity.
  - intros P M. destruct (require_env_present _ _ "GSC_SITE_URL env var is missing" P)
      as [x ->].
    rewrite (require_env_missing _ _ _ M). reflexivity.
Qed.

Lemma youtube_credentials
    {credentials channels report details channel_stats metrics data : Type}
    (JSON_parse : string -> result credentials) (daysAgo : Z -> string)
    (env : gmap string string)
    (channels_list : credentials -> request -> result channels)
    (reports_query : credentials -> request -> result report)
    (videos_list : credentials -> request -> result details)
    (channel_id : channels -> option string) (video_ids : report -> list string)
    (parseChannel : channels -> result channel_stats)
    (parseChannelMetrics : report -> result metrics)
    (build : channel_stats -> metrics -> metrics -> report -> option details -> report
             -> result data) :
  missing env "GOOGLE_SERVICE_ACCOUNT" ->
  rejects_naming
    (Youtube.fetchYouTubeData JSON_parse daysAgo env channels_list reports_query videos_list
       channel_id video_ids parseChannel parseChannelMetrics build) "GOOGLE_SERVICE_ACCOUNT".
Proof.
  unfold rejects_naming, Youtube.fetchYouTubeData, Youtube.getGoogleAuth, lift.
  intros M. rewrite (require_env_missing _ _ _ M). reflexivity.
Qed.

Lemma kit_credentials (env : gmap string string)
    (broadcasts_api : endpoint Kit.broadcasts_res) (stats_api : endpoint Kit.stats_res)
    (subscribers_api : endpoint Kit.count_res) (isoDate now : string) :
  missing env "KIT_API_SECRET" ->
  rejects_naming (Kit.fetchKitData env broadcasts_api stats_api subscribers_api isoDate now)
    "KIT_API_SECRET".
Proof.
  unfold rejects_naming, Kit.fetchKitData, Kit.kitGet, Kit.headers, lift.
  intros M. rewrite (require_env_missing _ _ _ M). reflexivity.
Qed.

Lemma meta_credentials (parseFloat parseInt : string -> number) (daysAgo : Z -> string)
    (now : string) (env : gmap string string) (graph_api : endpoint Meta.payload) :
  (missing env "META_AD_ACCOUNT_ID" ->
   rejects_naming (Meta.fetchMetaData parseFloat parseInt daysAgo now env graph_api)
     "META_AD_ACCOUNT_ID")
  /\ (~ missing env "META_AD_ACCOUNT_ID" -> missing env "META_ACCESS_TOKEN" ->
      rejects_naming (Meta.fetchMetaData parseFloat parseInt daysAgo now env graph_api)
        "META_ACCESS_TOKEN").
Proof.
  unfold rejects_naming, Meta.fetchMetaData, Meta.metaGet, Meta.AD_ACCOUNT,
    Meta.ACCESS_TOKEN, lift. split.
  - intros M. rewrite (require_env_missing _ _ _ M). reflexivity.
  - intros P M. destruct (require_env_present _ _ "META_AD_ACCOUNT_ID env var is missing" P)
      as [x ->].
    rewrite (require_env_missing _ _ _ M). reflexivity.
Qed.

Lemma vimeo_credentials {engagement_res engagement_t : Type}
    (parseEngagement : engagement_res -> jsval -> result (option engagement_t))
    (env : gmap string string) (videos_api : endpoint Vimeo.videos_res)
    (analytics_api : endpoint Vimeo.analytics_res) (engagement_api : endpoint engagement_res)
    (daysAgo : Z -> string) (now fetched : string) :
  missing env "VIMEO_ACCESS_TOKEN" ->
  rejects_naming
    (Vimeo.fetchVimeoData parseEngagement env videos_api analytics_api engagement_api
       daysAgo now fetched) "VIMEO_ACCESS_TOKEN".
Proof.
  unfold rejects_naming, Vimeo.fetchVimeoData, Vimeo.vimeoGet, Vimeo.headers, lift.
  intros M. rewrite (require_env_missing _ _ _ M). reflexivity.
Qed.

Lemma unbounce_credentials (env : gmap string string)
    (oauth_api : endpoint Unbounce.token_res) (accounts_api : endpoint Unbounce.accounts_res)
    (pages_api : endpoint Unbounce.pages_res) (stats_api : endpoint Unbounce.stats_res)
    (daysAgo : Z -> string) (now : string) :
  (missing env "UNBOUNCE_ACCESS_TOKEN" -> can_refresh env = false ->
   rejects_naming
     (Unbounce.fetchUnbounceData env oauth_api accounts_api pages_api stats_api daysAgo now)
     "UNBOUNCE_ACCESS_TOKEN")
  /\ (can_refresh env = true ->
      exists rest,
        events (Unbounce.fetchUnbounceData env oauth_api accounts_api pages_api stats_api
                  daysAgo now) = refresh_request env :: rest).
Proof.
  unfold rejects_naming, Unbounce.fetchUnbounceData, Unbounce.getAccessToken, can_refresh.
  split.
  - intros M R. rewrite R. unfold missing, str_truthy in M.
    destruct (getenv env "UNBOUNCE_ACCESS_TOKEN") as [t |]; [|reflexivity].
    unfold ebind at 2. unfold resolve at 1. cbn [fst snd app].
    destruct (String.eqb t ""); [reflexivity | discriminate M].
  - intros R. rewrite R.
    match goal with
    | |- context [ebind (ebind (ebind ?m ?k1) ?k2) ?k3] =>
        destruct (ebind_events_prefix (ebind (ebind m k1) k2) k3) as [r3 E3];
        destruct (ebind_events_prefix (ebind m k1) k2) as [r2 E2];
        destruct (ebind_events_prefix m k1) as [r1 E1]
    end.
    rewrite E3, E2, E1. eexists. reflexivity.
Qed.

(** C6, as stated, fails for Unbounce: with [UNBOUNCE_ACCESS_TOKEN] unset
    and the three refresh credentials set, the fetcher first calls the
    token endpoint; when that call is refused it rejects naming
    [UNBOUNCE_ACCESS_TOKEN], after a vendor call has been issued. *)
Lemma unbounce_calls_before_rejecting :
  missing refresh_only_env "UNBOUNCE_ACCESS_TOKEN"
  /\ outcome (Unbounce.fetchUnbounceData refresh_only_env refused refused refused refused
                sample_daysAgo "2026-11-02T06:00:00.000Z")
     = Threw (new_Error "UNBOUNCE_ACCESS_TOKEN env var is missing")
  /\ events (Unbounce.fetchUnbounceData refresh_only_env refused refused refused refused
               sample_daysAgo "2026-11-02T06:00:00.000Z")
     = [refresh_request refresh_only_env]
  /\ ~ rejects_naming
         (Unbounce.fetchUnbounceData refresh_only_env refused refused refused refused
            sample_daysAgo "2026-11-02T06:00:00.000Z")
         "UNBOUNCE_ACCESS_TOKEN".
Proof.
  assert (Unbounce.fetchUnbounceData refresh_only_env refused refused refused refused
            sample_daysAgo "2026-11-02T06:00:00.000Z"
          = (Threw (new_Error "UNBOUNCE_ACCESS_TOKEN env var is missing"),
             [refresh_request refresh_only_env])) as E by (vm_compute; reflexivity).
  split; [reflexivity|]. rewrite E. split; [reflexivity|]. split; [reflexivity|].
  unfold rejects_naming. intros H. discriminate H.
Qed.

(** C6, amended.  GA4, GSC, YouTube, Kit, Meta and Vimeo: when a
    credential variable the fetcher reads is unset or empty, the fetch
    function rejects with [NAME env var is missing] for a missing variable,
    before any vendor call.  Unbounce does so for [UNBOUNCE_ACCESS_TOKEN]
    when the three refresh credentials are not all set; when they are, its
    first action is the token refresh call.  In the report script every
    fetcher runs, the snapshot is always built, each slot depends on its own
    fetcher only, and a rejection with message [msg] fills the slot with
    [{ error: msg }]. *)
Theorem credentials_checked (env : gmap string string) :
  (forall (credentials report data : Type) (JSON_parse : string -> result credentials)
          daysAgo (runReport : credentials -> request -> result report)
          (build : report -> report -> report -> report -> result data),
      (missing env "GA4_PROPERTY_ID" ->
       rejects_naming (Ga4.fetchGA4Data JSON_parse daysAgo env runReport build)
         "GA4_PROPERTY_ID")
      /\ (~ missing env "GA4_PROPERTY_ID" -> missing env "GOOGLE_SERVICE_ACCOUNT" ->
          rejects_naming (Ga4.fetchGA4Data JSON_parse daysAgo env runReport build)
            "GOOGLE_SERVICE_ACCOUNT"))
  /\ (forall (credentials rows data : Type) (JSON_parse : string -> result credentials)
             daysAgo (query : credentials -> request -> result rows)
             (build : rows -> rows -> rows -> rows -> result data),
      (missing env "GSC_SITE_URL" ->
       rejects_naming (Gsc.fetchGSCData JSON_parse daysAgo env query build) "GSC_SITE_URL")
      /\ (~ missing env "GSC_SITE_URL" -> missing env "GOOGLE_SERVICE_ACCOUNT" ->
          rejects_naming (Gsc.fetchGSCData JSON_parse daysAgo env query build)
            "GOOGLE_SERVICE_ACCOUNT"))
  /\ (forall (credentials channels report details channel_stats metrics data : Type)
             (JSON_parse : string -> result credentials) daysAgo
             (channels_list : credentials -> request -> result channels)
             (reports_query : credentials -> request -> result report)
             (videos_list : credentials -> request -> result details)
             channel_id video_ids
             (parseChannel : channels -> result channel_stats)
             (parseChannelMetrics : report -> result metrics)
             (build : channel_stats -> metrics -> metrics -> report -> option details
                      -> report -> result data),
      missing env "GOOGLE_SERVICE_ACCOUNT" ->
      rejects_naming
        (Youtube.fetchYouTubeData JSON_parse daysAgo env channels_list reports_query
           videos_list channel_id video_ids parseChannel parseChannelMetrics build)
        "GOOGLE_SERVICE_ACCOUNT")
  /\ (forall broadcasts_api stats_api subscribers_api isoDate now,
      missing env "KIT_API_SECRET" ->
      rejects_naming
        (Kit.fetchKitData env broadcasts_api stats_api subscribers_api isoDate now)
        "KIT_API_SECRET")
  /\ (forall parseFloat parseInt daysAgo now graph_api,
      (missing env "META_AD_ACCOUNT_ID" ->
       rejects_naming (Meta.fetchMetaData parseFloat parseInt daysAgo now env graph_api)
         "META_AD_ACCOUNT_ID")
      /\ (~ missing env "META_AD_ACCOUNT_ID" -> missing env "META_ACCESS_TOKEN" ->
          rejects_naming (Meta.fetchMetaData parseFloat parseInt daysAgo now env graph_api)
            "META_ACCESS_TOKEN"))
  /\ (forall (engagement_res engagement_t : Type)
             (parseEngagement : engagement_res -> jsval -> result (option engagement_t))
             videos_api analytics_api engagement_api daysAgo now fetched,
      missing env "VIMEO_ACCESS_TOKEN" ->
      rejects_naming
        (Vimeo.fetchVimeoData parseEngagement env videos_api analytics_api engagement_api
           daysAgo now fetched) "VIMEO_ACCESS_TOKEN")
  /\ (forall oauth_api accounts_api pages_api stats_api daysAgo now,
      (missing env "UNBOUNCE_ACCESS_TOKEN" -> can_refresh env = false ->
       rejects_naming
         (Unbounce.fetchUnbounceData env oauth_api accounts_api pages_api stats_api
            daysAgo now) "UNBOUNCE_ACCESS_TOKEN")
      /\ (can_refresh env = true ->
          exists rest,
            events (Unbounce.fetchUnbounceData env oauth_api accounts_api pages_api
                      stats_api daysAgo now) = refresh_request env :: rest))
  /\ (forall f : Report.fetchers,
      outcome (Report.gather f) = Ok (snapshot f)
      /\ events (Report.gather f) =
         map Report.Vendor
           (events (Report.fetchGA4Data f) ++ events (Report.fetchGSCData f) ++
            events (Report.fetchYouTubeData f) ++ events (Report.fetchKitData f) ++
            events (Report.fetchMetaData f) ++ events (Report.fetchUnbounceData f) ++
            events (Report.fetchVimeoData f))
      /\ snapshot f =
         VObject [("ga4", Report.slot (outcome (Report.fetchGA4Data f)));
                  ("gsc", Report.slot (outcome (Report.fetchGSCData f)));
                  ("youtube", Report.slot (outcome (Report.fetchYouTubeData f)));
                  ("kit", Report.slot (outcome (Report.fetchKitData f)));
                  ("meta", Report.slot (outcome (Report.fetchMetaData f)));
                  ("unbounce", Report.slot (outcome (Report.fetchUnbounceData f)));
                  ("vimeo", Report.slot (outcome (Report.fetchVimeoData f)))])
  /\ (forall msg : string,
      Report.slot (Threw (new_Error msg)) = VObject [("error", VString msg)]).
Proof.
  split; [intros; apply ga4_credentials|].
  split; [intros; apply gsc_credentials|].
  split; [intros; apply youtube_credentials; assumption|].
  split; [intros; apply kit_credentials; assumption|].
  split; [intros; apply meta_credentials|].
  split; [intros; apply vimeo_credentials; assumption|].
  split; [intros; apply unbounce_credentials|].
  split; [|reflexivity].
  intros f. split; [reflexivity|]. split; [|reflexivity].
  unfold Report.gather, events, ebind, Report.Promise_allSettled, Report.vendor_events.
  cbn. rewrite !map_app, !app_nil_r. reflexivity.
Qed.

Lemma credentials_checked_witness :
  rejects_naming
    (Kit.fetchKitData empty_env refused refused refused "2026-10-26" "2026-11-02T06:00:00.000Z")
    "KIT_API_SECRET".
Proof.
  apply (proj1 (proj2 (proj2 (proj2 (credentials_checked empty_env))))).
  reflexivity.
Defined.

(** ** Per-item failures *)

Lemma rejection_ebind {E A B} (m : Eff E A) (k : A -> Eff E B) :
  rejection (ebind m k) =
  match outcome m with
  | Ok a => rejection (k a)
  | Threw e => Some e
  end.
Proof.
  unfold rejection. rewrite ebind_outcome. destruct (outcome m); reflexivity.
Qed.

Lemma kit_with_stats_outcome (env : gmap string string) (stats_api : endpoint Kit.stats_res)
    (b : Kit.broadcast) :
  outcome (Kit.with_stats env stats_api b) =
  Ok (match outcome (kit_stats_request env stats_api b) with
      | Ok statsRes => Kit.stats_item b statsRes
      | Threw _ => Kit.pending_item b
      end).
Proof.
  unfold Kit.with_stats. rewrite try_catch_resolve, ebind_outcome.
  unfold kit_stats_request. destruct (outcome (Kit.kitGet env stats_api _)); reflexivity.
Qed.

Lemma kit_rejection (env : gmap string string) (broadcasts_api : endpoint Kit.broadcasts_res)
    (stats_api stats_api' : endpoint Kit.stats_res) (subscribers_api : endpoint Kit.count_res)
    (isoDate now : string) :
  rejection (Kit.fetchKitData env broadcasts_api stats_api subscribers_api isoDate now)
  = rejection (Kit.fetchKitData env broadcasts_api stats_api' subscribers_api isoDate now).
Proof.
  unfold Kit.fetchKitData. rewrite !rejection_ebind.
  destruct (outcome (Kit.kitGet env broadcasts_api _)) as [broadcastsRes |]; [|reflexivity].
  rewrite !rejection_ebind.
  rewrite (Promise_all_total _ _ _ (kit_with_stats_outcome env stats_api)).
  rewrite (Promise_all_total _ _ _ (kit_with_stats_outcome env stats_api')).
  rewrite !rejection_ebind.
  destruct (outcome (Promise_all2 _ _)) as [[activeRes totalRes] |]; [|reflexivity].
  rewrite !rejection_ebind.
  destruct (outcome (Kit.kitGet env subscribers_api _)); reflexivity.
Qed.

Lemma kit_returned_items (env : gmap string string)
    (broadcasts_api : endpoint Kit.broadcasts_res) (stats_api : endpoint Kit.stats_res)
    (subscribers_api : endpoint Kit.count_res) (isoDate now : string) (d : Kit.kit_data) :
  outcome (Kit.fetchKitData env broadcasts_api stats_api subscribers_api isoDate now) = Ok d ->
  exists broadcasts : list Kit.broadcast,
    Kit.recentBroadcasts d = slice0 4 (Kit.allBroadcasts d)
    /\ forall it,
         In it (Kit.allBroadcasts d) <->
         exists b statsRes,
           In b (slice0 8 broadcasts)
           /\ outcome (kit_stats_request env stats_api b) = Ok statsRes
           /\ it = Kit.stats_item b statsRes.
Proof.
  unfold Kit.fetchKitData. intros H.
  apply ebind_ok in H. destruct H as [broadcastsRes [_ H]].
  apply ebind_ok in H. destruct H as [items [I H]].
  rewrite (Promise_all_total _ _ _ (kit_with_stats_outcome env stats_api)) in I.
  injection I as <-.
  apply ebind_ok in H. destruct H as [[activeRes totalRes] [_ H]].
  apply ebind_ok in H. destruct H as [newThisWeekRes [_ H]].
  unfold outcome, resolve in H. cbn [fst] in H. injection H as <-.
  exists (default [] (Kit.or_else (Kit.br_broadcasts broadcastsRes)
                                  (Kit.br_data broadcastsRes))).
  split; [reflexivity|]. cbn [Kit.allBroadcasts].
  intros it. rewrite In_filter, in_map_iff. unfold outcome. split.
  - intros [[b [<- Hb]] C]. destruct (fst (kit_stats_request env stats_api b)) eqn:O.
    + exists b, a. split; [exact Hb|]. split; [exact O | reflexivity].
    + discriminate C.
  - intros [b [statsRes [Hb [O ->]]]]. split; [|reflexivity].
    exists b. rewrite O. split; [reflexivity | exact Hb].
Qed.

Lemma sort_insert_perm {A} (cmp : A -> A -> number) (x : A) (l : list A) :
  Permutation (sort_insert cmp x l) (x :: l).
Proof.
  induction l as [| y l IH]; cbn [sort_insert]; [reflexivity|].
  destruct (num_gt (cmp x y) (Fin 0)); [|reflexivity].
  rewrite IH. apply perm_swap.
Qed.

Lemma js_sort_perm {A} (cmp : A -> A -> number) (l : list A) :
  Permutation (js_sort cmp l) l.
Proof.
  unfold js_sort. induction l as [| x l IH]; cbn [foldr]; [reflexivity|].
  rewrite sort_insert_perm. apply perm_skip, IH.
Qed.

Lemma In_js_sort {A} (cmp : A -> A -> number) (x : A) (l : list A) :
  In x (js_sort cmp l) -> In x l.
Proof. apply Permutation_in, js_sort_perm. Qed.

Lemma In_slice0 {A} (n : nat) (x : A) (l : list A) : In x (slice0 n l) -> In x l.
Proof.
  unfold slice0. revert l. induction n as [| n IH]; intros [| y l]; cbn; try tauto.
  intros [H | H]; [left; exact H | right; apply IH, H].
Qed.

Lemma unbounce_page_stats_outcome (stats_api : endpoint Unbounce.stats_res)
    (token : string) (daysAgo : Z -> string) (p : Unbounce.page) :
  outcome (Unbounce.page_stats stats_api token (daysAgo 7) (daysAgo 1) (daysAgo 14)
             (daysAgo 8) p) =
  Ok (match outcome (unbounce_stats_requests stats_api token daysAgo p) with
      | Ok (thisWeekStats, lastWeekStats) =>
          Unbounce.measured_page p thisWeekStats lastWeekStats
      | Threw _ => Unbounce.unavailable_page p
      end).
Proof.
  unfold Unbounce.page_stats. rewrite try_catch_resolve, ebind_outcome.
  unfold unbounce_stats_requests.
  destruct (outcome (Promise_all2 _ _)) as [[tw lw] |]; reflexivity.
Qed.

Lemma unbounce_page_variants_outcome (stats_api : endpoint Unbounce.stats_res)
    (token a b : string) (p : Unbounce.page) :
  exists t, outcome (Unbounce.page_variants stats_api token a b p) = Ok t.
Proof. unfold Unbounce.page_variants. rewrite try_catch_resolve. eauto. Qed.

Lemma Promise_all_resolves {E A B} (f : A -> Eff E B) (xs : list A) :
  (forall x, exists b, outcome (f x) = Ok b) ->
  exists l, outcome (Promise_all (map f xs)) = Ok l.
Proof.
  intros H. induction xs as [| x xs [l IH]]; [exists []; reflexivity|].
  destruct (H x) as [b Hb]. exists (b :: l).
  unfold outcome in *. cbn [map Promise_all fst]. rewrite Hb, IH. reflexivity.
Qed.

Lemma unbounce_rejection (env : gmap string string)
    (oauth_api : endpoint Unbounce.token_res) (accounts_api : endpoint Unbounce.accounts_res)
    (pages_api : endpoint Unbounce.pages_res) (stats_api stats_api' : endpoint Unbounce.stats_res)
    (daysAgo : Z -> string) (now : string) :
  rejection (Unbounce.fetchUnbounceData env oauth_api accounts_api pages_api stats_api
               daysAgo now)
  = rejection (Unbounce.fetchUnbounceData env oauth_api accounts_api pages_api stats_api'
                 daysAgo now).
Proof.
  unfold Unbounce.fetchUnbounceData. rewrite !rejection_ebind.
  destruct (outcome (Unbounce.getAccessToken env oauth_api)) as [token |]; [|reflexivity].
  rewrite !rejection_ebind.
  destruct (outcome (Unbounce.unbounceGet accounts_api _ token)) as [accountsRes |];
    [|reflexivity].
  destruct (default [] (Unbounce.accounts accountsRes)) as [| accountId rest];
    [reflexivity|].
  rewrite !rejection_ebind.
  destruct (outcome (Unbounce.unbounceGet pages_api _ token)) as [pagesRes |]; [|reflexivity].
  rewrite !rejection_ebind.
  rewrite (Promise_all_total _ _ _ (unbounce_page_stats_outcome stats_api token daysAgo)).
  rewrite (Promise_all_total _ _ _ (unbounce_page_stats_outcome stats_api' token daysAgo)).
  rewrite !rejection_ebind.
  destruct (Promise_all_resolves
              (Unbounce.page_variants stats_api token (daysAgo 7) (daysAgo 1))
              (slice0 10 (default [] (Unbounce.pages pagesRes)))
              (unbounce_page_variants_outcome stats_api token _ _)) as [l ->].
  destruct (Promise_all_resolves
              (Unbounce.page_variants stats_api' token (daysAgo 7) (daysAgo 1))
              (slice0 10 (default [] (Unbounce.pages pagesRes)))
              (unbounce_page_variants_outcome stats_api' token _ _)) as [l' ->].
  reflexivity.
Qed.

Lemma unbounce_returned_items (env : gmap string string)
    (oauth_api : endpoint Unbounce.token_res) (accounts_api : endpoint Unbounce.accounts_res)
    (pages_api : endpoint Unbounce.pages_res) (stats_api : endpoint Unbounce.stats_res)
    (daysAgo : Z -> string) (now : string) (d : Unbounce.unbounce_data) :
  outcome (Unbounce.fetchUnbounceData env oauth_api accounts_api pages_api stats_api
             daysAgo now) = Ok d ->
  exists (token : string) (pages : list Unbounce.page),
    forall it,
      In it (Unbounce.topPages d) \/ In it (Unbounce.bestPages d)
      \/ In it (Unbounce.problemPages d) ->
      exists p thisWeekStats lastWeekStats,
        In p pages
        /\ outcome (unbounce_stats_requests stats_api token daysAgo p)
           = Ok (thisWeekStats, lastWeekStats)
        /\ it = Unbounce.measured_page p thisWeekStats lastWeekStats.
Proof.
  unfold Unbounce.fetchUnbounceData. intros H.
  apply ebind_ok in H. destruct H as [token [_ H]].
  apply ebind_ok in H. destruct H as [accountsRes [_ H]].
  destruct (default [] (Unbounce.accounts accountsRes)) as [| accountId rest];
    [discriminate H|].
  apply ebind_ok in H. destruct H as [pagesRes [_ H]].
  apply ebind_ok in H. destruct H as [pageStats [I H]].
  rewrite (Promise_all_total _ _ _ (unbounce_page_stats_outcome stats_api token daysAgo)) in I.
  injection I as <-.
  apply ebind_ok in H. destruct H as [pagesWithVariants [_ H]].
  unfold outcome, resolve in H. cbn [fst] in H. injection H as <-.
  exists token, (default [] (Unbounce.pages pagesRes)).
  cbn [Unbounce.topPages Unbounce.bestPages Unbounce.problemPages].
  assert (forall it,
            In it (List.filter Unbounce.is_published
                     (map (fun p =>
                             match fst (unbounce_stats_requests stats_api token daysAgo p) with
                             | Ok (thisWeekStats, lastWeekStats) =>
                                 Unbounce.measured_page p thisWeekStats lastWeekStats
                             | Threw _ => Unbounce.unavailable_page p
                             end) (default [] (Unbounce.pages pagesRes)))) ->
            exists p thisWeekStats lastWeekStats,
              In p (default [] (Unbounce.pages pagesRes))
              /\ fst (unbounce_stats_requests stats_api token daysAgo p)
                 = Ok (thisWeekStats, lastWeekStats)
              /\ it = Unbounce.measured_page p thisWeekStats lastWeekStats) as Published.
  { intros it. rewrite In_filter, in_map_iff. intros [[p [<- Hp]] C].
    destruct (fst (unbounce_stats_requests stats_api token daysAgo p)) as [[tw lw] |] eqn:O.
    - exists p, tw, lw. split; [exact Hp|]. split; [exact O | reflexivity].
    - unfold Unbounce.is_published in C. cbn in C.
      rewrite andb_false_r in C. discriminate C. }
  intros it [T | [B | P]]; apply Published.
  - apply In_slice0, In_js_sort in T. exact T.
  - apply In_slice0, In_js_sort in B. exact B.
  - apply In_filter in P. apply P.
Qed.

Lemma vimeo_with_stats_outcome {engagement_res engagement_t : Type}
    (parseEngagement : engagement_res -> jsval -> result (option engagement_t))
    (env : gmap string string) (analytics_api : endpoint Vimeo.analytics_res)
    (engagement_api : endpoint engagement_res) (daysAgo : Z -> string) (now : string)
    (v : Vimeo.video) :
  exists eng : option engagement_t,
    outcome (Vimeo.with_stats parseEngagement env analytics_api engagement_api now
               (daysAgo 7) (daysAgo 14) (daysAgo 8) v) =
    Ok (match outcome (vimeo_stats_requests env analytics_api daysAgo now v) with
        | Ok (thisWeekStats, lastWeekStats) =>
            Vimeo.measured_video v thisWeekStats lastWeekStats eng
        | Threw e => Vimeo.failed_video v e
        end).
Proof.
  unfold Vimeo.with_stats. rewrite try_catch_resolve, ebind_outcome.
  fold (vimeo_stats_requests env analytics_api daysAgo now v).
  destruct (outcome (vimeo_stats_requests env analytics_api daysAgo now v))
    as [[tw lw] | e]; [|exists None; reflexivity].
  rewrite ebind_outcome, try_catch_resolve. eexists. reflexivity.
Qed.

Lemma Promise_all_ok {E A B} (f : A -> Eff E B) (xs : list A) (l : list B) :
  outcome (Promise_all (map f xs)) = Ok l ->
  Forall2 (fun x b => outcome (f x) = Ok b) xs l.
Proof.
  revert l. induction xs as [| x xs IH]; intros l H.
  - unfold outcome in H. cbn in H. injection H as <-. constructor.
  - unfold outcome in *. cbn [map Promise_all fst] in H.
    destruct (fst (f x)) as [b |] eqn:Fx; [|discriminate H].
    destruct (fst (Promise_all (map f xs))) as [l' |] eqn:Fxs; [|discriminate H].
    injection H as <-. constructor; [exact Fx | apply IH; reflexivity].
Qed.

Lemma vimeo_rejection {engagement_res engagement_t : Type}
    (parseEngagement : engagement_res -> jsval -> result (option engagement_t))
    (env : gmap string string) (videos_api : endpoint Vimeo.videos_res)
    (analytics_api analytics_api' : endpoint Vimeo.analytics_res)
    (engagement_api engagement_api' : endpoint engagement_res)
    (daysAgo : Z -> string) (now fetched : string) :
  rejection (Vimeo.fetchVimeoData parseEngagement env videos_api analytics_api
               engagement_api daysAgo now fetched)
  = rejection (Vimeo.fetchVimeoData parseEngagement env videos_api analytics_api'
                 engagement_api' daysAgo now fetched).
Proof.
  assert (forall a e (vs : list Vimeo.video),
            exists l, outcome (Promise_all
                        (map (Vimeo.with_stats parseEngagement env a e now
                                (daysAgo 7) (daysAgo 14) (daysAgo 8)) vs)) = Ok l) as T.
  { intros a e vs. apply Promise_all_resolves. intros v.
    destruct (vimeo_with_stats_outcome parseEngagement env a e daysAgo now v) as [eng ->].
    eauto. }
  unfold Vimeo.fetchVimeoData. rewrite !rejection_ebind.
  destruct (outcome (Vimeo.vimeoGet env videos_api _ _)) as [videosRes |]; [|reflexivity].
  destruct (map Vimeo.to_video (default [] (Vimeo.vr_data videosRes))) as [| v0 vs];
    [reflexivity|].
  rewrite !rejection_ebind.
  destruct (T analytics_api engagement_api (slice0 15 (v0 :: vs))) as [l ->].
  destruct (T analytics_api' engagement_api' (slice0 15 (v0 :: vs))) as [l' ->].
  reflexivity.
Qed.

Lemma vimeo_returned_items {engagement_res engagement_t : Type}
    (parseEngagement : engagement_res -> jsval -> result (option engagement_t))
    (env : gmap string string) (videos_api : endpoint Vimeo.videos_res)
    (analytics_api : endpoint Vimeo.analytics_res) (engagement_api : endpoint engagement_res)
    (daysAgo : Z -> string) (now fetched : string) (d : Vimeo.vimeo_data) :
  outcome (Vimeo.fetchVimeoData parseEngagement env videos_api analytics_api engagement_api
             daysAgo now fetched) = Ok d ->
  exists (listed : list Vimeo.video) (items : list Vimeo.item),
    Forall2
      (fun v it =>
         match outcome (vimeo_stats_requests env analytics_api daysAgo now v) with
         | Ok (thisWeekStats, lastWeekStats) =>
             exists eng, it = Vimeo.measured_video v thisWeekStats lastWeekStats eng
         | Threw e => it = Vimeo.failed_video v e
         end)
      (slice0 15 listed) items
    /\ Permutation (Vimeo.videos d)
         (List.filter (fun v => negb (str_truthy (Vimeo.error v))) items)
    /\ Vimeo.errors d =
       match List.filter (fun v => str_truthy (Vimeo.error v)) items with
       | [] => None
       | failed =>
           Some (map (fun v => (Vimeo.title (Vimeo.i_video v), Vimeo.error v)) failed)
       end.
Proof.
  unfold Vimeo.fetchVimeoData. intros H.
  apply ebind_ok in H. destruct H as [videosRes [_ H]].
  destruct (map Vimeo.to_video (default [] (Vimeo.vr_data videosRes))) as [| v0 vs].
  - unfold outcome, resolve in H. cbn [fst] in H. injection H as <-.
    exists [], []. split; [constructor|]. split; reflexivity.
  - apply ebind_ok in H. destruct H as [items [I H]].
    unfold outcome, resolve in H. cbn [fst] in H. injection H as <-.
    exists (v0 :: vs), items. split; [|split].
    + apply Promise_all_ok in I. eapply Forall2_impl; [exact I|]. intros v it O. cbv beta in O.
      destruct (vimeo_with_stats_outcome parseEngagement env analytics_api engagement_api
                  daysAgo now v) as [eng W].
      set (r := outcome (vimeo_stats_requests env analytics_api daysAgo now v)) in *.
      clearbody r. rewrite W in O. injection O as <-.
      destruct r as [[tw lw] | e]; [exists eng|]; reflexivity.
    + cbn [Vimeo.videos]. apply js_sort_perm.
    + cbn [Vimeo.errors].
      destruct (List.filter (fun v => str_truthy (Vimeo.error v)) items); reflexivity.
Qed.




(** In the sample Vimeo account the second video's analytics are refused:
    the fetcher resolves, [videos] holds the first video only, and
    [errors] names the second with the message of the failure. *)
Example vimeo_failed_video_listed :
  match outcome (Vimeo.fetchVimeoData no_engagement full_env sample_videos
                   sample_video_analytics refused sample_daysAgo
                   "2026-11-02T06:00:00.000Z" "2026-11-02T06:00:05.000Z") with
  | Ok d =>
      map (fun v => Vimeo.id (Vimeo.i_video v)) (Vimeo.videos d) = ["101"]
      /\ Vimeo.errors d =
         Some [(Some "Launch VSL",
                Some "Vimeo API error 401 on /videos/102/analytics: unauthorized")]
  | Threw _ => False
  end.
Proof. vm_compute. split; reflexivity. Qed.

(** ** Sample runs *)


(** In the sample Meta account the one campaign spent 120.50 with a
    click-through rate of 0.31: it is flagged by the second rule. *)
Example meta_low_ctr_flagged :
  match outcome (Meta.fetchMetaData sample_parseFloat sample_parseInt sample_daysAgo
                   "2026-11-02T06:00:00.000Z" full_env sample_graph_api) with
  | Ok d => map Meta.campaignName (Meta.underperforming d) = [Some "Cold audience"]
  | Threw _ => False
  end.
Proof. vm_compute. reflexivity. Qed.



(** C8, as stated, fails: when the generator's reply parses to an array,
    the run reaches the write step and the file holds that array, which
    has no [generatedAt], [weekOf] or [rawData]. *)
Lemma array_artifact_has_no_stamp :
  sample_parse "[]" = Some (VArray [])
  /\ Report.exit_code (sample_main (generator_saying "[]")) = 0
  /\ Report.files_written (sample_main (generator_saying "[]"))
     = [(Report.OUTPUT_PATH, "[]")]
  /\ forall fields, sample_stringify (VObject fields) <> "[]".
Proof.
  split; [reflexivity|]. split; [vm_compute; reflexivity|].
  split; [vm_compute; reflexivity|].
  intros fields. cbn. discriminate.
Qed.

Lemma artifact_fields_witness :
  exists fields',
    "{weeklyVerdict,weekOf,generatedAt,rawData}" = sample_stringify (VObject fields')
    /\ get_field fields' "generatedAt" = VString "2026-11-02T06:00:11.000Z"
    /\ get_field fields' "weekOf" = VString "2026-11-02"
    /\ get_field fields' "rawData" = snapshot sample_fetchers
    /\ get_field fields' "weeklyVerdict" = VString "Steady week.".
Proof.
  destruct (proj1 (artifact_fields sample_stringify sample_parse (fun _ => "Unexpected token")
                     (fun s => s) (fun s => s) "You are a senior marketing strategist."
                     (generator_saying sample_doc_text)
                     "2026-11-02T06:00:10.000Z" "2026-11-02T06:00:11.000Z"
                     (fun _ => true) (fun _ => Ok tt) (fun _ _ => Ok tt) sample_fetchers)
              Report.OUTPUT_PATH "{weeklyVerdict,weekOf,generatedAt,rawData}")
    as [_ [doc [enriched [O [_ [C [Obj _]]]]]]].
  - vm_compute. left. reflexivity.
  - vm_compute in O. injection O as <-.
    destruct (Obj _ eq_refl) as [fields' [-> [G [W [R K]]]]].
    exists fields'. split; [exact C|]. split; [exact G|]. split; [exact W|].
    split; [exact R|]. apply (K "weeklyVerdict"); discriminate.
Defined.

(** * More of the code: orderings, bounds, edge cases *)

(** ** The order of numbers *)

Lemma Qle_bool_Qred_l (a b : Q) : Qle_bool (Qred a) b = Qle_bool a b.
Proof.
  apply eq_true_iff_eq. rewrite !Qle_bool_iff. rewrite Qred_correct. reflexivity.
Qed.

Lemma Qle_bool_Qred_r (a b : Q) : Qle_bool a (Qred b) = Qle_bool a b.
Proof.
  apply eq_true_iff_eq. rewrite !Qle_bool_iff. rewrite Qred_correct. reflexivity.
Qed.

Lemma num_gt_sub (a b : number) :
  a <> NaN -> b <> NaN -> num_gt (num_sub b a) (Fin 0) = num_lt a b.
Proof.
  intros Ha Hb. destruct a as [x | | |], b as [y | | |]; try congruence; try reflexivity.
  unfold num_gt, num_sub, num_neg, num_add, fin, num_lt. f_equal.
  apply eq_true_iff_eq. rewrite Qle_bool_Qred_l, !Qle_bool_iff.
  rewrite (Qred_correct (- x)). split; intros H; lra.
Qed.

Lemma num_lt_irrefl (a : number) : num_lt a a = false.
Proof.
  destruct a as [x | | |]; try reflexivity.
  unfold num_lt. apply negb_false_iff, Qle_bool_iff. lra.
Qed.

Lemma num_lt_asym (a b : number) : num_lt a b = true -> num_lt b a = false.
Proof.
  destruct a as [x | | |], b as [y | | |]; try reflexivity; try discriminate.
  unfold num_lt. rewrite negb_true_iff, negb_false_iff.
  intros H. apply Qle_bool_iff. apply not_true_iff_false in H.
  rewrite Qle_bool_iff in H. lra.
Qed.

Lemma num_lt_false_trans (a b c : number) :
  b <> NaN -> num_lt a b = false -> num_lt b c = false -> num_lt a c = false.
Proof.
  intros Hb.
  destruct a as [x | | |], b as [y | | |], c as [z | | |];
    try congruence; try reflexivity; try discriminate.
  unfold num_lt. rewrite !negb_false_iff, !Qle_bool_iff. intros; lra.
Qed.

(** ** [sort] with a comparator [(a, b) => key(b) - key(a)] *)

Lemma descending_by_gt {A} (key : A -> number) (x y : A) :
  key x <> NaN -> key y <> NaN ->
  num_gt (descending_by key x y) (Fin 0) = num_lt (key x) (key y).
Proof. intros Hx Hy. unfold descending_by. apply num_gt_sub; assumption. Qed.

Lemma Forall_sort_insert {A} (P : A -> Prop) (cmp : A -> A -> number) (x : A) (l : list A) :
  P x -> Forall P l -> Forall P (sort_insert cmp x l).
Proof.
  intros Hx Hl. eapply Permutation_Forall; [symmetry; apply sort_insert_perm|].
  constructor; assumption.
Qed.

Lemma sort_insert_sorted {A} (key : A -> number) (x : A) (l : list A) :
  key x <> NaN -> comparable key l ->
  StronglySorted (not_below key) l ->
  StronglySorted (not_below key) (sort_insert (descending_by key) x l).
Proof.
  intros Hx Hl S. induction S as [| y l S IH Hy]; cbn [sort_insert].
  - repeat constructor.
  - inversion Hl as [| ? ? Ky Kl]; subst.
    rewrite descending_by_gt by assumption.
    destruct (num_lt (key x) (key y)) eqn:L.
    + constructor; [apply IH, Kl|].
      apply Forall_sort_insert; [|exact Hy].
      unfold not_below. apply num_lt_asym, L.
    + constructor; [constructor; assumption|].
      constructor; [exact L|].
      eapply Forall_impl; [exact Hy|]. intros z Hz. cbv beta in Hz.
      unfold not_below in *. eapply num_lt_false_trans; [exact Ky | exact L | exact Hz].
Qed.

Lemma js_sort_sorted {A} (key : A -> number) (l : list A) :
  comparable key l ->
  StronglySorted (not_below key) (js_sort (descending_by key) l).
Proof.
  unfold js_sort. induction l as [| x l IH]; intros H; cbn [foldr]; [constructor|].
  inversion H as [| ? ? Hx Hl]; subst.
  apply sort_insert_sorted; [exact Hx | | apply IH, Hl].
  eapply Permutation_Forall; [symmetry; apply (js_sort_perm (descending_by key) l)|].
  exact Hl.
Qed.

Lemma sorted_head {A} (R : A -> A -> Prop) (l : list A) (b : A) :
  (forall a, R a a) -> StronglySorted R l -> head l = Some b ->
  forall a, In a l -> R b a.
Proof.
  intros Rf S H a Ha. destruct S as [| y l S Hy]; [discriminate H|].
  cbn in H. injection H as ->. destruct Ha as [<- | Ha]; [apply Rf|].
  rewrite Forall_forall in Hy. apply Hy, list_elem_of_In, Ha.
Qed.

Lemma sorted_last {A} (R : A -> A -> Prop) (l : list A) (b : A) :
  (forall a, R a a) -> StronglySorted R l -> last l = Some b ->
  forall a, In a l -> R a b.
Proof.
  intros Rf S. induction S as [| y l S IH Hy]; intros H a Ha; [discriminate H|].
  destruct l as [| z l'].
  - cbn in H. injection H as ->. destruct Ha as [<- | []]. apply Rf.
  - assert (last (z :: l') = Some b) as H' by exact H.
    destruct Ha as [<- | Ha]; [|apply IH; assumption].
    rewrite Forall_forall in Hy. apply Hy. apply list_elem_of_In.
    clear - H'. revert z H'. induction l' as [| w l' IHl]; intros z H'.
    + cbn in H'. injection H' as ->. left. reflexivity.
    + right. apply (IHl w). exact H'.
Qed.

(** ** Lists cut by [slice] *)

Lemma length_slice0 {A} (n : nat) (l : list A) : (length (slice0 n l) <= n)%nat.
Proof. unfold slice0. apply firstn_le_length. Qed.

Lemma length_slice0_le {A} (n : nat) (l : list A) : (length (slice0 n l) <= length l)%nat.
Proof. unfold slice0. rewrite length_firstn. lia. Qed.

Lemma sorted_slice0 {A} (R : A -> A -> Prop) (n : nat) (l : list A) :
  StronglySorted R l -> StronglySorted R (slice0 n l).
Proof.
  unfold slice0. intros S. revert n. induction S as [| x l S IH Hx]; intros [| n];
    cbn [firstn]; try constructor.
  - apply IH.
  - rewrite Forall_forall in *. intros y Hy. apply Hx.
    apply list_elem_of_In in Hy. apply list_elem_of_In. apply (In_slice0 n). exact Hy.
Qed.

Lemma length_filter_le {A} (f : A -> bool) (l : list A) :
  (length (List.filter f l) <= length l)%nat.
Proof.
  induction l as [| x l IH]; cbn [List.filter]; [lia|].
  destruct (f x); cbn [length]; lia.
Qed.

Lemma Promise_all_length {E A B} (f : A -> Eff E B) (xs : list A) (l : list B) :
  outcome (Promise_all (map f xs)) = Ok l -> length l = length xs.
Proof.
  intros H. apply Promise_all_ok in H. symmetry. eapply Forall2_length, H.
Qed.

(** ** fetchers/kit.js *)

Lemma kit_result (env : gmap string string) (broadcasts_api : endpoint Kit.broadcasts_res)
    (stats_api : endpoint Kit.stats_res) (subscribers_api : endpoint Kit.count_res)
    (isoDate now : string) (d : Kit.kit_data) :
  outcome (Kit.fetchKitData env broadcasts_api stats_api subscribers_api isoDate now) = Ok d ->
  exists items : list Kit.item,
    (length items <= 8)%nat
    /\ Kit.allBroadcasts d = List.filter Kit.is_completed items
    /\ Kit.recentBroadcasts d = slice0 4 (Kit.allBroadcasts d)
    /\ Kit.bestBroadcast d =
       head (js_sort (descending_by (fun b => to_number (Kit.openRate b)))
                     (Kit.recentBroadcasts d))
    /\ Kit.worstBroadcast d =
       last (js_sort (descending_by (fun b => to_number (Kit.openRate b)))
                     (Kit.recentBroadcasts d))
    /\ Kit.averages d =
       {| Kit.avg_openRate := returned (Kit.avg (Kit.recentBroadcasts d) Kit.openRate);
          Kit.avg_clickRate := returned (Kit.avg (Kit.recentBroadcasts d) Kit.clickRate);
          Kit.avg_unsubscribeRate :=
            returned (Kit.avg (Kit.recentBroadcasts d) Kit.unsubscribeRate) |}
    /\ Kit.fetchedAt d = now.
Proof.
  unfold Kit.fetchKitData. intros H.
  apply ebind_ok in H. destruct H as [broadcastsRes [_ H]].
  apply ebind_ok in H. destruct H as [items [I H]].
  apply Promise_all_length in I.
  apply ebind_ok in H. destruct H as [[activeRes totalRes] [_ H]].
  apply ebind_ok in H. destruct H as [newThisWeekRes [_ H]].
  unfold outcome, resolve in H. cbn [fst] in H. injection H as <-.
  exists items. split.
  - rewrite I. apply length_slice0.
  - repeat split.
Qed.

(** X1.  Kit keeps at most eight broadcasts with stats and at most four recent
    ones.  When the open rates of the recent broadcasts are numbers,
    [bestBroadcast] and [worstBroadcast] are recent broadcasts, no recent
    broadcast has an open rate above the best one's or below the worst
    one's; both are [null] exactly when there is no recent broadcast. *)
Theorem kit_best_and_worst (env : gmap string string)
    (broadcasts_api : endpoint Kit.broadcasts_res) (stats_api : endpoint Kit.stats_res)
    (subscribers_api : endpoint Kit.count_res) (isoDate now : string) (d : Kit.kit_data) :
  outcome (Kit.fetchKitData env broadcasts_api stats_api subscribers_api isoDate now) = Ok d ->
  comparable (fun b => to_number (Kit.openRate b)) (Kit.recentBroadcasts d) ->
  (length (Kit.allBroadcasts d) <= 8)%nat
  /\ (length (Kit.recentBroadcasts d) <= 4)%nat
  /\ match Kit.bestBroadcast d, Kit.worstBroadcast d with
     | Some best, Some worst =>
         In best (Kit.recentBroadcasts d) /\ In worst (Kit.recentBroadcasts d)
         /\ forall b, In b (Kit.recentBroadcasts d) ->
              num_lt (to_number (Kit.openRate best)) (to_number (Kit.openRate b)) = false
              /\ num_lt (to_number (Kit.openRate b)) (to_number (Kit.openRate worst)) = false
     | None, None => Kit.recentBroadcasts d = []
     | _, _ => False
     end.
Proof.
  intros H C. destruct (kit_result _ _ _ _ _ _ _ H) as [items [L [All [Rec [Best [Worst _]]]]]].
  split; [rewrite All; etransitivity; [apply length_filter_le | exact L]|].
  split; [rewrite Rec; apply length_slice0|].
  rewrite Best, Worst.
  set (key := fun b : Kit.item => to_number (Kit.openRate b)) in *.
  pose proof (js_sort_sorted key _ C) as S.
  pose proof (js_sort_perm (descending_by key) (Kit.recentBroadcasts d)) as P.
  assert (forall a : Kit.item, not_below key a a) as Rf
    by (intros a; apply num_lt_irrefl).
  destruct (js_sort (descending_by key) (Kit.recentBroadcasts d)) as [| x sorted] eqn:Sorted.
  - cbn. apply Permutation_nil. exact P.
  - destruct (last (x :: sorted)) as [worst |] eqn:Lst.
    + cbn [head]. split; [|split].
      * eapply Permutation_in; [exact P | left; reflexivity].
      * eapply Permutation_in; [exact P|]. apply list_elem_of_In.
        apply last_Some_elem_of. exact Lst.
      * intros b Hb. apply (Permutation_in _ (Permutation_sym P)) in Hb. split.
        -- apply (sorted_head _ _ x Rf S eq_refl b Hb).
        -- apply (sorted_last _ _ worst Rf S Lst b Hb).
    + apply last_None in Lst. discriminate Lst.
Qed.

Lemma kit_best_and_worst_witness :
  match outcome sample_kit with
  | Ok d =>
      (length (Kit.allBroadcasts d) <= 8)%nat
      /\ (length (Kit.recentBroadcasts d) <= 4)%nat
      /\ match Kit.bestBroadcast d, Kit.worstBroadcast d with
         | Some best, Some worst =>
             In best (Kit.recentBroadcasts d) /\ In worst (Kit.recentBroadcasts d)
             /\ forall b, In b (Kit.recentBroadcasts d) ->
                  num_lt (to_number (Kit.openRate best)) (to_number (Kit.openRate b)) = false
                  /\ num_lt (to_number (Kit.openRate b)) (to_number (Kit.openRate worst))
                     = false
         | None, None => Kit.recentBroadcasts d = []
         | _, _ => False
         end
  | Threw _ => False
  end.
Proof.
  destruct (outcome sample_kit) as [d | e] eqn:E.
  - apply (kit_best_and_worst _ _ _ _ _ _ d E).
    vm_compute in E. injection E as <-. repeat constructor; discriminate.
  - vm_compute in E. discriminate E.
Defined.

(** In the sample account the first broadcast is the best one and the
    second the worst, and the average open rate is 41.9. *)
Example kit_sample_run :
  match outcome sample_kit with
  | Ok d =>
      option_map Kit.id (Kit.bestBroadcast d) = Some "b1"
      /\ option_map Kit.id (Kit.worstBroadcast d) = Some "b2"
      /\ Kit.avg_openRate (Kit.averages d) = JNum (Fin (419 # 10))
  | Threw _ => False
  end.
Proof. vm_compute. repeat split. Qed.

(** ** Counting the events of a run *)

Lemma events_ebind_le {E A B} (m : Eff E A) (k : A -> Eff E B) (a b : nat) :
  (length (events m) <= a)%nat ->
  (forall x, (length (events (k x)) <= b)%nat) ->
  (length (events (ebind m k)) <= a + b)%nat.
Proof.
  intros Hm Hk. rewrite ebind_events. destruct (outcome m) as [x | e].
  - rewrite length_app. specialize (Hk x). lia.
  - lia.
Qed.

Lemma events_try_catch_le {E A} (m : Eff E A) (h : js_error -> Eff E A) (a b : nat) :
  (length (events m) <= a)%nat ->
  (forall e, (length (events (h e)) <= b)%nat) ->
  (length (events (try_catch m h)) <= a + b)%nat.
Proof.
  intros Hm Hh. unfold try_catch, events in *. destruct m as [[x | e] t]; cbn [fst snd] in *.
  - lia.
  - specialize (Hh e). destruct (h e) as [r t']. cbn [snd] in *. rewrite length_app. lia.
Qed.

Lemma Promise_all_events {E A} (ps : list (Eff E A)) :
  events (Promise_all ps) = concat (map events ps).
Proof.
  induction ps as [| p ps IH]; [reflexivity|].
  unfold events in *. cbn [Promise_all snd map concat]. rewrite IH. reflexivity.
Qed.

Lemma events_Promise_all_le {E A B} (f : A -> Eff E B) (xs : list A) (n : nat) :
  (forall x, (length (events (f x)) <= n)%nat) ->
  (length (events (Promise_all (map f xs))) <= length xs * n)%nat.
Proof.
  intros H. rewrite Promise_all_events.
  induction xs as [| x xs IH]; cbn [map concat length]; [lia|].
  rewrite length_app. specialize (H x). lia.
Qed.

Lemma Promise_all2_events {E A B} (p : Eff E A) (q : Eff E B) :
  events (Promise_all2 p q) = events p ++ events q.
Proof. reflexivity. Qed.

Lemma Promise_all2_outcome {E A B} (p : Eff E A) (q : Eff E B) :
  outcome (Promise_all2 p q) =
  match outcome p, outcome q with
  | Ok a, Ok b => Ok (a, b)
  | Threw e, _ => Threw e
  | Ok _, Threw e => Threw e
  end.
Proof. reflexivity. Qed.

Lemma events_Promise_all2_le {E A B} (p : Eff E A) (q : Eff E B) (a b : nat) :
  (length (events p) <= a)%nat -> (length (events q) <= b)%nat ->
  (length (events (Promise_all2 p q)) <= a + b)%nat.
Proof. intros Hp Hq. rewrite Promise_all2_events, length_app. lia. Qed.

Lemma events_lift {E A} (r : result A) : events (lift r : Eff E A) = [].
Proof. reflexivity. Qed.

Lemma events_resolve {E A} (a : A) : events (resolve a : Eff E A) = [].
Proof. reflexivity. Qed.

Lemma events_throw {E A} (e : js_error) : events (throw e : Eff E A) = [].
Proof. reflexivity. Qed.

(** What a request helper does: nothing when the credential is missing,
    otherwise exactly the one request, and then the reply decides. *)
Lemma kitGet_run (env : gmap string string) {R} (api : endpoint R) (path : string) :
  Kit.kitGet env api path =
  match Kit.headers env with
  | Threw e => (Threw e, [])
  | Ok h =>
      let rq := {| req_url := Kit.KIT_BASE +:+ path; req_params := h |} in
      (match api rq with
       | Threw e => Threw e
       | Ok res =>
           if res_ok res then res_json res
           else Threw (new_Error ("Kit API error " +:+ pretty (res_status res) +:+ " on "
                                  +:+ path +:+ ": " +:+ res_text res))
       end, [rq])
  end.
Proof.
  unfold Kit.kitGet, ebind, lift, fetch, throw. cbn [fst snd].
  destruct (Kit.headers env) as [h | e]; [|reflexivity]. cbn [fst snd app].
  destruct (api _) as [res | e]; [|reflexivity]. cbn [fst snd app].
  destruct (res_ok res); reflexivity.
Qed.

Lemma kitGet_events_le (env : gmap string string) {R} (api : endpoint R) (path : string) :
  (length (events (Kit.kitGet env api path)) <= 1)%nat.
Proof.
  rewrite kitGet_run. destruct (Kit.headers env); unfold events; cbn [snd length]; lia.
Qed.

Lemma kit_with_stats_events_le (env : gmap string string) (stats_api : endpoint Kit.stats_res)
    (b : Kit.broadcast) :
  (length (events (Kit.with_stats env stats_api b)) <= 1)%nat.
Proof.
  unfold Kit.with_stats.
  apply (events_try_catch_le _ _ 1 0); [|intros; rewrite events_resolve; cbn; lia].
  apply (events_ebind_le _ _ 1 0); [apply kitGet_events_le|].
  intros; rewrite events_resolve; cbn; lia.
Qed.

Lemma kit_events_le (env : gmap string string) (broadcasts_api : endpoint Kit.broadcasts_res)
    (stats_api : endpoint Kit.stats_res) (subscribers_api : endpoint Kit.count_res)
    (isoDate now : string) :
  (length (events (Kit.fetchKitData env broadcasts_api stats_api subscribers_api isoDate now))
   <= 12)%nat.
Proof.
  unfold Kit.fetchKitData.
  apply (events_ebind_le _ _ 1 11); [apply kitGet_events_le|]. intros broadcastsRes.
  apply (events_ebind_le _ _ 8 3).
  { etransitivity; [apply (events_Promise_all_le _ _ 1), kit_with_stats_events_le|].
    rewrite Nat.mul_1_r. apply length_slice0. }
  intros items.
  apply (events_ebind_le _ _ 2 1);
    [apply (events_Promise_all2_le _ _ 1 1); apply kitGet_events_le|].
  intros [activeRes totalRes].
  apply (events_ebind_le _ _ 1 0); [apply kitGet_events_le|].
  intros; rewrite events_resolve; cbn; lia.
Qed.

(** X2.  [fetchKitData] resolves exactly when the listing of the broadcasts and
    the three subscriber counts can be fetched; the stats of the single
    broadcasts play no part in it.  A listing answered with a status that
    is not ok rejects the fetcher after that single request, with a message
    that gives the status, the path and the body. *)
Theorem kit_resolves_iff (env : gmap string string)
    (broadcasts_api : endpoint Kit.broadcasts_res) (stats_api : endpoint Kit.stats_res)
    (subscribers_api : endpoint Kit.count_res) (isoDate now : string) :
  let listing := "/broadcasts?per_page=8&sort_field=published_at&sort_order=desc" in
  let run := Kit.fetchKitData env broadcasts_api stats_api subscribers_api isoDate now in
  ((exists d, outcome run = Ok d) <->
   (exists r, outcome (Kit.kitGet env broadcasts_api listing) = Ok r)
   /\ (exists r, outcome (Kit.kitGet env subscribers_api
                           "/subscribers?status=active&per_page=1") = Ok r)
   /\ (exists r, outcome (Kit.kitGet env subscribers_api "/subscribers?per_page=1") = Ok r)
   /\ (exists r, outcome (Kit.kitGet env subscribers_api
                           ("/subscribers?status=active&created_after=" +:+ isoDate
                            +:+ "&per_page=1")) = Ok r))
  /\ (forall h res,
        Kit.headers env = Ok h ->
        broadcasts_api {| req_url := "https://api.kit.com/v4" +:+ listing; req_params := h |}
        = Ok res ->
        res_ok res = false ->
        run = (Threw (new_Error ("Kit API error " +:+ pretty (res_status res) +:+ " on "
                                 +:+ listing +:+ ": " +:+ res_text res)),
               [{| req_url := "https://api.kit.com/v4" +:+ listing; req_params := h |}])).
Proof.
  cbv zeta. split.
  - unfold Kit.fetchKitData. rewrite ebind_outcome.
    destruct (outcome (Kit.kitGet env broadcasts_api _)) as [broadcastsRes |].
    2:{ split; [intros [d H]; discriminate H | intros [[r H] _]; discriminate H]. }
    rewrite ebind_outcome.
    rewrite (Promise_all_total _ _ _ (kit_with_stats_outcome env stats_api)).
    rewrite ebind_outcome, Promise_all2_outcome.
    destruct (outcome (Kit.kitGet env subscribers_api "/subscribers?status=active&per_page=1"))
      as [activeRes |].
    2:{ split; [intros [d H]; discriminate H | intros [_ [[r H] _]]; discriminate H]. }
    destruct (outcome (Kit.kitGet env subscribers_api "/subscribers?per_page=1"))
      as [totalRes |].
    2:{ split; [intros [d H]; discriminate H | intros [_ [_ [[r H] _]]]; discriminate H]. }
    rewrite ebind_outcome.
    destruct (outcome (Kit.kitGet env subscribers_api _)) as [newRes |].
    2:{ split; [intros [d H]; discriminate H | intros [_ [_ [_ [r H]]]]; discriminate H]. }
    split; [intros _; repeat split; eexists; reflexivity | intros _; eexists; reflexivity].
  - intros h res Hh Hres Hok. unfold Kit.fetchKitData, ebind. rewrite kitGet_run, Hh.
    cbv zeta. unfold Kit.KIT_BASE. rewrite Hres, Hok. reflexivity.
Qed.

(** ** How many requests a fetcher can issue *)

Lemma vimeoGet_run (env : gmap string string) {R} (api : endpoint R) (path : string)
    (params : list (string * string)) :
  Vimeo.vimeoGet env api path params =
  match Vimeo.headers env with
  | Threw e => (Threw e, [])
  | Ok h =>
      let rq := {| req_url := Vimeo.VIMEO_BASE +:+ path; req_params := params ++ h |} in
      (match api rq with
       | Threw e => Threw e
       | Ok res =>
           if res_ok res then res_json res
           else if (res_status res =? 403)%Z
           then Threw (new_Error "Vimeo 403: Analytics data requires Vimeo Pro or higher plan")
           else Threw (new_Error ("Vimeo API error " +:+ pretty (res_status res) +:+ " on "
                                  +:+ path +:+ ": " +:+ res_text res))
       end, [rq])
  end.
Proof.
  unfold Vimeo.vimeoGet, ebind, lift, fetch, throw. cbn [fst snd].
  destruct (Vimeo.headers env) as [h | e]; [|reflexivity]. cbn [fst snd app].
  destruct (api _) as [res | e]; [|reflexivity]. cbn [fst snd app].
  destruct (res_ok res); [reflexivity|]. cbn [negb].
  destruct (res_status res =? 403)%Z; reflexivity.
Qed.

Lemma vimeoGet_events_le (env : gmap string string) {R} (api : endpoint R) (path : string)
    (params : list (string * string)) :
  (length (events (Vimeo.vimeoGet env api path params)) <= 1)%nat.
Proof.
  rewrite vimeoGet_run. destruct (Vimeo.headers env); unfold events; cbn [snd length]; lia.
Qed.

Lemma vimeo_with_stats_events_le {engagement_res engagement_t : Type}
    (parseEngagement : engagement_res -> jsval -> result (option engagement_t))
    (env : gmap string string) (analytics_api : endpoint Vimeo.analytics_res)
    (engagement_api : endpoint engagement_res) (now a b c : string) (v : Vimeo.video) :
  (length (events (Vimeo.with_stats parseEngagement env analytics_api engagement_api now
                     a b c v)) <= 3)%nat.
Proof.
  unfold Vimeo.with_stats.
  apply (events_try_catch_le _ _ 3 0); [|intros; rewrite events_resolve; cbn; lia].
  apply (events_ebind_le _ _ 2 1);
    [apply (events_Promise_all2_le _ _ 1 1); apply vimeoGet_events_le|].
  intros [tw lw].
  apply (events_ebind_le _ _ 1 0); [|intros; rewrite events_resolve; cbn; lia].
  apply (events_try_catch_le _ _ 1 0); [|intros; rewrite events_resolve; cbn; lia].
  apply (events_ebind_le _ _ 1 0); [apply vimeoGet_events_le|].
  intros; rewrite events_lift; cbn; lia.
Qed.

Lemma vimeo_events_le {engagement_res engagement_t : Type}
    (parseEngagement : engagement_res -> jsval -> result (option engagement_t))
    (env : gmap string string) (videos_api : endpoint Vimeo.videos_res)
    (analytics_api : endpoint Vimeo.analytics_res) (engagement_api : endpoint engagement_res)
    (daysAgo : Z -> string) (now fetched : string) :
  (length (events (Vimeo.fetchVimeoData parseEngagement env videos_api analytics_api
                     engagement_api daysAgo now fetched)) <= 46)%nat.
Proof.
  unfold Vimeo.fetchVimeoData.
  apply (events_ebind_le _ _ 1 45); [apply vimeoGet_events_le|]. intros videosRes.
  destruct (map Vimeo.to_video (default [] (Vimeo.vr_data videosRes))) as [| v0 vs].
  - rewrite events_resolve. cbn. lia.
  - apply (events_ebind_le _ _ 45 0); [|intros; rewrite events_resolve; cbn; lia].
    etransitivity;
      [apply (events_Promise_all_le _ _ 3); intros v; apply vimeo_with_stats_events_le|].
    pose proof (length_slice0 15 (v0 :: vs)). lia.
Qed.

Lemma metaGet_run (env : gmap string string) (graph_api : endpoint Meta.payload)
    (path : string) (params : list (string * string)) :
  Meta.metaGet env graph_api path params =
  match Meta.ACCESS_TOKEN env with
  | Threw e => (Threw e, [])
  | Ok token =>
      let rq := {| req_url := Meta.META_BASE +:+ path;
                   req_params := ("access_token", token) :: params |} in
      (match graph_api rq with
       | Threw e => Threw e
       | Ok res =>
           match res_json res with
           | Threw e => Threw e
           | Ok json =>
               match Meta.p_error json with
               | Some message => Threw (new_Error ("Meta API error: " +:+ message))
               | None => Ok json
               end
           end
       end, [rq])
  end.
Proof.
  unfold Meta.metaGet, ebind, lift, fetch, throw, resolve. cbn [fst snd].
  destruct (Meta.ACCESS_TOKEN env) as [token | e]; [|reflexivity]. cbn [fst snd app].
  destruct (graph_api _) as [res | e]; [|reflexivity]. cbn [fst snd app].
  destruct (res_json res) as [json | e]; [|reflexivity]. cbn [fst snd app].
  destruct (Meta.p_error json); reflexivity.
Qed.

Lemma metaGet_events_le (env : gmap string string) (graph_api : endpoint Meta.payload)
    (path : string) (params : list (string * string)) :
  (length (events (Meta.metaGet env graph_api path params)) <= 1)%nat.
Proof.
  rewrite metaGet_run. destruct (Meta.ACCESS_TOKEN env); unfold events; cbn [snd length]; lia.
Qed.

Lemma meta_events_le (parseFloat parseInt : string -> number) (daysAgo : Z -> string)
    (now : string) (env : gmap string string) (graph_api : endpoint Meta.payload) :
  (length (events (Meta.fetchMetaData parseFloat parseInt daysAgo now env graph_api))
   <= 4)%nat.
Proof.
  unfold Meta.fetchMetaData.
  apply (events_ebind_le _ _ 0 4); [rewrite events_lift; cbn; lia|]. intros accountId.
  apply (events_ebind_le _ _ 2 2);
    [apply (events_Promise_all2_le _ _ 1 1); apply metaGet_events_le|].
  intros [tw lw].
  apply (events_ebind_le _ _ 1 1); [apply metaGet_events_le|]. intros campaignsRes.
  apply (events_ebind_le _ _ 1 0); [apply metaGet_events_le|].
  intros; rewrite events_resolve; cbn; lia.
Qed.

Lemma ga4_events_le {credentials report data : Type}
    (JSON_parse : string -> result credentials) (daysAgo : Z -> string)
    (env : gmap string string) (runReport : credentials -> request -> result report)
    (build : report -> report -> report -> report -> result data) :
  (length (events (Ga4.fetchGA4Data JSON_parse daysAgo env runReport build)) <= 4)%nat.
Proof.
  unfold Ga4.fetchGA4Data.
  apply (events_ebind_le _ _ 0 4); [rewrite events_lift; cbn; lia|]. intros propertyId.
  apply (events_ebind_le _ _ 0 4); [rewrite events_lift; cbn; lia|]. intros auth.
  apply (events_ebind_le _ _ 1 3); [cbn; lia|]. intros r1.
  apply (events_ebind_le _ _ 1 2); [cbn; lia|]. intros r2.
  apply (events_ebind_le _ _ 1 1); [cbn; lia|]. intros r3.
  apply (events_ebind_le _ _ 1 0); [cbn; lia|]. intros r4.
  rewrite events_lift. cbn. lia.
Qed.

Lemma gsc_events_le {credentials rows data : Type}
    (JSON_parse : string -> result credentials) (daysAgo : Z -> string)
    (env : gmap string string) (query : credentials -> request -> result rows)
    (build : rows -> rows -> rows -> rows -> result data) :
  (length (events (Gsc.fetchGSCData JSON_parse daysAgo env query build)) <= 4)%nat.
Proof.
  unfold Gsc.fetchGSCData.
  apply (events_ebind_le _ _ 0 4); [rewrite events_lift; cbn; lia|]. intros siteUrl.
  apply (events_ebind_le _ _ 0 4); [rewrite events_lift; cbn; lia|]. intros auth.
  apply (events_ebind_le _ _ 1 3); [cbn; lia|]. intros r1.
  apply (events_ebind_le _ _ 1 2); [cbn; lia|]. intros r2.
  apply (events_ebind_le _ _ 1 1); [cbn; lia|]. intros r3.
  apply (events_ebind_le _ _ 1 0); [cbn; lia|]. intros r4.
  rewrite events_lift. cbn. lia.
Qed.

Lemma youtube_events_le
    {credentials channels report details channel_stats metrics data : Type}
    (JSON_parse : string -> result credentials) (daysAgo : Z -> string)
    (env : gmap string string)
    (channels_list : credentials -> request -> result channels)
    (reports_query : credentials -> request -> result report)
    (videos_list : credentials -> request -> result details)
    (channel_id : channels -> option string) (video_ids : report -> list string)
    (parseChannel : channels -> result channel_stats)
    (parseChannelMetrics : report -> result metrics)
    (build : channel_stats -> metrics -> metrics -> report -> option details -> report
             -> result data) :
  (length (events (Youtube.fetchYouTubeData JSON_parse daysAgo env channels_list
                     reports_query videos_list channel_id video_ids parseChannel
                     parseChannelMetrics build)) <= 6)%nat.
Proof.
  unfold Youtube.fetchYouTubeData.
  apply (events_ebind_le _ _ 0 6); [rewrite events_lift; cbn; lia|]. intros auth.
  apply (events_ebind_le _ _ 1 5); [cbn; lia|]. intros channelData.
  destruct (channel_id channelData) as [channelId |]; [|rewrite events_throw; cbn; lia].
  destruct (String.eqb channelId ""); [rewrite events_throw; cbn; lia|].
  apply (events_ebind_le _ _ 0 5); [rewrite events_lift; cbn; lia|]. intros channelStats.
  apply (events_ebind_le _ _ 2 3); [cbn; lia|]. intros [tw lw].
  apply (events_ebind_le _ _ 0 3); [rewrite events_lift; cbn; lia|]. intros thisWeek.
  apply (events_ebind_le _ _ 0 3); [rewrite events_lift; cbn; lia|]. intros lastWeek.
  apply (events_ebind_le _ _ 1 2); [cbn; lia|]. intros topVideosData.
  apply (events_ebind_le _ _ 1 1).
  { destruct (video_ids topVideosData); [rewrite events_resolve; cbn; lia|].
    apply (events_ebind_le _ _ 1 0); [cbn; lia|]. intros; rewrite events_resolve; cbn; lia. }
  intros videoDetails.
  apply (events_ebind_le _ _ 1 0); [cbn; lia|]. intros sourcesData.
  rewrite events_lift. cbn. lia.
Qed.

(** X3.  No run of a fetcher issues more requests than this: GA4 four, Search
    Console four, YouTube six, Kit twelve (the listing, the stats of at most
    eight broadcasts, three subscriber counts), Meta four, Vimeo forty-six
    (the listing, and three requests for each of at most fifteen videos),
    whatever the vendors answer. *)
Theorem request_budget :
  (forall (credentials report data : Type) (JSON_parse : string -> result credentials)
          daysAgo env (runReport : credentials -> request -> result report)
          (build : report -> report -> report -> report -> result data),
      (length (events (Ga4.fetchGA4Data JSON_parse daysAgo env runReport build)) <= 4)%nat)
  /\ (forall (credentials rows data : Type) (JSON_parse : string -> result credentials)
             daysAgo env (query : credentials -> request -> result rows)
             (build : rows -> rows -> rows -> rows -> result data),
      (length (events (Gsc.fetchGSCData JSON_parse daysAgo env query build)) <= 4)%nat)
  /\ (forall (credentials channels report details channel_stats metrics data : Type)
             (JSON_parse : string -> result credentials) daysAgo env
             (channels_list : credentials -> request -> result channels)
             (reports_query : credentials -> request -> result report)
             (videos_list : credentials -> request -> result details)
             channel_id video_ids (parseChannel : channels -> result channel_stats)
             (parseChannelMetrics : report -> result metrics)
             (build : channel_stats -> metrics -> metrics -> report -> option details
                      -> report -> result data),
      (length (events (Youtube.fetchYouTubeData JSON_parse daysAgo env channels_list
                         reports_query videos_list channel_id video_ids parseChannel
                         parseChannelMetrics build)) <= 6)%nat)
  /\ (forall env broadcasts_api stats_api subscribers_api isoDate now,
      (length (events (Kit.fetchKitData env broadcasts_api stats_api subscribers_api
                         isoDate now)) <= 12)%nat)
  /\ (forall parseFloat parseInt daysAgo now env graph_api,
      (length (events (Meta.fetchMetaData parseFloat parseInt daysAgo now env graph_api))
       <= 4)%nat)
  /\ (forall (engagement_res engagement_t : Type)
             (parseEngagement : engagement_res -> jsval -> result (option engagement_t))
             env videos_api analytics_api engagement_api daysAgo now fetched,
      (length (events (Vimeo.fetchVimeoData parseEngagement env videos_api analytics_api
                         engagement_api daysAgo now fetched)) <= 46)%nat).
Proof.
  split; [intros; apply ga4_events_le|].
  split; [intros; apply gsc_events_le|].
  split; [intros; apply youtube_events_le|].
  split; [intros; apply kit_events_le|].
  split; [intros; apply meta_events_le|].
  intros; apply vimeo_events_le.
Qed.

(** ** fetchers/unbounce.js *)

Lemma token_or_missing_run (token : option string) :
  match token with
  | Some t => if String.eqb t ""
              then throw (new_Error "UNBOUNCE_ACCESS_TOKEN env var is missing")
              else resolve t
  | None => throw (new_Error "UNBOUNCE_ACCESS_TOKEN env var is missing")
  end = (lift (token_or_missing token) : Async string).
Proof.
  unfold token_or_missing, str_truthy. destruct token as [t |]; [|reflexivity].
  destruct (String.eqb t ""); reflexivity.
Qed.

Lemma getAccessToken_refreshing (env : gmap string string)
    (oauth_api : endpoint Unbounce.token_res) :
  can_refresh env = true ->
  Unbounce.getAccessToken env oauth_api =
  (match oauth_api (refresh_request env) with
   | Threw e => Threw e
   | Ok res =>
       if res_ok res then
         match res_json res with
         | Ok data => token_or_missing (Unbounce.access_token data)
         | Threw e => Threw e
         end
       else token_or_missing (getenv env "UNBOUNCE_ACCESS_TOKEN")
   end, [refresh_request env]).
Proof.
  intros R. unfold Unbounce.getAccessToken. unfold can_refresh in R. rewrite R.
  unfold ebind at 2. unfold fetch. cbn [fst snd].
  change {| req_url := Unbounce.UNBOUNCE_BASE +:+ "/0.1/oauth/token";
            req_params := [("grant_type", "refresh_token");
                           ("refresh_token", default "" (getenv env "UNBOUNCE_REFRESH_TOKEN"));
                           ("client_id", default "" (getenv env "UNBOUNCE_CLIENT_ID"));
                           ("client_secret",
                            default "" (getenv env "UNBOUNCE_CLIENT_SECRET"))] |}
    with (refresh_request env).
  destruct (oauth_api (refresh_request env)) as [res | e]; [|reflexivity].
  destruct (res_ok res).
  - unfold ebind at 2. unfold lift at 1. cbn [fst snd].
    destruct (res_json res) as [data | e]; [|reflexivity].
    unfold resolve at 1. cbn [fst snd app]. unfold ebind. cbn [fst snd app].
    rewrite token_or_missing_run. reflexivity.
  - unfold resolve at 1. cbn [fst snd app]. unfold ebind. cbn [fst snd app].
    rewrite token_or_missing_run. reflexivity.
Qed.

Lemma getAccessToken_stored (env : gmap string string)
    (oauth_api : endpoint Unbounce.token_res) :
  can_refresh env = false ->
  Unbounce.getAccessToken env oauth_api =
  (token_or_missing (getenv env "UNBOUNCE_ACCESS_TOKEN"), []).
Proof.
  intros R. unfold Unbounce.getAccessToken. unfold can_refresh in R. rewrite R.
  unfold ebind, resolve. cbn [fst snd app]. rewrite token_or_missing_run. reflexivity.
Qed.

(** X4.  With the three refresh credentials set, [getAccessToken] issues the
    refresh request and nothing else.  The token of an ok reply is the one
    returned, whatever [UNBOUNCE_ACCESS_TOKEN] holds; only a reply that is
    not ok falls back to [UNBOUNCE_ACCESS_TOKEN].  When the request cannot
    be sent, when the body of an ok reply cannot be read, or when an ok
    reply carries no [access_token], the call rejects, a stored
    [UNBOUNCE_ACCESS_TOKEN] notwithstanding.  Without the refresh
    credentials no request is issued and the stored token is returned. *)
Theorem unbounce_token_refresh (env : gmap string string)
    (oauth_api : endpoint Unbounce.token_res) :
  let run := Unbounce.getAccessToken env oauth_api in
  (can_refresh env = true ->
   events run = [refresh_request env]
   /\ (forall res data,
         oauth_api (refresh_request env) = Ok res -> res_ok res = true ->
         res_json res = Ok data ->
         outcome run = token_or_missing (Unbounce.access_token data))
   /\ (forall res,
         oauth_api (refresh_request env) = Ok res -> res_ok res = false ->
         outcome run = token_or_missing (getenv env "UNBOUNCE_ACCESS_TOKEN"))
   /\ (forall e, oauth_api (refresh_request env) = Threw e -> outcome run = Threw e)
   /\ (forall res e,
         oauth_api (refresh_request env) = Ok res -> res_ok res = true ->
         res_json res = Threw e -> outcome run = Threw e))
  /\ (can_refresh env = false ->
      run = (token_or_missing (getenv env "UNBOUNCE_ACCESS_TOKEN"), [])).
Proof.
  cbv zeta. split.
  - intros R. rewrite (getAccessToken_refreshing env oauth_api R).
    unfold outcome, events. cbn [fst snd].
    split; [reflexivity|]. split; [|split; [|split]].
    + intros res data -> -> ->. reflexivity.
    + intros res -> ->. reflexivity.
    + intros e ->. reflexivity.
    + intros res e -> -> ->. reflexivity.
  - apply getAccessToken_stored.
Qed.

(** The stored token is set, the refresh is answered 200 with a body
    that has no [access_token]: the call rejects. *)
Lemma unbounce_token_refresh_witness :
  getenv refreshing_env "UNBOUNCE_ACCESS_TOKEN" = Some "unbounce-1"
  /\ outcome (Unbounce.getAccessToken refreshing_env
                (replying {| Unbounce.access_token := None |}))
     = Threw (new_Error "UNBOUNCE_ACCESS_TOKEN env var is missing").
Proof.
  split; [reflexivity|].
  exact (proj1 (proj2 (proj1 (unbounce_token_refresh refreshing_env
                                (replying {| Unbounce.access_token := None |})) eq_refl))
           _ {| Unbounce.access_token := None |} eq_refl eq_refl eq_refl).
Defined.

Lemma unbounceGet_run {R} (api : endpoint R) (path token : string) :
  Unbounce.unbounceGet api path token =
  (match api (unbounce_request path token) with
   | Threw e => Threw e
   | Ok res =>
       if res_ok res then res_json res
       else Threw (new_Error ("Unbounce API error " +:+ pretty (res_status res) +:+ " on "
                              +:+ path +:+ ": " +:+ res_text res))
   end, [unbounce_request path token]).
Proof.
  unfold Unbounce.unbounceGet, ebind, lift, fetch, throw. cbn [fst snd].
  change {| req_url := Unbounce.UNBOUNCE_BASE +:+ path;
            req_params := [("Authorization", "Bearer " +:+ token);
                           ("Accept", "application/json")] |}
    with (unbounce_request path token).
  destruct (api _) as [res | e]; [|reflexivity]. cbn [fst snd app].
  destruct (res_ok res); reflexivity.
Qed.

(** X5.  [fetchUnbounceData] resolves exactly when a token is obtained, the
    accounts can be fetched and there is at least one, and the pages of the
    first account can be fetched; the stats of the single pages play no
    part.  When the accounts reply has no account, the fetcher rejects with
    "No Unbounce accounts found", and the accounts request is the last one
    it has issued. *)
Theorem unbounce_resolves_iff (env : gmap string string)
    (oauth_api : endpoint Unbounce.token_res) (accounts_api : endpoint Unbounce.accounts_res)
    (pages_api : endpoint Unbounce.pages_res) (stats_api : endpoint Unbounce.stats_res)
    (daysAgo : Z -> string) (now : string) :
  let run := Unbounce.fetchUnbounceData env oauth_api accounts_api pages_api stats_api
               daysAgo now in
  ((exists d, outcome run = Ok d) <->
   exists token accountsRes accountId others pagesRes,
     outcome (Unbounce.getAccessToken env oauth_api) = Ok token
     /\ outcome (Unbounce.unbounceGet accounts_api "/0.1/accounts" token) = Ok accountsRes
     /\ Unbounce.accounts accountsRes = Some (accountId :: others)
     /\ outcome (Unbounce.unbounceGet pages_api (unbounce_pages_path accountId) token)
        = Ok pagesRes)
  /\ (forall token accountsRes,
        outcome (Unbounce.getAccessToken env oauth_api) = Ok token ->
        outcome (Unbounce.unbounceGet accounts_api "/0.1/accounts" token) = Ok accountsRes ->
        default [] (Unbounce.accounts accountsRes) = [] ->
        outcome run = Threw (new_Error "No Unbounce accounts found")
        /\ events run = events (Unbounce.getAccessToken env oauth_api)
                        ++ [unbounce_request "/0.1/accounts" token]).
Proof.
  cbv zeta. split.
  - unfold Unbounce.fetchUnbounceData. split.
    + intros [d H].
      apply ebind_ok in H. destruct H as [token [T H]].
      apply ebind_ok in H. destruct H as [accountsRes [A H]].
      destruct (Unbounce.accounts accountsRes) as [[| accountId others] |] eqn:Acc;
        cbn [default] in H; try discriminate H.
      apply ebind_ok in H. destruct H as [pagesRes [P _]].
      exists token, accountsRes, accountId, others, pagesRes. repeat split; assumption.
    + intros [token [accountsRes [accountId [others [pagesRes [T [A [Acc P]]]]]]]].
      rewrite ebind_outcome, T, ebind_outcome, A, Acc.
      change (default [] (Some (accountId :: others))) with (accountId :: others).
      cbv iota.
      unfold unbounce_pages_path in P. rewrite ebind_outcome, P, ebind_outcome.
      rewrite (Promise_all_total _ _ _ (unbounce_page_stats_outcome stats_api token daysAgo)).
      rewrite ebind_outcome.
      destruct (Promise_all_resolves
                  (Unbounce.page_variants stats_api token (daysAgo 7) (daysAgo 1))
                  (slice0 10 (default [] (Unbounce.pages pagesRes)))
                  (unbounce_page_variants_outcome stats_api token _ _)) as [l ->].
      eexists. reflexivity.
  - intros token accountsRes T A Acc. unfold Unbounce.fetchUnbounceData.
    rewrite ebind_outcome, ebind_events, T, ebind_outcome, ebind_events, A, Acc.
    split; [reflexivity|].
    rewrite unbounceGet_run. unfold events at 2 3. cbn [snd]. rewrite app_nil_r. reflexivity.
Qed.

Lemma unbounce_resolves_iff_witness :
  let run := Unbounce.fetchUnbounceData full_env refused
               (replying {| Unbounce.accounts := Some [] |}) sample_pages refused
               sample_daysAgo "2026-11-02T06:00:00.000Z" in
  outcome run = Threw (new_Error "No Unbounce accounts found")
  /\ events run = events (Unbounce.getAccessToken full_env refused)
                  ++ [unbounce_request "/0.1/accounts" "unbounce-1"].
Proof.
  exact (proj2 (unbounce_resolves_iff full_env refused
                  (replying {| Unbounce.accounts := Some [] |}) sample_pages refused
                  sample_daysAgo "2026-11-02T06:00:00.000Z")
           "unbounce-1" {| Unbounce.accounts := Some [] |} eq_refl eq_refl eq_refl).
Defined.

Lemma page_variants_some (stats_api : endpoint Unbounce.stats_res)
    (token a b : string) (p : Unbounce.page) (t : Unbounce.ab_test) :
  outcome (Unbounce.page_variants stats_api token a b p) = Ok (Some t) ->
  (2 <= length (Unbounce.variants t))%nat
  /\ (comparable Unbounce.v_conversionRate (Unbounce.variants t) ->
      StronglySorted (not_below Unbounce.v_conversionRate) (Unbounce.variants t)).
Proof.
  unfold Unbounce.page_variants. rewrite try_catch_resolve, ebind_outcome.
  destruct (outcome (Unbounce.unbounceGet stats_api _ token)) as [variantsRes |];
    [|discriminate].
  destruct (1 <? length (default [] (Unbounce.page_group_stats variantsRes)))%nat eqn:L;
    [|discriminate].
  unfold outcome, resolve. cbn [fst]. intros H. injection H as <-.
  cbn [Unbounce.variants]. apply Nat.ltb_lt in L.
  match goal with
  | |- context [js_sort ?cmp ?l] =>
      change cmp with (descending_by Unbounce.v_conversionRate);
      pose proof (js_sort_perm (descending_by Unbounce.v_conversionRate) l) as P;
      pose proof (js_sort_sorted Unbounce.v_conversionRate l) as S
  end.
  split.
  - rewrite (Permutation_length P), length_map. lia.
  - intros C. apply S. eapply Permutation_Forall; [exact P | exact C].
Qed.

Lemma In_omap_id {A} (x : A) (l : list (option A)) :
  In x (omap (fun o => o) l) -> In (Some x) l.
Proof.
  induction l as [| [y |] l IH]; cbn; [tauto | |].
  - intros [-> | H]; [left; reflexivity | right; apply IH, H].
  - intros H. right. apply IH, H.
Qed.

Lemma length_omap_le {A B} (f : A -> option B) (l : list A) :
  (length (omap f l) <= length l)%nat.
Proof.
  induction l as [| x l IH]; cbn; [lia|]. destruct (f x); cbn; lia.
Qed.



(** In the sample account the one page is listed with its 120 visitors and
    a conversion rate of 3.3, and its A/B test shows variant [b] (7.5)
    before variant [a] (3.3). *)
Example unbounce_sample_run :
  match outcome sample_unbounce with
  | Ok d =>
      map (fun p => (Unbounce.pageName p, unbounce_visitors p, unbounce_conversion p))
          (Unbounce.topPages d)
      = [(Some "Webinar signup", Fin 120, Fin (33 # 10))]
      /\ map (fun t => map (fun v => (Unbounce.variantId v, Unbounce.v_conversionRate v))
                           (Unbounce.variants t))
             (Unbounce.activeABTests d)
         = [[(Some "b", Fin (15 # 2)); (Some "a", Fin (33 # 10))]]
  | Threw _ => False
  end.
Proof. vm_compute. split; reflexivity. Qed.

(** ** The averaging helpers *)

Lemma fold_num_add_finite (qs : list Q) (a : Q) :
  exists a',
    fold_left (fun x b => num_add x (to_number b)) (map finite qs) (Fin a) = Fin a'
    /\ (a' == a + Qsum qs)%Q.
Proof.
  revert a. induction qs as [| q qs IH]; intros a; cbn [map fold_left Qsum fold_right].
  - exists a. split; [reflexivity | ring].
  - destruct (IH (Qred (a + q))) as [a' [F E]]. exists a'. split; [exact F|].
    rewrite E, Qred_correct. fold (Qsum qs). ring.
Qed.

Lemma js_length_nonzero {A} (x : A) (l : list A) : num_is_zero (js_length (x :: l)) = false.
Proof.
  unfold js_length, num_of_Z, num_is_zero. apply Qzero_b_false.
  intros H. unfold Qeq, inject_Z in H. cbn [Qnum Qden length] in H. lia.
Qed.

Lemma mean_of_fold (q : Q) (qs : list Q) :
  num_div (fold_left (fun x b => num_add x (to_number b)) (map finite (q :: qs)) (Fin 0))
          (js_length (map finite (q :: qs)))
  = fin (mean (q :: qs)).
Proof.
  destruct (fold_num_add_finite (q :: qs) 0) as [a' [-> E]].
  pose proof (js_length_nonzero (finite q) (map finite qs)) as NZ.
  change (finite q :: map finite qs) with (map finite (q :: qs)) in NZ.
  unfold js_length, num_of_Z, num_is_zero in *. unfold num_div.
  rewrite NZ. apply fin_eq. unfold mean.
  rewrite E, length_map. field.
  intros H. unfold Qeq, inject_Z in H. cbn [Qnum Qden length] in H. lia.
Qed.

Lemma filter_valid_finite (qs : list Q) :
  List.filter Vimeo.is_valid_number (map finite qs) = map finite qs.
Proof. induction qs as [| q qs IH]; [reflexivity|]. cbn. f_equal. exact IH. Qed.

Lemma vimeo_avg_no_zero_divisor (arr : list jsval) : no_zero_divisor (Vimeo.avg arr).
Proof.
  unfold Vimeo.avg. destruct (List.filter Vimeo.is_valid_number arr) as [| v l].
  - apply no_zero_divisor_ret.
  - apply no_zero_divisor_divide, js_length_nonzero.
Qed.

Lemma unbounce_avg_no_zero_divisor (arr : list jsval) : no_zero_divisor (Unbounce.avg arr).
Proof.
  unfold Unbounce.avg. destruct arr as [| v l].
  - apply no_zero_divisor_ret.
  - apply no_zero_divisor_divide, js_length_nonzero.
Qed.

Lemma kit_round_no_zero_divisor (x : jsval) (n : Z) : no_zero_divisor (Kit.round x n).
Proof. exact (round_no_zero_divisor x n). Qed.

Lemma kit_avg_no_zero_divisor (arr : list Kit.item) (key : Kit.item -> jsval) :
  no_zero_divisor (Kit.avg arr key).
Proof.
  unfold Kit.avg. destruct (List.filter Kit.is_valid_number (map key arr)) as [| v l].
  - apply no_zero_divisor_ret.
  - apply no_zero_divisor_bind; [apply no_zero_divisor_divide, js_length_nonzero|].
    apply no_zero_divisor_bind; [apply kit_round_no_zero_divisor|].
    apply no_zero_divisor_ret.
Qed.


(** X8.  A page whose conversion rate this week is zero (or that has no stats)
    does not count in the average the problem pages are measured against,
    and a video whose finish rate is zero or [null] does not count in the
    average finish rate: the averages are those of the remaining items. *)
Theorem averages_skip_zero_rates :
  (forall pages1 p pages2,
      truthy (Unbounce.tw_conversionRate p) = false ->
      Unbounce.avgConvRate_of (pages1 ++ p :: pages2)
      = Unbounce.avgConvRate_of (pages1 ++ pages2))
  /\ (forall (engagement_t : Type) (videos1 : list (Vimeo.item (engagement_t := engagement_t)))
             v videos2,
        truthy (Vimeo.tw Vimeo.finishRate v) = false ->
        Vimeo.avgFinishRate_of (videos1 ++ v :: videos2)
        = Vimeo.avgFinishRate_of (videos1 ++ videos2))
  /\ (forall p w,
        Unbounce.thisWeek p = Some w -> Unbounce.conversionRate w = Fin 0 ->
        truthy (Unbounce.tw_conversionRate p) = false)
  /\ (forall (engagement_t : Type) (v : Vimeo.item (engagement_t := engagement_t)) w,
        Vimeo.thisWeek v = Some w ->
        Vimeo.finishRate w = JNull \/ Vimeo.finishRate w = JNum (Fin 0) ->
        truthy (Vimeo.tw Vimeo.finishRate v) = false).
Proof.
  split; [|split; [|split]].
  - intros pages1 p pages2 H. unfold Unbounce.avgConvRate_of.
    rewrite !map_app, !List.filter_app. cbn [map List.filter]. rewrite H. reflexivity.
  - intros engagement_t videos1 v videos2 H. unfold Vimeo.avgFinishRate_of.
    rewrite !map_app, !List.filter_app. cbn [map List.filter]. rewrite H. reflexivity.
  - intros p w T C. unfold Unbounce.tw_conversionRate. rewrite T, C. reflexivity.
  - intros engagement_t v w T [C | C]; unfold Vimeo.tw; rewrite T, C; reflexivity.
Qed.

(** ** fetchers/vimeo.js *)

Lemma substring_all (s : string) : String.substring 0 (String.length s) s = s.
Proof. induction s as [| c s IH]; [reflexivity|]. cbn. rewrite IH. reflexivity. Qed.

Lemma remove_first_prefix (n : string) :
  Vimeo.remove_first "/videos/" ("/videos/" +:+ n) = n.
Proof.
  unfold Vimeo.remove_first.
  assert (String.index 0 "/videos/" ("/videos/" +:+ n) = Some 0%nat) as ->.
  { destruct n; reflexivity. }
  cbv [String.append]. cbn [String.length String.substring Nat.add Nat.sub].
  rewrite Nat.sub_0_r. apply substring_all.
Qed.

(** X9.  [id] is the [uri] with its first "/videos/" taken out: for a video at
    [/videos/N] it is [N], so that the analytics of the video are asked at
    the video's own [uri]; a [uri] without "/videos/" is kept as it is. *)
Theorem vimeo_video_id (v : Vimeo.raw_video) :
  (forall n, Vimeo.rv_uri v = "/videos/" +:+ n ->
     Vimeo.id (Vimeo.to_video v) = n
     /\ "/videos/" +:+ Vimeo.id (Vimeo.to_video v) +:+ "/analytics"
        = Vimeo.uri (Vimeo.to_video v) +:+ "/analytics")
  /\ (String.index 0 "/videos/" (Vimeo.rv_uri v) = None ->
      Vimeo.id (Vimeo.to_video v) = Vimeo.rv_uri v).
Proof.
  split.
  - intros n H. unfold Vimeo.to_video. cbn [Vimeo.id Vimeo.uri]. rewrite H.
    rewrite remove_first_prefix. split; reflexivity.
  - intros H. unfold Vimeo.to_video, Vimeo.remove_first. cbn [Vimeo.id]. rewrite H.
    reflexivity.
Qed.

Lemma vimeo_video_id_witness : Vimeo.id (Vimeo.to_video sample_raw_video) = "101".
Proof. exact (proj1 (proj1 (vimeo_video_id sample_raw_video) "101" eq_refl)). Defined.

Lemma vimeo_with_stats_resolves {engagement_res engagement_t : Type}
    (parseEngagement : engagement_res -> jsval -> result (option engagement_t))
    (env : gmap string string) (analytics_api : endpoint Vimeo.analytics_res)
    (engagement_api : endpoint engagement_res) (now a b c : string) (v : Vimeo.video) :
  exists it, outcome (Vimeo.with_stats parseEngagement env analytics_api engagement_api now
                        a b c v) = Ok it.
Proof. unfold Vimeo.with_stats. rewrite try_catch_resolve. eauto. Qed.

(** X10.  [fetchVimeoData] resolves exactly when the listing of the videos can
    be fetched.  For an account without videos it issues the listing
    request only and returns [videos: []] and [fetchedAt], without any of
    the other fields.  A listing answered 403 rejects with the message about
    the plan, whatever the body says. *)
Theorem vimeo_resolves_iff {engagement_res engagement_t : Type}
    (parseEngagement : engagement_res -> jsval -> result (option engagement_t))
    (env : gmap string string) (videos_api : endpoint Vimeo.videos_res)
    (analytics_api : endpoint Vimeo.analytics_res) (engagement_api : endpoint engagement_res)
    (daysAgo : Z -> string) (now fetched : string) :
  let run := Vimeo.fetchVimeoData parseEngagement env videos_api analytics_api
               engagement_api daysAgo now fetched in
  ((exists d, outcome run = Ok d) <->
   (exists videosRes, outcome (vimeo_listing env videos_api) = Ok videosRes))
  /\ (forall videosRes,
        outcome (vimeo_listing env videos_api) = Ok videosRes ->
        default [] (Vimeo.vr_data videosRes) = [] ->
        run = (Ok {| Vimeo.videos := []; Vimeo.topVideos := None;
                     Vimeo.lowFinishRateVideos := None; Vimeo.totals := None;
                     Vimeo.errors := None; Vimeo.fetchedAt := fetched |},
               events (vimeo_listing env videos_api)))
  /\ (forall h res,
        Vimeo.headers env = Ok h ->
        let rq := {| req_url := "https://api.vimeo.com/me/videos";
                     req_params :=
                       [("fields", "uri,name,duration,created_time,pictures,stats");
                        ("per_page", "25"); ("sort", "date"); ("direction", "desc")] ++ h |} in
        videos_api rq = Ok res -> res_ok res = false -> res_status res = 403 ->
        run = (Threw (new_Error "Vimeo 403: Analytics data requires Vimeo Pro or higher plan"),
               [rq])).
Proof.
  cbv zeta. unfold vimeo_listing. split; [|split].
  - unfold Vimeo.fetchVimeoData. rewrite ebind_outcome.
    destruct (outcome (Vimeo.vimeoGet env videos_api _ _)) as [videosRes |].
    2:{ split; [intros [d H]; discriminate H | intros [r H]; discriminate H]. }
    split; [intros _; eexists; reflexivity|]. intros _.
    destruct (map Vimeo.to_video (default [] (Vimeo.vr_data videosRes))) as [| v0 vs].
    + eexists. reflexivity.
    + rewrite ebind_outcome.
      destruct (Promise_all_resolves
                  (Vimeo.with_stats parseEngagement env analytics_api engagement_api now
                     (daysAgo 7) (daysAgo 14) (daysAgo 8))
                  (slice0 15 (v0 :: vs))
                  (vimeo_with_stats_resolves parseEngagement env analytics_api engagement_api
                     now _ _ _)) as [l ->].
      eexists. reflexivity.
  - intros videosRes L Emp. unfold Vimeo.fetchVimeoData, ebind.
    unfold outcome in L. rewrite L, Emp. cbn [map fst snd resolve].
    unfold events. rewrite app_nil_r. reflexivity.
  - intros h res Hh Hres Hok Hst. unfold Vimeo.fetchVimeoData, ebind.
    rewrite vimeoGet_run, Hh. cbv zeta.
    change (Vimeo.VIMEO_BASE +:+ "/me/videos") with "https://api.vimeo.com/me/videos".
    rewrite Hres, Hok, Hst. reflexivity.
Qed.

(** In the sample account the listing is answered 403. *)
Lemma vimeo_resolves_iff_witness :
  Vimeo.fetchVimeoData no_engagement full_env
    (fun _ => Ok {| res_ok := false; res_status := 403; res_text := "forbidden";
                    res_json := Threw (new_Error "Unexpected end of JSON input") |})
    sample_video_analytics refused sample_daysAgo
    "2026-11-02T06:00:00.000Z" "2026-11-02T06:00:05.000Z"
  = (Threw (new_Error "Vimeo 403: Analytics data requires Vimeo Pro or higher plan"),
     [{| req_url := "https://api.vimeo.com/me/videos";
         req_params :=
           [("fields", "uri,name,duration,created_time,pictures,stats");
            ("per_page", "25"); ("sort", "date"); ("direction", "desc");
            ("Authorization", "Bearer vimeo-1"); ("Content-Type", "application/json");
            ("Accept", "application/vnd.vimeo.*+json;version=3.4")] |}]).
Proof.
  exact (proj2 (proj2 (vimeo_resolves_iff no_engagement full_env _ sample_video_analytics
                         refused sample_daysAgo
                         "2026-11-02T06:00:00.000Z" "2026-11-02T06:00:05.000Z"))
           [("Authorization", "Bearer vimeo-1"); ("Content-Type", "application/json");
            ("Accept", "application/vnd.vimeo.*+json;version=3.4")]
           {| res_ok := false; res_status := 403; res_text := "forbidden";
              res_json := Threw (new_Error "Unexpected end of JSON input") |}
           eq_refl eq_refl eq_refl eq_refl).
Defined.

(** X11.  The engagement heatmap is optional: once the two analytics requests of
    a video have succeeded, the video is returned with its stats whether or
    not the engagement request succeeds and whether or not its reply can be
    parsed; [engagement] is [null] in both failing cases. *)
Theorem vimeo_engagement_optional {engagement_res engagement_t : Type}
    (parseEngagement : engagement_res -> jsval -> result (option engagement_t))
    (env : gmap string string) (analytics_api : endpoint Vimeo.analytics_res)
    (engagement_api : endpoint engagement_res) (daysAgo : Z -> string) (now : string)
    (v : Vimeo.video) (thisWeekStats lastWeekStats : Vimeo.analytics_res) :
  outcome (vimeo_stats_requests env analytics_api daysAgo now v)
  = Ok (thisWeekStats, lastWeekStats) ->
  let item := outcome (Vimeo.with_stats parseEngagement env analytics_api engagement_api now
                         (daysAgo 7) (daysAgo 14) (daysAgo 8) v) in
  let engagement := outcome (vimeo_engagement_request env engagement_api daysAgo now v) in
  (forall e, engagement = Threw e ->
     item = Ok (Vimeo.measured_video v thisWeekStats lastWeekStats None))
  /\ (forall res e, engagement = Ok res -> parseEngagement res (Vimeo.duration v) = Threw e ->
        item = Ok (Vimeo.measured_video v thisWeekStats lastWeekStats None))
  /\ (forall res eng, engagement = Ok res -> parseEngagement res (Vimeo.duration v) = Ok eng ->
        item = Ok (Vimeo.measured_video v thisWeekStats lastWeekStats eng)).
Proof.
  intros S. cbv zeta. unfold Vimeo.with_stats, vimeo_engagement_request.
  rewrite try_catch_resolve, ebind_outcome.
  fold (vimeo_stats_requests env analytics_api daysAgo now v). rewrite S.
  rewrite ebind_outcome, try_catch_resolve, ebind_outcome.
  split; [|split].
  - intros e ->. reflexivity.
  - intros res e -> P. unfold outcome, lift. cbn [fst]. rewrite P. reflexivity.
  - intros res eng -> P. unfold outcome, lift. cbn [fst]. rewrite P. reflexivity.
Qed.

(** For the first sample video the analytics are answered and the
    engagement request is refused. *)
Lemma vimeo_engagement_optional_witness :
  outcome (Vimeo.with_stats no_engagement full_env sample_video_analytics refused
             "2026-11-02T06:00:00.000Z" (sample_daysAgo 7) (sample_daysAgo 14)
             (sample_daysAgo 8) (Vimeo.to_video sample_raw_video))
  = Ok (Vimeo.measured_video (Vimeo.to_video sample_raw_video) sample_analytics
          sample_analytics None).
Proof.
  refine (proj1 (vimeo_engagement_optional no_engagement full_env sample_video_analytics
                   refused sample_daysAgo "2026-11-02T06:00:00.000Z"
                   (Vimeo.to_video sample_raw_video) sample_analytics sample_analytics _)
            (new_Error "Vimeo API error 401 on /videos/101/analytics: unauthorized") _);
    vm_compute; reflexivity.
Defined.

Lemma vimeo_result {engagement_res engagement_t : Type}
    (parseEngagement : engagement_res -> jsval -> result (option engagement_t))
    (env : gmap string string) (videos_api : endpoint Vimeo.videos_res)
    (analytics_api : endpoint Vimeo.analytics_res) (engagement_api : endpoint engagement_res)
    (daysAgo : Z -> string) (now fetched : string) (d : Vimeo.vimeo_data) :
  outcome (Vimeo.fetchVimeoData parseEngagement env videos_api analytics_api engagement_api
             daysAgo now fetched) = Ok d ->
  (d = {| Vimeo.videos := []; Vimeo.topVideos := None; Vimeo.lowFinishRateVideos := None;
          Vimeo.totals := None; Vimeo.errors := None; Vimeo.fetchedAt := fetched |})
  \/ exists items : list Vimeo.item,
       let validVideos := List.filter (fun v => negb (str_truthy (Vimeo.error v))) items in
       let errorVideos := List.filter (fun v => str_truthy (Vimeo.error v)) items in
       let byPlays := js_sort (descending_by vimeo_plays) validVideos in
       (0 < length items <= 15)%nat
       /\ d = {| Vimeo.videos := byPlays;
                 Vimeo.topVideos := Some (slice0 5 byPlays);
                 Vimeo.lowFinishRateVideos :=
                   Some (List.filter (Vimeo.is_low_finish (Vimeo.avgFinishRate_of validVideos))
                                     validVideos);
                 Vimeo.totals :=
                   Some {| Vimeo.t_totalPlays :=
                             Vimeo.sum validVideos
                               (fun v => nullish (Vimeo.tw Vimeo.plays v) (JNum (Fin 0)));
                           Vimeo.t_totalWatchMinutes :=
                             Vimeo.sum validVideos
                               (fun v => nullish (Vimeo.tw (fun w => JNum (Vimeo.watchMinutes w))
                                                           v) (JNum (Fin 0)));
                           Vimeo.t_avgFinishRate :=
                             returned (Vimeo.round
                                         (JNum (Vimeo.avgFinishRate_of validVideos)) 1) |};
                 Vimeo.errors :=
                   match errorVideos with
                   | [] => None
                   | _ :: _ =>
                       Some (map (fun v => (Vimeo.title (Vimeo.i_video v), Vimeo.error v))
                                 errorVideos)
                   end;
                 Vimeo.fetchedAt := fetched |}.
Proof.
  unfold Vimeo.fetchVimeoData. intros H.
  apply ebind_ok in H. destruct H as [videosRes [_ H]].
  destruct (map Vimeo.to_video (default [] (Vimeo.vr_data videosRes))) as [| v0 vs].
  - left. unfold outcome, resolve in H. cbn [fst] in H. injection H as <-. reflexivity.
  - right. apply ebind_ok in H. destruct H as [items [I H]].
    apply Promise_all_length in I.
    unfold outcome, resolve in H. cbn [fst] in H. injection H as <-.
    exists items. cbv zeta. split; [|reflexivity].
    rewrite I. split; [|apply length_slice0]. unfold slice0. cbn. lia.
Qed.

(** X12.  What [fetchVimeoData] returns for an account with videos.  At most
    fifteen videos are looked at.  [videos] holds those without an error,
    in order of plays this week (largest first, when these are numbers),
    and [topVideos] is its first five; every video of
    [lowFinishRateVideos] is one of [videos]; [errors], when present, is
    not empty, and together [videos] and [errors] account for every video
    looked at. *)
Theorem vimeo_result_shape {engagement_res engagement_t : Type}
    (parseEngagement : engagement_res -> jsval -> result (option engagement_t))
    (env : gmap string string) (videos_api : endpoint Vimeo.videos_res)
    (analytics_api : endpoint Vimeo.analytics_res) (engagement_api : endpoint engagement_res)
    (daysAgo : Z -> string) (now fetched : string) (d : Vimeo.vimeo_data) :
  outcome (Vimeo.fetchVimeoData parseEngagement env videos_api analytics_api engagement_api
             daysAgo now fetched) = Ok d ->
  (length (Vimeo.videos d) + length (default [] (Vimeo.errors d)) <= 15)%nat
  /\ (forall v, In v (Vimeo.videos d) -> str_truthy (Vimeo.error v) = false)
  /\ (comparable vimeo_plays (Vimeo.videos d) ->
      StronglySorted (not_below vimeo_plays) (Vimeo.videos d))
  /\ (forall top, Vimeo.topVideos d = Some top -> top = slice0 5 (Vimeo.videos d))
  /\ (forall low v, Vimeo.lowFinishRateVideos d = Some low -> In v low -> In v (Vimeo.videos d))
  /\ Vimeo.errors d <> Some []
  /\ (Vimeo.videos d = [] -> Vimeo.errors d = None -> Vimeo.totals d = None)
  /\ Vimeo.fetchedAt d = fetched.
Proof.
  intros H. destruct (vimeo_result _ _ _ _ _ _ _ _ _ H) as [-> | [items [[Pos L] ->]]].
  - cbn. repeat split; try discriminate; try tauto; try lia. constructor.
  - cbv zeta.
    cbn [Vimeo.videos Vimeo.topVideos Vimeo.lowFinishRateVideos Vimeo.errors Vimeo.totals
         Vimeo.fetchedAt].
    set (validVideos := List.filter (fun v => negb (str_truthy (Vimeo.error v))) items).
    set (errorVideos := List.filter (fun v => str_truthy (Vimeo.error v)) items).
    pose proof (js_sort_perm (descending_by vimeo_plays) validVideos) as P.
    assert (length validVideos + length errorVideos = length items)%nat as Split.
    { subst validVideos errorVideos. clear. induction items as [| v l IH]; [reflexivity|].
      cbn [List.filter]. destruct (str_truthy (Vimeo.error v)); cbn [negb length]; lia. }
    split; [|split; [|split; [|split; [|split; [|split; [|split]]]]]].
    + rewrite (Permutation_length P).
      assert (length (default [] match errorVideos with
                                 | [] => None
                                 | _ :: _ =>
                                     Some (map (fun v => (Vimeo.title (Vimeo.i_video v),
                                                          Vimeo.error v)) errorVideos)
                                 end) = length errorVideos) as ->.
      { destruct errorVideos; [reflexivity|]. cbn [default from_option id].
        unfold id. rewrite length_map. reflexivity. }
      lia.
    + intros v Hv. apply (Permutation_in _ P) in Hv. apply In_filter in Hv.
      apply negb_true_iff, Hv.
    + intros C. apply js_sort_sorted. eapply Permutation_Forall; [exact P | exact C].
    + intros top T. injection T as <-. reflexivity.
    + intros low v Lw Hv. injection Lw as <-. apply In_filter in Hv.
      apply (Permutation_in _ (Permutation_sym P)), Hv.
    + destruct errorVideos; discriminate.
    + intros V E. exfalso.
      assert (validVideos = []) as Vn by (apply Permutation_nil; rewrite <- V; exact P).
      destruct errorVideos; [|discriminate E]. rewrite Vn in Split. cbn in Split. lia.
    + reflexivity.
Qed.

Lemma vimeo_result_shape_witness :
  match outcome sample_vimeo with
  | Ok d =>
      (length (Vimeo.videos d) + length (default [] (Vimeo.errors d)) <= 15)%nat
      /\ (forall v, In v (Vimeo.videos d) -> str_truthy (Vimeo.error v) = false)
      /\ (comparable vimeo_plays (Vimeo.videos d) ->
          StronglySorted (not_below vimeo_plays) (Vimeo.videos d))
      /\ (forall top, Vimeo.topVideos d = Some top -> top = slice0 5 (Vimeo.videos d))
      /\ (forall low v,
            Vimeo.lowFinishRateVideos d = Some low -> In v low -> In v (Vimeo.videos d))
      /\ Vimeo.errors d <> Some []
      /\ (Vimeo.videos d = [] -> Vimeo.errors d = None -> Vimeo.totals d = None)
      /\ Vimeo.fetchedAt d = "2026-11-02T06:00:05.000Z"
  | Threw _ => False
  end.
Proof.
  destruct (outcome sample_vimeo) as [d | e] eqn:E.
  - exact (vimeo_result_shape _ _ _ _ _ _ _ _ d E).
  - vm_compute in E. discriminate E.
Defined.

(** ** fetchers/meta.js *)

Lemma meta_result (parseFloat parseInt : string -> number) (daysAgo : Z -> string)
    (now : string) (env : gmap string string) (graph_api : endpoint Meta.payload)
    (d : Meta.meta_data) :
  outcome (Meta.fetchMetaData parseFloat parseInt daysAgo now env graph_api) = Ok d ->
  exists thisWeekAccount lastWeekAccount campaignsRes adsRes,
    let tw := Meta.parseInsight parseFloat parseInt (Meta.first_row thisWeekAccount) in
    let lw := Meta.parseInsight parseFloat parseInt (Meta.first_row lastWeekAccount) in
    Meta.thisWeek d = (tw, (daysAgo 7, daysAgo 1))
    /\ Meta.lastWeek d = (lw, (daysAgo 14, daysAgo 8))
    /\ Meta.campaigns d = Meta.parseCampaigns parseFloat parseInt campaignsRes
    /\ Meta.topAds d = slice0 10 (Meta.parseAds parseFloat parseInt adsRes)
    /\ Meta.weekOverWeek d =
       {| Meta.spendDelta := returned (Meta.pct (JNum (Meta.spend tw)) (JNum (Meta.spend lw)));
          Meta.impressionsDelta :=
            returned (Meta.pct (JNum (Meta.impressions tw)) (JNum (Meta.impressions lw)));
          Meta.ctrDelta := returned (Meta.pct (JNum (Meta.ctr tw)) (JNum (Meta.ctr lw)));
          Meta.cpmDelta := returned (Meta.pct (JNum (Meta.cpm tw)) (JNum (Meta.cpm lw)));
          Meta.leadsDelta := returned (Meta.pct (JNum (Meta.leads tw)) (JNum (Meta.leads lw)));
          Meta.costPerLeadDelta :=
            if truthy (Meta.costPerLead tw) && truthy (Meta.costPerLead lw)
            then returned (Meta.pct (Meta.costPerLead tw) (Meta.costPerLead lw))
            else JNull |}
    /\ Meta.fetchedAt d = now.
Proof.
  unfold Meta.fetchMetaData. intros H.
  apply ebind_ok in H. destruct H as [accountId [_ H]].
  apply ebind_ok in H. destruct H as [[tw lw] [_ H]].
  apply ebind_ok in H. destruct H as [campaignsRes [_ H]].
  apply ebind_ok in H. destruct H as [adsRes [_ H]].
  unfold outcome, resolve in H. cbn [fst] in H. injection H as <-.
  exists tw, lw, campaignsRes, adsRes. cbv zeta. repeat split.
Qed.

(** X13.  What [fetchMetaData] returns is consistent with itself: the two
    summaries carry the date ranges that were asked for, every delta of
    [weekOverWeek] is [pct] of the figures of [thisWeek] and [lastWeek] in
    the same result, and [costPerLeadDelta] is [null] unless both weeks
    have a non-zero cost per lead.  [campaigns] is in order of spend
    (largest first, when the spends are numbers), and [topAds] has at most
    ten ads. *)
Theorem meta_result_shape (parseFloat parseInt : string -> number) (daysAgo : Z -> string)
    (now : string) (env : gmap string string) (graph_api : endpoint Meta.payload)
    (d : Meta.meta_data) :
  outcome (Meta.fetchMetaData parseFloat parseInt daysAgo now env graph_api) = Ok d ->
  let tw := fst (Meta.thisWeek d) in
  let lw := fst (Meta.lastWeek d) in
  let wow := Meta.weekOverWeek d in
  snd (Meta.thisWeek d) = (daysAgo 7, daysAgo 1)
  /\ snd (Meta.lastWeek d) = (daysAgo 14, daysAgo 8)
  /\ Meta.spendDelta wow = returned (Meta.pct (JNum (Meta.spend tw)) (JNum (Meta.spend lw)))
  /\ Meta.impressionsDelta wow
     = returned (Meta.pct (JNum (Meta.impressions tw)) (JNum (Meta.impressions lw)))
  /\ Meta.ctrDelta wow = returned (Meta.pct (JNum (Meta.ctr tw)) (JNum (Meta.ctr lw)))
  /\ Meta.cpmDelta wow = returned (Meta.pct (JNum (Meta.cpm tw)) (JNum (Meta.cpm lw)))
  /\ Meta.leadsDelta wow = returned (Meta.pct (JNum (Meta.leads tw)) (JNum (Meta.leads lw)))
  /\ (truthy (Meta.costPerLead tw) = true -> truthy (Meta.costPerLead lw) = true ->
      Meta.costPerLeadDelta wow
      = returned (Meta.pct (Meta.costPerLead tw) (Meta.costPerLead lw)))
  /\ (truthy (Meta.costPerLead tw) = false \/ truthy (Meta.costPerLead lw) = false ->
      Meta.costPerLeadDelta wow = JNull)
  /\ (comparable meta_spend (Meta.campaigns d) ->
      StronglySorted (not_below meta_spend) (Meta.campaigns d))
  /\ (length (Meta.topAds d) <= 10)%nat
  /\ Meta.fetchedAt d = now.
Proof.
  intros H. destruct (meta_result _ _ _ _ _ _ _ H)
    as [twA [lwA [campaignsRes [adsRes [T [L [C [A [W F]]]]]]]]].
  cbv zeta in *. rewrite T, L, W, C, A. cbn [fst snd Meta.spendDelta Meta.impressionsDelta
    Meta.ctrDelta Meta.cpmDelta Meta.leadsDelta Meta.costPerLeadDelta].
  repeat (split; [reflexivity|]).
  split; [intros -> ->; reflexivity|].
  split; [intros [-> | ->]; [reflexivity | rewrite andb_false_r; reflexivity]|].
  split; [|split; [apply length_slice0 | exact F]].
  unfold Meta.parseCampaigns.
  change (fun a b : Meta.campaign =>
            num_sub (Meta.spend (Meta.c_insight b)) (Meta.spend (Meta.c_insight a)))
    with (descending_by meta_spend).
  intros Cm. apply js_sort_sorted.
  eapply Permutation_Forall; [apply js_sort_perm | exact Cm].
Qed.

Lemma meta_result_shape_witness :
  match outcome sample_meta with
  | Ok d =>
      Meta.spendDelta (Meta.weekOverWeek d)
      = returned (Meta.pct (JNum (Meta.spend (fst (Meta.thisWeek d))))
                           (JNum (Meta.spend (fst (Meta.lastWeek d)))))
      /\ Meta.costPerLeadDelta (Meta.weekOverWeek d) = JNull
  | Threw _ => False
  end.
Proof.
  destruct (outcome sample_meta) as [d | e] eqn:E.
  - pose proof (meta_result_shape _ _ _ _ _ _ d E) as M. cbv zeta in M.
    destruct M as [_ [_ [S [_ [_ [_ [_ [_ [N _]]]]]]]]].
    split; [exact S|]. apply N. left.
    vm_compute in E. injection E as <-. reflexivity.
  - vm_compute in E. discriminate E.
Defined.



Lemma find_value_first (pre post : list Meta.action) (t : string) (v : option string) :
  (forall a, In a pre -> Meta.action_type a <> t) ->
  Meta.find_value (pre ++ {| Meta.action_type := t; Meta.action_value := v |} :: post) t = v.
Proof.
  intros H. unfold Meta.find_value. induction pre as [| a pre IH]; cbn [app List.find].
  - cbn. rewrite String.eqb_refl. reflexivity.
  - assert (String.eqb (Meta.action_type a) t = false) as ->
      by (apply String.eqb_neq, H; left; reflexivity).
    apply IH. intros b Hb. apply H. right. exact Hb.
Qed.

Lemma find_value_none (actions : list Meta.action) (t : string) :
  (forall a, In a actions -> Meta.action_type a <> t) -> Meta.find_value actions t = None.
Proof.
  intros H. unfold Meta.find_value. induction actions as [| a l IH]; [reflexivity|].
  cbn [List.find].
  assert (String.eqb (Meta.action_type a) t = false) as ->
    by (apply String.eqb_neq, H; left; reflexivity).
  apply IH. intros b Hb. apply H. right. exact Hb.
Qed.



(** ** Objects made by [Object.fromEntries] *)

Lemma fold_insert_lookup_other {V} (entries : list (string * V)) (m : gmap string V)
    (name : string) :
  (forall e, In e entries -> fst e <> name) ->
  fold_left (fun m e => <[fst e := snd e]> m) entries m !! name = m !! name.
Proof.
  revert m. induction entries as [| e l IH]; intros m H; [reflexivity|].
  cbn [fold_left]. rewrite IH by (intros e' He'; apply H; right; exact He').
  apply lookup_insert_ne. apply H. left. reflexivity.
Qed.

Lemma fromEntries_lookup_last {V} (before after : list (string * V)) (name : string) (v : V) :
  (forall e, In e after -> fst e <> name) ->
  fromEntries (before ++ (name, v) :: after) !! name = Some v.
Proof.
  intros H. unfold fromEntries. rewrite fold_left_app. cbn [fold_left fst snd].
  rewrite fold_insert_lookup_other by exact H. apply lookup_insert_eq.
Qed.

Lemma fromEntries_lookup_none {V} (entries : list (string * V)) (name : string) :
  (forall e, In e entries -> fst e <> name) -> fromEntries entries !! name = None.
Proof.
  intros H. unfold fromEntries. rewrite fold_insert_lookup_other by exact H.
  apply lookup_empty.
Qed.

(** ** fetchers/gsc.js *)

Lemma round_over_10_finite (x : Q) :
  GscData.round_over_10 (Fin x) = fin (inject_Z (round_half_up x) / inject_Z 10).
Proof.
  unfold GscData.round_over_10, divide, returned, Math_round, num_of_Z, num_div,
    round_half_up.
  cbn [fst]. rewrite Qzero_b_false; [reflexivity|].
  intros H. unfold Qeq, inject_Z in H. cbn [Qnum Qden] in H. lia.
Qed.

Lemma parseRow_finite (cannot_read : string -> string) (row : GscData.raw_row)
    (ks : list string) (c p : Q) :
  GscData.keys row = Some ks ->
  GscData.r_ctr row = finite c -> GscData.r_position row = finite p ->
  GscData.parseRow cannot_read row =
  Ok {| GscData.key := head ks;
        GscData.clicks := GscData.r_clicks row;
        GscData.impressions := GscData.r_impressions row;
        GscData.ctr := fin (as_percent c);
        GscData.position := fin (one_decimal p) |}.
Proof.
  intros K C P. unfold GscData.parseRow. rewrite K, C, P. unfold finite.
  cbn [to_number]. unfold num_mul, num_of_Z, fin. rewrite !round_over_10_finite.
  unfold as_percent, one_decimal, round_half_up. f_equal. f_equal; apply fin_eq; unred.
Qed.

Lemma map_result_ok {A B} (f : A -> result B) (g : A -> B) (l : list A) :
  (forall x, In x l -> f x = Ok (g x)) -> map_result f l = Ok (map g l).
Proof.
  induction l as [| x l IH]; intros H; [reflexivity|].
  cbn [map_result map]. rewrite (H x) by (left; reflexivity).
  rewrite IH by (intros y Hy; apply H; right; exact Hy). reflexivity.
Qed.

Lemma map_result_length {A B} (f : A -> result B) (l : list A) (r : list B) :
  map_result f l = Ok r -> length r = length l.
Proof.
  revert r. induction l as [| x l IH]; intros r H.
  - injection H as <-. reflexivity.
  - cbn [map_result] in H. destruct (f x) as [y |]; [|discriminate H].
    destruct (map_result f l) as [ys |]; [|discriminate H].
    injection H as <-. cbn [length]. f_equal. apply IH. reflexivity.
Qed.

Lemma map_result_threw {A B} (f : A -> result B) (before after : list A) (x : A)
    (e : js_error) :
  (forall y, In y before -> exists b, f y = Ok b) -> f x = Threw e ->
  map_result f (before ++ x :: after) = Threw e.
Proof.
  intros H Hx. induction before as [| y l IH]; cbn [app map_result].
  - rewrite Hx. reflexivity.
  - destruct (H y (or_introl eq_refl)) as [b ->].
    rewrite IH by (intros z Hz; apply H; right; exact Hz). reflexivity.
Qed.


Lemma lastWeekMap_last (before after : list GscData.query) (lw : GscData.query)
    (name : string) :
  named name lw -> (forall x, In x after -> ~ named name x) ->
  GscData.lastWeekMap_of (before ++ lw :: after) !! name = Some lw.
Proof.
  intros N H. unfold GscData.lastWeekMap_of. rewrite map_app. cbn [map].
  unfold named in N. rewrite N. apply fromEntries_lookup_last.
  intros e He. apply in_map_iff in He. destruct He as [x [<- Hx]]. cbn [fst].
  apply (H x Hx).
Qed.

Lemma lastWeekMap_none (lws : list GscData.query) (name : string) :
  (forall x, In x lws -> ~ named name x) -> GscData.lastWeekMap_of lws !! name = None.
Proof.
  intros H. unfold GscData.lastWeekMap_of. apply fromEntries_lookup_none.
  intros e He. apply in_map_iff in He. destruct He as [x [<- Hx]]. cbn [fst].
  apply (H x Hx).
Qed.

Lemma inherited_name (name : string) :
  existsb (String.eqb name) Object_prototype = true <-> In name Object_prototype.
Proof.
  rewrite existsb_exists. split.
  - intros [x [Hx E]]. apply String.eqb_eq in E. subst x. exact Hx.
  - intros H. exists name. split; [exact H | apply String.eqb_refl].
Qed.

(** X17.  A query of this week is compared with the last row of the same key in
    last week's reply: [positionLastWeek] is that row's position,
    [positionDelta] is last week's position minus this week's with one
    decimal (positive when the query moved up), [clicksDelta] is this
    week's clicks minus last week's.  A query that last week's reply does
    not have, and whose text is not a name of [Object.prototype], gets
    [null] in all three. *)
Theorem gsc_week_over_week (lastWeekQueries : list GscData.query) (q : GscData.query) :
  let name := property_key (GscData.key q) in
  let annotated := GscData.with_delta (GscData.lastWeekMap_of lastWeekQueries) q in
  (forall before lw after,
      lastWeekQueries = before ++ lw :: after ->
      named name lw -> (forall x, In x after -> ~ named name x) ->
      GscData.q_query annotated = q
      /\ GscData.positionLastWeek annotated = JNum (GscData.position lw)
      /\ (forall pl pq,
            GscData.position lw = Fin pl -> GscData.position q = Fin pq ->
            GscData.positionDelta annotated = JNum (fin (one_decimal (pl - pq))))
      /\ GscData.clicksDelta annotated
         = JNum (num_sub (to_number (GscData.clicks q)) (to_number (GscData.clicks lw))))
  /\ ((forall x, In x lastWeekQueries -> ~ named name x) ->
      ~ In name Object_prototype ->
      annotated = {| GscData.q_query := q; GscData.positionLastWeek := JNull;
                     GscData.positionDelta := JNull; GscData.clicksDelta := JNull |}).
Proof.
  cbv zeta. unfold GscData.with_delta, get_property. split.
  - intros before lw after -> N H. rewrite (lastWeekMap_last before after lw _ N H).
    cbn [GscData.q_query GscData.positionLastWeek GscData.positionDelta GscData.clicksDelta].
    repeat split. intros pl pq -> ->.
    unfold num_sub, num_neg, num_add, num_mul, num_of_Z, fin.
    rewrite round_over_10_finite. f_equal. apply fin_eq.
    unfold one_decimal, round_half_up. unred.
  - intros H NI. rewrite (lastWeekMap_none _ _ H).
    destruct (existsb _ Object_prototype) eqn:E; [|reflexivity].
    apply inherited_name in E. contradiction.
Qed.

(** X18.  A query whose text is a name that every object inherits, such as
    "constructor" or "toString", and that last week's reply does not
    have, is looked up to the inherited member: [positionLastWeek] is
    [null], but [positionDelta] and [clicksDelta] are [NaN] instead of
    [null]; the query is counted neither as rising nor as falling. *)
Theorem gsc_inherited_names (lastWeekQueries : list GscData.query) (q : GscData.query) :
  let name := property_key (GscData.key q) in
  let annotated := GscData.with_delta (GscData.lastWeekMap_of lastWeekQueries) q in
  (forall x, In x lastWeekQueries -> ~ named name x) ->
  In name Object_prototype ->
  GscData.positionLastWeek annotated = JNull
  /\ GscData.positionDelta annotated = JNum NaN
  /\ GscData.clicksDelta annotated = JNum NaN
  /\ GscData.is_rising annotated = false
  /\ GscData.is_falling annotated = false.
Proof.
  cbv zeta. intros H I. unfold GscData.with_delta, get_property.
  rewrite (lastWeekMap_none _ _ H). apply inherited_name in I. rewrite I.
  unfold GscData.is_rising, GscData.is_falling.
  cbn [GscData.q_query GscData.positionLastWeek GscData.positionDelta GscData.clicksDelta].
  assert (forall x, num_sub x NaN = NaN) as S by (intros [| | |]; reflexivity).
  rewrite S. repeat split.
Qed.

Lemma gsc_inherited_names_witness :
  let annotated :=
    GscData.with_delta (GscData.lastWeekMap_of sample_last_week_queries)
      sample_constructor_query in
  GscData.positionLastWeek annotated = JNull
  /\ GscData.positionDelta annotated = JNum NaN
  /\ GscData.clicksDelta annotated = JNum NaN
  /\ GscData.is_rising annotated = false
  /\ GscData.is_falling annotated = false.
Proof.
  apply (gsc_inherited_names sample_last_week_queries sample_constructor_query).
  - intros x [<- | [<- | []]]; discriminate.
  - left. reflexivity.
Defined.

(** "marketing plan" stood at 8 and at 7.3 in last week's rows and stands
    at 4.2 now: it is compared with the later row, and has moved up 3.1
    places. *)
Lemma gsc_week_over_week_witness :
  let annotated :=
    GscData.with_delta (GscData.lastWeekMap_of sample_last_week_queries) sample_plan_query in
  GscData.positionLastWeek annotated = JNum (Fin (73 # 10))
  /\ GscData.positionDelta annotated = JNum (Fin (31 # 10))
  /\ GscData.clicksDelta annotated = JNum (Fin 15).
Proof.
  destruct (proj1 (gsc_week_over_week sample_last_week_queries sample_plan_query)
              [ {| GscData.key := Some "marketing plan"; GscData.clicks := JNum (Fin 10);
                   GscData.impressions := JNum (Fin 400); GscData.ctr := Fin (5 # 2);
                   GscData.position := Fin 8 |} ]
              {| GscData.key := Some "marketing plan"; GscData.clicks := JNum (Fin 25);
                 GscData.impressions := JNum (Fin 800); GscData.ctr := Fin (31 # 10);
                 GscData.position := Fin (73 # 10) |}
              [] eq_refl eq_refl (fun x H => match H with end))
    as [_ [P [D C]]].
  split; [exact P|]. split; [|exact C].
  exact (D (73 # 10) (21 # 5) eq_refl eq_refl).
Defined.

Lemma rising_not_falling (x : jsval) :
  js_gt x (JNum (Fin 2)) = true -> js_lt x (JNum (Fin (-2))) = true -> False.
Proof.
  unfold js_gt, js_lt, num_gt. cbn [to_number].
  destruct (to_number x) as [q | | |]; try discriminate.
  unfold num_lt. rewrite !negb_true_iff. intros A B.
  apply not_true_iff_false in A, B. rewrite Qle_bool_iff in A, B.
  assert (2 < q)%Q by lra. assert (q < -2)%Q by lra. lra.
Qed.

Lemma sorted_opportunities (qs : list GscData.query_delta) :
  StronglySorted (not_below gsc_impressions)
    (js_sort GscData.by_impressions (List.filter GscData.is_opportunity qs)).
Proof.
  change GscData.by_impressions with (descending_by gsc_impressions).
  apply js_sort_sorted. unfold comparable. rewrite Forall_forall. intros q Hq.
  apply list_elem_of_In, In_filter in Hq. destruct Hq as [_ O].
  unfold GscData.is_opportunity in O. rewrite !andb_true_iff in O.
  destruct O as [[I _] _]. unfold gsc_impressions. unfold js_gt, num_gt in I.
  intros N. rewrite N in I. discriminate I.
Qed.

Lemma gsc_build_result (cannot_read : string -> string)
    (thisWeekStart thisWeekEnd now : string)
    (queriesRes pagesRes lastWeekRes deviceRes : GscData.reply) (d : GscData.gsc_data) :
  GscData.build cannot_read thisWeekStart thisWeekEnd now queriesRes pagesRes lastWeekRes
    deviceRes = Ok d ->
  exists thisWeekQueries lastWeekQueries pgs devices,
    GscData.parseRows cannot_read (GscData.rows queriesRes) = Ok thisWeekQueries
    /\ GscData.parseRows cannot_read (GscData.rows lastWeekRes) = Ok lastWeekQueries
    /\ GscData.parseRows cannot_read (GscData.rows pagesRes) = Ok pgs
    /\ GscData.parseRows cannot_read (GscData.rows deviceRes) = Ok devices
    /\ let queriesWithDelta :=
         map (GscData.with_delta (GscData.lastWeekMap_of lastWeekQueries)) thisWeekQueries in
       d = {| GscData.thisWeek_startDate := thisWeekStart;
              GscData.thisWeek_endDate := thisWeekEnd;
              GscData.topQueries := slice0 25 queriesWithDelta;
              GscData.topPages := slice0 15 pgs;
              GscData.risingQueries :=
                slice0 10 (List.filter GscData.is_rising queriesWithDelta);
              GscData.fallingQueries :=
                slice0 10 (List.filter GscData.is_falling queriesWithDelta);
              GscData.opportunities :=
                slice0 10 (js_sort GscData.by_impressions
                             (List.filter GscData.is_opportunity queriesWithDelta));
              GscData.deviceBreakdown := devices;
              GscData.fetchedAt := now |}.
Proof.
  unfold GscData.build, and_then. intros H.
  destruct (GscData.parseRows cannot_read (GscData.rows queriesRes)) as [tw |];
    [|discriminate H].
  destruct (GscData.parseRows cannot_read (GscData.rows lastWeekRes)) as [lw |];
    [|discriminate H].
  destruct (GscData.parseRows cannot_read (GscData.rows pagesRes)) as [pgs |];
    [|discriminate H].
  destruct (GscData.parseRows cannot_read (GscData.rows deviceRes)) as [devices |];
    [|discriminate H].
  injection H as <-. exists tw, lw, pgs, devices. repeat split.
Qed.

(** X19.  What [fetchGSCData] returns.  The week it reports on runs from ten to
    three days ago.  [topQueries] has at most 25 queries, [topPages] at
    most 15 pages, and [risingQueries], [fallingQueries] and
    [opportunities] at most ten each.  A rising query has moved up by more
    than two places and a falling one down by more than two, so that no
    query is both.  Every opportunity has more than 50 impressions, a
    click-through rate below 3 and a position beyond 5, and the
    opportunities are in order of impressions, largest first. *)
Theorem gsc_result_shape {credentials : Type} (cannot_read : string -> string)
    (JSON_parse : string -> result credentials) (daysAgo : Z -> string)
    (env : gmap string string)
    (searchanalytics_query : credentials -> request -> result GscData.reply)
    (now : string) (d : GscData.gsc_data) :
  outcome (GscData.fetchGSCData cannot_read JSON_parse daysAgo env searchanalytics_query now)
  = Ok d ->
  GscData.thisWeek_startDate d = daysAgo 10
  /\ GscData.thisWeek_endDate d = daysAgo 3
  /\ (length (GscData.topQueries d) <= 25)%nat
  /\ (length (GscData.topPages d) <= 15)%nat
  /\ (length (GscData.risingQueries d) <= 10)%nat
  /\ (length (GscData.fallingQueries d) <= 10)%nat
  /\ (length (GscData.opportunities d) <= 10)%nat
  /\ (forall q, In q (GscData.risingQueries d) ->
        js_gt (GscData.positionDelta q) (JNum (Fin 2)) = true
        /\ ~ In q (GscData.fallingQueries d))
  /\ (forall q, In q (GscData.fallingQueries d) ->
        js_lt (GscData.positionDelta q) (JNum (Fin (-2))) = true)
  /\ (forall q, In q (GscData.opportunities d) ->
        js_gt (GscData.impressions (GscData.q_query q)) (JNum (Fin 50)) = true
        /\ num_lt (GscData.ctr (GscData.q_query q)) (Fin 3) = true
        /\ num_gt (GscData.position (GscData.q_query q)) (Fin 5) = true)
  /\ StronglySorted (not_below gsc_impressions) (GscData.opportunities d)
  /\ GscData.fetchedAt d = now.
Proof.
  unfold GscData.fetchGSCData, Gsc.fetchGSCData. intros H.
  apply ebind_ok in H. destruct H as [siteUrl [_ H]].
  apply ebind_ok in H. destruct H as [auth [_ H]].
  apply ebind_ok in H. destruct H as [queriesRes [_ H]].
  apply ebind_ok in H. destruct H as [pagesRes [_ H]].
  apply ebind_ok in H. destruct H as [lastWeekRes [_ H]].
  apply ebind_ok in H. destruct H as [deviceRes [_ H]].
  unfold outcome, lift in H. cbn [fst] in H.
  destruct (gsc_build_result _ _ _ _ _ _ _ _ _ H) as [tw [lw [pgs [devices [_ [_ [_ [_ D]]]]]]]].
  cbv zeta in D. rewrite D.
  cbn [GscData.thisWeek_startDate GscData.thisWeek_endDate GscData.topQueries
       GscData.topPages GscData.risingQueries GscData.fallingQueries GscData.opportunities
       GscData.fetchedAt].
  split; [reflexivity|]. split; [reflexivity|].
  do 5 (split; [apply length_slice0|]).
  split; [|split; [|split; [|split; [|reflexivity]]]].
  - intros q Hq. apply In_slice0, In_filter in Hq. destruct Hq as [_ R].
    split; [exact R|]. intros Hf. apply In_slice0, In_filter in Hf. destruct Hf as [_ F].
    exact (rising_not_falling _ R F).
  - intros q Hq. apply In_slice0, In_filter in Hq. apply Hq.
  - intros q Hq. apply In_slice0, In_js_sort, In_filter in Hq. destruct Hq as [_ O].
    unfold GscData.is_opportunity in O. rewrite !andb_true_iff in O. tauto.
  - apply sorted_slice0, sorted_opportunities.
Qed.

Lemma gsc_result_shape_witness :
  match outcome sample_gsc with
  | Ok d =>
      GscData.thisWeek_startDate d = "2026-10-23"
      /\ GscData.thisWeek_endDate d = "2026-10-30"
      /\ StronglySorted (not_below gsc_impressions) (GscData.opportunities d)
  | Threw _ => False
  end.
Proof.
  destruct (outcome sample_gsc) as [d | e] eqn:E.
  - pose proof (gsc_result_shape _ _ _ _ _ _ d E) as [S [En [_ [_ [_ [_ [_ [_ [_ [_ [So _]]]]]]]]]]].
    split; [exact S|]. split; [exact En | exact So].
  - vm_compute in E. discriminate E.
Defined.

(** In the sample run "marketing plan" is the one rising query and
    "constructor" the one opportunity. *)
Example gsc_sample_run :
  match outcome sample_gsc with
  | Ok d =>
      map (fun q => GscData.key (GscData.q_query q)) (GscData.risingQueries d)
      = [Some "marketing plan"]
      /\ map (fun q => (GscData.key (GscData.q_query q), GscData.positionDelta q))
             (GscData.opportunities d)
         = [(Some "constructor", JNum NaN)]
      /\ map (fun q => GscData.positionDelta q) (GscData.topQueries d)
         = [JNum (Fin (31 # 10)); JNum NaN]
  | Threw _ => False
  end.
Proof. vm_compute. repeat split. Qed.

Lemma events_ebind_Forall {E A B} (P : E -> Prop) (m : Eff E A) (k : A -> Eff E B) :
  Forall P (events m) -> (forall a, Forall P (events (k a))) ->
  Forall P (events (ebind m k)).
Proof.
  intros Hm Hk. rewrite ebind_events. destruct (outcome m) as [a | e]; [|exact Hm].
  apply Forall_app. split; [exact Hm | apply Hk].
Qed.

(** ** fetchers/youtube.js *)

Lemma fold_insert_lookup_In {V} (entries : list (string * V)) (m : gmap string V)
    (name : string) (v : V) :
  fold_left (fun m e => <[fst e := snd e]> m) entries m !! name = Some v ->
  In (name, v) entries \/ m !! name = Some v.
Proof.
  revert m. induction entries as [| [k x] l IH]; intros m H; [right; exact H|].
  cbn [fold_left fst snd] in H. destruct (IH _ H) as [I | L].
  - left. right. exact I.
  - destruct (decide (k = name)) as [-> | N].
    + rewrite lookup_insert_eq in L. injection L as ->. left. left. reflexivity.
    + rewrite lookup_insert_ne in L by exact N. right. exact L.
Qed.

Lemma fromEntries_lookup_In {V} (entries : list (string * V)) (name : string) (v : V) :
  fromEntries entries !! name = Some v -> In (name, v) entries.
Proof.
  intros H. destruct (fold_insert_lookup_In _ _ _ _ H) as [I | L]; [exact I|].
  rewrite lookup_empty in L. discriminate L.
Qed.

Lemma channel_metric_cell (res : YoutubeData.report) (name : string) (v : jsval) :
  YoutubeData.parseChannelMetrics res !! name = Some v ->
  exists i,
    v = YoutubeData.cell match YoutubeData.rows res with
                         | Some (r :: _) => r
                         | _ => []
                         end i.
Proof.
  unfold YoutubeData.parseChannelMetrics. intros H. apply fromEntries_lookup_In in H.
  apply list_elem_of_In, elem_of_lookup_imap in H. destruct H as [i [h [E _]]].
  exists i. injection E as _ ->. reflexivity.
Qed.

Lemma cell_not_nullish (row : list jsval) (i : nat) :
  YoutubeData.cell row i <> JUndefined /\ YoutubeData.cell row i <> JNull.
Proof. unfold YoutubeData.cell. destruct (nth i row JUndefined); split; discriminate. Qed.

Lemma pct_of_nothing (current previous : jsval) :
  previous = JNum (Fin 0) \/ previous = JUndefined ->
  returned (Youtube.pct current previous) = JNull.
Proof. intros [-> | ->]; reflexivity. Qed.

(** X20.  The metrics of a channel report.  A metric the report has a header for
    is never [null] or [undefined]: a missing cell reads as 0.  The header
    at position [i] names the value of cell [i] of the first row (the last
    header of a name wins).  When the report has no row every metric it
    names is 0; the three week-over-week deltas against such a report are
    [null]. *)
Theorem youtube_channel_metrics (res : YoutubeData.report) :
  let metrics := YoutubeData.parseChannelMetrics res in
  (forall name v, metrics !! name = Some v -> v <> JUndefined /\ v <> JNull)
  /\ (forall before h after row others,
        YoutubeData.columnHeaders res = Some (before ++ Some h :: after) ->
        (forall x, In x after -> property_key x <> h) ->
        YoutubeData.rows res = Some (row :: others) ->
        YoutubeData.metric metrics h = YoutubeData.cell row (length before))
  /\ (YoutubeData.rows res = None \/ YoutubeData.rows res = Some [] ->
      (forall name v, metrics !! name = Some v -> v = JNum (Fin 0))
      /\ forall thisWeek,
           let wow := YoutubeData.weekOverWeek_of thisWeek metrics in
           YoutubeData.viewsDelta wow = JNull
           /\ YoutubeData.watchTimeDelta wow = JNull
           /\ YoutubeData.avgDurationDelta wow = JNull).
Proof.
  cbv zeta. split; [|split].
  - intros name v H. destruct (channel_metric_cell _ _ _ H) as [i ->].
    apply cell_not_nullish.
  - intros before h after row others Hh Ha Hr.
    unfold YoutubeData.metric, YoutubeData.parseChannelMetrics. rewrite Hh, Hr.
    cbn [default from_option id]. unfold id.
    rewrite imap_app, imap_cons. cbn [property_key default from_option id]. unfold id.
    rewrite fromEntries_lookup_last.
    + cbn [default from_option id]. unfold id. rewrite Nat.add_0_r. reflexivity.
    + intros e He. apply list_elem_of_In, elem_of_lookup_imap in He.
      destruct He as [i [x [-> Hx]]]. cbn [fst]. apply Ha.
      apply list_elem_of_In. eapply list_elem_of_lookup_2. exact Hx.
  - intros Empty.
    assert (forall name v,
              YoutubeData.parseChannelMetrics res !! name = Some v -> v = JNum (Fin 0)) as Z.
    { intros name v H. destruct (channel_metric_cell _ _ _ H) as [i ->].
      assert (match YoutubeData.rows res with Some (r :: _) => r | _ => [] end = []) as ->
        by (destruct Empty as [-> | ->]; reflexivity).
      unfold YoutubeData.cell. destruct i; reflexivity. }
    split; [exact Z|]. intros thisWeek. unfold YoutubeData.weekOverWeek_of.
    cbn [YoutubeData.viewsDelta YoutubeData.watchTimeDelta YoutubeData.avgDurationDelta].
    assert (forall name,
              YoutubeData.metric (YoutubeData.parseChannelMetrics res) name = JNum (Fin 0)
              \/ YoutubeData.metric (YoutubeData.parseChannelMetrics res) name = JUndefined)
      as M.
    { intros name. unfold YoutubeData.metric.
      destruct (YoutubeData.parseChannelMetrics res !! name) as [v |] eqn:L.
      - left. cbn. apply (Z name v L).
      - right. reflexivity. }
    repeat split; apply pct_of_nothing, M.
Qed.

(** In the sample report the fifth metric has no cell and reads as 0; and
    against a report without rows the deltas are [null]. *)
Lemma youtube_channel_metrics_witness :
  YoutubeData.metric (YoutubeData.parseChannelMetrics sample_channel_report)
    "subscribersLost" = JNum (Fin 0)
  /\ YoutubeData.metric (YoutubeData.parseChannelMetrics sample_channel_report) "views"
     = JNum (Fin 5200)
  /\ YoutubeData.viewsDelta
       (YoutubeData.weekOverWeek_of (YoutubeData.parseChannelMetrics sample_channel_report)
          (YoutubeData.parseChannelMetrics empty_channel_report)) = JNull.
Proof.
  split; [|split].
  - exact (proj1 (proj2 (youtube_channel_metrics sample_channel_report))
             [Some "views"; Some "estimatedMinutesWatched"; Some "averageViewDuration";
              Some "subscribersGained"] "subscribersLost" [] _ []
             eq_refl (fun x H => match H with end) eq_refl).
  - refine (proj1 (proj2 (youtube_channel_metrics sample_channel_report))
              [] "views" _ _ [] eq_refl _ eq_refl).
    intros x H. repeat (destruct H as [<- | H]; [discriminate|]). destruct H.
  - exact (proj1 (proj2 (proj2 (proj2 (youtube_channel_metrics empty_channel_report))
                          (or_introl eq_refl)) _)).
Defined.


(** ** fetchers/vimeo.js: the engagement heatmap *)

Lemma num_lt_trans (a b c : number) :
  num_lt a b = true -> num_lt b c = true -> num_lt a c = true.
Proof.
  destruct a as [x | | |], b as [y | | |], c as [z | | |];
    try reflexivity; try discriminate.
  unfold num_lt. rewrite !negb_true_iff. intros A B.
  apply not_true_iff_false in A, B. rewrite Qle_bool_iff in A, B.
  apply not_true_iff_false. rewrite Qle_bool_iff. lra.
Qed.

Lemma num_not_lt_lt (a b c : number) :
  a <> NaN -> b <> NaN -> num_lt b a = false -> num_lt b c = true -> num_lt a c = true.
Proof.
  intros Na Nb.
  destruct a as [x | | |], b as [y | | |], c as [z | | |];
    try congruence; try reflexivity; try discriminate.
  unfold num_lt. rewrite negb_false_iff, !negb_true_iff, Qle_bool_iff. intros A B.
  apply not_true_iff_false in B. rewrite Qle_bool_iff in B.
  apply not_true_iff_false. rewrite Qle_bool_iff. lra.
Qed.

Lemma positive_not_NaN (x : number) : num_gt x (Fin 0) = true -> x <> NaN.
Proof. intros H ->. discriminate H. Qed.

Lemma positive_truthy (x : number) : num_gt x (Fin 0) = true -> truthy (JNum x) = true.
Proof.
  destruct x as [q | | |]; try reflexivity; try discriminate.
  unfold num_gt, num_lt. cbn [truthy]. rewrite negb_true_iff. intros H.
  apply negb_true_iff. unfold Qzero_b. apply not_true_iff_false. intros E.
  apply Qeq_bool_iff in E. apply not_true_iff_false in H. apply H.
  apply Qle_bool_iff. rewrite E. lra.
Qed.

(** One turn of the loop of the biggest drop, on a drop and the start of
    the segment it leads to. *)
Lemma scan_as_fold (previous : VimeoEngagement.segment_t)
    (rest : list VimeoEngagement.segment_t) (state : jsval * jsval) :
  VimeoEngagement.scan previous rest state =
  fold_left (fun st x =>
               if negb (truthy (fst st)) || js_gt (JNum (fst x)) (fst st)
               then (JNum (fst x), snd x) else st)
            (drops_of (previous :: rest)) state.
Proof.
  revert previous state. induction rest as [| current rest IH]; intros previous state.
  - reflexivity.
  - cbn [VimeoEngagement.scan]. rewrite IH. reflexivity.
Qed.

Lemma first_largest (ds : list (number * jsval)) (b : number) (a : jsval) :
  num_gt b (Fin 0) = true ->
  (forall x, In x ds -> num_gt (fst x) (Fin 0) = true) ->
  let result := fold_left (fun st x =>
                             if negb (truthy (fst st)) || js_gt (JNum (fst x)) (fst st)
                             then (JNum (fst x), snd x) else st)
                          ds (JNum b, a) in
  (result = (JNum b, a) /\ forall x, In x ds -> num_lt b (fst x) = false)
  \/ exists before d at_ after,
       ds = before ++ (d, at_) :: after
       /\ result = (JNum d, at_)
       /\ num_lt b d = true
       /\ (forall x, In x before -> num_lt (fst x) d = true)
       /\ (forall x, In x after -> num_lt d (fst x) = false).
Proof.
  cbv zeta. revert b a. induction ds as [| [d1 a1] ds IH]; intros b a Pb Pds.
  - left. split; [reflexivity | intros x []].
  - cbn [fold_left fst snd]. rewrite (positive_truthy b Pb). cbn [negb orb].
    unfold js_gt, num_gt. cbn [to_number].
    assert (num_gt d1 (Fin 0) = true) as Pd1 by (apply (Pds (d1, a1)); left; reflexivity).
    assert (forall x, In x ds -> num_gt (fst x) (Fin 0) = true) as Pds'
      by (intros x Hx; apply Pds; right; exact Hx).
    destruct (num_lt b d1) eqn:L.
    + right. destruct (IH d1 a1 Pd1 Pds') as [[R A] | [before [d [at_ [after [E [R [Ld [B A]]]]]]]]].
      * exists [], d1, a1, ds. split; [reflexivity|]. split; [exact R|].
        split; [exact L|]. split; [intros x [] | exact A].
      * exists ((d1, a1) :: before), d, at_, after.
        split; [rewrite E; reflexivity|]. split; [exact R|].
        split; [exact (num_lt_trans _ _ _ L Ld)|]. split; [|exact A].
        intros x [<- | Hx]; [exact Ld | apply B, Hx].
    + destruct (IH b a Pb Pds') as [[R A] | [before [d [at_ [after [E [R [Ld [B A]]]]]]]]].
      * left. split; [exact R|]. intros x [<- | Hx]; [exact L | apply A, Hx].
      * right. exists ((d1, a1) :: before), d, at_, after.
        split; [rewrite E; reflexivity|]. split; [exact R|].
        split; [exact Ld|]. split; [|exact A].
        intros x [<- | Hx]; [|apply B, Hx]. cbn [fst].
        apply (num_not_lt_lt d1 b d); try assumption; apply positive_not_NaN; assumption.
Qed.

(** X22.  When the retention falls from every segment to the next, the biggest
    drop reported is the largest of the drops between neighbouring
    segments, at the first place where it occurs: [biggestDropSeconds] is
    the start of the segment it leads to, and [biggestDropPct] the drop as a
    percentage with one decimal. *)
Theorem engagement_biggest_drop (res : VimeoEngagement.reply) (durationSeconds : jsval)
    (segments : list VimeoEngagement.segment_t) :
  VimeoEngagement.data res = Some segments ->
  truthy durationSeconds = true ->
  drops_of segments <> [] ->
  (forall x, In x (drops_of segments) -> num_gt (fst x) (Fin 0) = true) ->
  exists e before d at_ after,
    VimeoEngagement.parseEngagement res durationSeconds = Some e
    /\ drops_of segments = before ++ (d, at_) :: after
    /\ (forall x, In x before -> num_lt (fst x) d = true)
    /\ (forall x, In x after -> num_lt d (fst x) = false)
    /\ VimeoEngagement.biggestDropSeconds e = at_
    /\ VimeoEngagement.biggestDropPct e = vimeo_percent d.
Proof.
  intros D T NE Pos. unfold VimeoEngagement.parseEngagement. rewrite D, T.
  cbn [default from_option id negb]. unfold id.
  destruct segments as [| s0 rest]; [contradiction NE; reflexivity|].
  unfold VimeoEngagement.biggest_drop. rewrite scan_as_fold.
  destruct (drops_of (s0 :: rest)) as [| [d1 a1] ds] eqn:Ds; [contradiction NE; reflexivity|].
  cbn [fold_left fst snd truthy negb orb].
  assert (num_gt d1 (Fin 0) = true) as Pd1 by (apply (Pos (d1, a1)); left; reflexivity).
  assert (forall x, In x ds -> num_gt (fst x) (Fin 0) = true) as Pds
    by (intros x Hx; apply Pos; right; exact Hx).
  destruct (first_largest ds d1 a1 Pd1 Pds)
    as [[R A] | [before [d [at_ [after [E [R [Ld [B A]]]]]]]]]; cbv zeta in R; rewrite R.
  - eexists. exists [], d1, a1, ds. split; [reflexivity|].
    split; [reflexivity|]. split; [intros x []|]. split; [exact A|].
    cbn [VimeoEngagement.biggestDropSeconds VimeoEngagement.biggestDropPct].
    rewrite (positive_truthy d1 Pd1). split; reflexivity.
  - assert (num_gt d (Fin 0) = true) as Pd.
    { apply (Pds (d, at_)). rewrite E. apply in_or_app. right. left. reflexivity. }
    eexists. exists ((d1, a1) :: before), d, at_, after. split; [reflexivity|].
    split; [rewrite E; reflexivity|].
    split; [intros x [<- | Hx]; [exact Ld | apply B, Hx]|]. split; [exact A|].
    cbn [VimeoEngagement.biggestDropSeconds VimeoEngagement.biggestDropPct].
    rewrite (positive_truthy d Pd). split; reflexivity.
Qed.

Lemma engagement_biggest_drop_witness :
  exists e before d at_ after,
    VimeoEngagement.parseEngagement sample_engagement (JNum (Fin 300)) = Some e
    /\ drops_of [ sample_segment 0 74 1; sample_segment 75 149 (4 # 5);
                  sample_segment 150 224 (1 # 2); sample_segment 225 300 (9 # 20) ]
       = before ++ (d, at_) :: after
    /\ (forall x, In x before -> num_lt (fst x) d = true)
    /\ (forall x, In x after -> num_lt d (fst x) = false)
    /\ VimeoEngagement.biggestDropSeconds e = at_
    /\ VimeoEngagement.biggestDropPct e = vimeo_percent d.
Proof.
  apply (engagement_biggest_drop sample_engagement (JNum (Fin 300)) _ eq_refl eq_refl).
  - vm_compute. discriminate.
  - intros x Hx. vm_compute in Hx. destruct Hx as [<- | [<- | [<- | []]]]; reflexivity.
Defined.

(** In the sample heatmap the retention falls by 0.2, 0.3 and 0.05: the
    biggest drop is 30 percent, at second 150.  The retention at the four
    milestones is that of the segments holding seconds 75, 150, 225 and
    270. *)
Example engagement_sample :
  VimeoEngagement.parseEngagement sample_engagement (JNum (Fin 300))
  = Some {| VimeoEngagement.pct25 := JNum (Fin 80); VimeoEngagement.pct50 := JNum (Fin 50);
            VimeoEngagement.pct75 := JNum (Fin 45); VimeoEngagement.pct90 := JNum (Fin 45);
            VimeoEngagement.biggestDropSeconds := JNum (Fin 150);
            VimeoEngagement.biggestDropPct := JNum (Fin 30) |}.
Proof. vm_compute. reflexivity. Qed.

(** Without the hypothesis of [engagement_biggest_drop] the loop does not
    keep the largest drop: a drop of 0 counts as none, so that after a flat
    stretch a rise of 0.1 is reported as the biggest drop, of -10 percent. *)
Example engagement_after_a_flat_stretch :
  option_map (fun e => (VimeoEngagement.biggestDropSeconds e, VimeoEngagement.biggestDropPct e))
    (VimeoEngagement.parseEngagement rising_engagement (JNum (Fin 300)))
  = Some (JNum (Fin 200), JNum (Fin (-10))).
Proof. vm_compute. reflexivity. Qed.

Lemma find_first {A} (f : A -> bool) (before after : list A) (x : A) :
  (forall y, In y before -> f y = false) -> f x = true ->
  List.find f (before ++ x :: after) = Some x.
Proof.
  intros H Hx. induction before as [| y l IH]; cbn [app List.find].
  - rewrite Hx. reflexivity.
  - rewrite (H y (or_introl eq_refl)). apply IH. intros z Hz. apply H. right. exact Hz.
Qed.

Lemma find_nothing {A} (f : A -> bool) (l : list A) :
  (forall y, In y l -> f y = false) -> List.find f l = None.
Proof.
  intros H. induction l as [| y l IH]; [reflexivity|]. cbn [List.find].
  rewrite (H y (or_introl eq_refl)). apply IH. intros z Hz. apply H. right. exact Hz.
Qed.

Lemma covers_finite (t a b : Q) (s : VimeoEngagement.segment_t) :
  VimeoEngagement.segment s
  = Some {| VimeoEngagement.start_time := finite a; VimeoEngagement.end_time := finite b |} ->
  VimeoEngagement.covers (Fin t) s = true <-> (a <= t /\ t <= b)%Q.
Proof.
  intros H. unfold VimeoEngagement.covers. rewrite H.
  unfold finite, num_ge, num_le, num_lt.
  cbn [VimeoEngagement.start_time VimeoEngagement.end_time to_number].
  rewrite andb_true_iff, !negb_involutive, !Qle_bool_iff. reflexivity.
Qed.

(** X23.  [parseEngagement] gives [null] exactly when the reply has no segment
    or the duration is missing or zero.  Otherwise each of the four
    milestones is filled from the first segment that holds the second the
    milestone falls on (the duration times the milestone, rounded down),
    with that segment's retention as a percentage with one decimal, and
    with [null] when no segment holds it; a segment holds a second when it
    starts at or before it and ends at or after it.  With a single segment
    there is no drop to report. *)
Theorem engagement_milestones (res : VimeoEngagement.reply) (durationSeconds : jsval) :
  let segments := default [] (VimeoEngagement.data res) in
  (VimeoEngagement.parseEngagement res durationSeconds = None <->
   segments = [] \/ truthy durationSeconds = false)
  /\ (forall e,
        VimeoEngagement.parseEngagement res durationSeconds = Some e ->
        (forall milestone field,
            In (milestone, field) milestones ->
            let second := milestone_second durationSeconds milestone in
            ((forall s, In s segments -> VimeoEngagement.covers second s = false) ->
             field e = JNull)
            /\ (forall before s after,
                  segments = before ++ s :: after ->
                  (forall x, In x before -> VimeoEngagement.covers second x = false) ->
                  VimeoEngagement.covers second s = true ->
                  field e = vimeo_percent (to_number (VimeoEngagement.retention s))))
        /\ (length segments = 1%nat ->
            VimeoEngagement.biggestDropSeconds e = JNull
            /\ VimeoEngagement.biggestDropPct e = JNull))
  /\ (forall t a b s,
        VimeoEngagement.segment s
        = Some {| VimeoEngagement.start_time := finite a;
                  VimeoEngagement.end_time := finite b |} ->
        VimeoEngagement.covers (Fin t) s = true <-> (a <= t /\ t <= b)%Q).
Proof.
  cbv zeta. unfold VimeoEngagement.parseEngagement.
  split; [|split; [|apply covers_finite]].
  - destruct (default [] (VimeoEngagement.data res)) as [| s0 rest].
    + split; [intros _; left; reflexivity | reflexivity].
    + destruct (truthy durationSeconds); cbn [negb].
      * destruct (VimeoEngagement.biggest_drop (s0 :: rest)).
        split; [discriminate | intros [H | H]; discriminate H].
      * split; [intros _; right; reflexivity | reflexivity].
  - intros e. destruct (default [] (VimeoEngagement.data res)) as [| s0 rest] eqn:Segs;
      [discriminate|].
    destruct (truthy durationSeconds); cbn [negb]; [|discriminate].
    destruct (VimeoEngagement.biggest_drop (s0 :: rest)) as [biggestDrop biggestDropAt] eqn:B.
    intros H. injection H as <-. split.
    + intros milestone field Hm. unfold milestone_second, vimeo_percent.
      unfold milestones in Hm.
      destruct Hm as [Hm | [Hm | [Hm | [Hm | []]]]]; injection Hm as <- <-;
        cbn [VimeoEngagement.pct25 VimeoEngagement.pct50 VimeoEngagement.pct75
             VimeoEngagement.pct90];
        (split;
         [ intros None_; unfold VimeoEngagement.retention_at;
           rewrite (find_nothing _ _ None_); reflexivity
         | intros before s after -> Bf Cs; unfold VimeoEngagement.retention_at;
           rewrite (find_first _ before after s Bf Cs); reflexivity ]).
    + intros L. destruct rest; [|discriminate L]. cbn in B. injection B as <- <-.
      split; reflexivity.
Qed.

(** ** scripts/generate-report.js: the order of a run *)

Section ReportRuns.
Variable JSON_stringify : value -> string.
Variable JSON_parse : string -> option value.
Variable syntax_error_message : string -> string.
Variable strip_fences : string -> string.
Variable trim : string -> string.
Variable PROMPT_INSTRUCTIONS : string.
Variable create : Report.create_params -> result Report.api_message.
Variable clock_weekOf : string.
Variable clock_generatedAt : string.
Variable existsSync : string -> bool.
Variable mkdirSync : string -> result unit.
Variable writeFileSync : string -> string -> result unit.

Local Abbreviation main :=
  (Report.main JSON_stringify JSON_parse syntax_error_message strip_fences trim
     PROMPT_INSTRUCTIONS create clock_weekOf clock_generatedAt existsSync mkdirSync
     writeFileSync).
Local Abbreviation analyse :=
  (Report.analyse JSON_stringify JSON_parse syntax_error_message strip_fences trim
     PROMPT_INSTRUCTIONS create).
Local Abbreviation finish :=
  (Report.finish JSON_stringify clock_weekOf clock_generatedAt existsSync mkdirSync
     writeFileSync).
Local Abbreviation persist :=
  (Report.persist JSON_stringify existsSync mkdirSync writeFileSync).
Local Abbreviation enrich := (Report.enrich clock_weekOf clock_generatedAt).
Local Abbreviation prompt_of := (Report.buildPrompt JSON_stringify PROMPT_INSTRUCTIONS).
Local Abbreviation retry_result := (retry_outcome JSON_parse syntax_error_message trim).

Lemma gather_requests (f : Report.fetchers) :
  events (Report.gather f) = map Report.Vendor (requests_of f).
Proof.
  unfold Report.gather, events, ebind, Report.Promise_allSettled, Report.vendor_events,
    requests_of.
  cbn. rewrite !map_app, !app_nil_r. reflexivity.
Qed.

Lemma persist_steps (v : value) :
  file_steps (events (persist v))
  /\ (existsSync Report.OUTPUT_DIR = true ->
      ~ In (Report.Mkdir Report.OUTPUT_DIR) (events (persist v)))
  /\ (outcome (persist v) = Ok tt <-> ends_with_the_write (events (persist v)))
  /\ (forall e, existsSync Report.OUTPUT_DIR = false ->
                mkdirSync Report.OUTPUT_DIR = Threw e -> persist v = (Threw e, [])).
Proof.
  unfold file_steps, ends_with_the_write, Report.persist, outcome, events, ebind, emit,
    throw, resolve.
  destruct (existsSync Report.OUTPUT_DIR); cbn [negb fst snd];
    [| destruct (mkdirSync Report.OUTPUT_DIR) as [[] | e0]; cbn [fst snd] ];
    try (destruct (writeFileSync Report.OUTPUT_PATH (JSON_stringify v)) as [[] | e1]);
    cbn [fst snd app last];
    (split; [eauto 6|]); (split; [intros X H; try discriminate X; cbn in H; intuition discriminate|]);
    (split; [split; [try discriminate; eauto | intros [text H]; cbn in H;
                                                try discriminate H; reflexivity]|]);
    intros e; try discriminate; intros _ E; try discriminate E.
  all: injection E as ->; reflexivity.
Qed.

Lemma finish_steps (data doc : value) :
  file_steps (events (finish data doc))
  /\ (existsSync Report.OUTPUT_DIR = true ->
      ~ In (Report.Mkdir Report.OUTPUT_DIR) (events (finish data doc)))
  /\ (outcome (finish data doc) = Ok tt <-> ends_with_the_write (events (finish data doc))).
Proof.
  destruct (enrich data doc) as [enriched | e] eqn:E.
  - destruct (finish_enriched JSON_stringify _ _ existsSync mkdirSync writeFileSync _ _ _ E)
      as [-> ->].
    destruct (persist_steps enriched) as [A [B [C _]]]. repeat split; try apply C; assumption.
  - rewrite (finish_refused JSON_stringify _ _ existsSync mkdirSync writeFileSync _ _ _ E).
    unfold file_steps, ends_with_the_write, outcome, events. cbn [fst snd].
    split; [left; reflexivity|]. split; [intros _ []|].
    split; [discriminate | intros [text H]; discriminate H].
Qed.


(** X25.  A reply of the generator without a first text block (no content block
    at all, or a first block that has no [text]) makes step 2 fail with a
    [TypeError]: this is not retried, the run ends with exit code 1 after
    its single call and writes nothing. *)
Theorem reply_without_text (f : Report.fetchers) (m : Report.api_message) :
  create (request_of (first_conversation (prompt_of (snapshot f)))) = Ok m ->
  head (Report.content_text m) = None \/ head (Report.content_text m) = Some None ->
  Report.api_calls (main f) = [request_of (first_conversation (prompt_of (snapshot f)))]
  /\ outcome (main f) = Threw TypeError_
  /\ Report.exit_code (main f) = 1
  /\ Report.files_written (main f) = [].
Proof.
  intros C T.
  assert (analyse (snapshot f)
          = (Threw TypeError_,
             [Report.ApiCall (request_of (first_conversation (prompt_of (snapshot f))))]))
    as A.
  { unfold Report.analyse, Report.try_step, Report.messages_create.
    cbn [fst snd]. fold (first_conversation (prompt_of (snapshot f))).
    fold (request_of (first_conversation (prompt_of (snapshot f)))).
    rewrite C. unfold Report.first_text.
    destruct (Report.content_text m) as [| [raw |] rest]; cbn [head] in T.
    - cbn [lift fst snd].
      rewrite (on_failure_other JSON_stringify JSON_parse syntax_error_message trim
                 PROMPT_INSTRUCTIONS create) by discriminate.
      reflexivity.
    - destruct T as [T | T]; discriminate T.
    - unfold ebind, lift. cbn [fst snd Report.on_string].
      rewrite (on_failure_other JSON_stringify JSON_parse syntax_error_message trim
                 PROMPT_INSTRUCTIONS create) by discriminate.
      reflexivity. }
  split.
  - apply main_api_calls. rewrite A. reflexivity.
  - unfold Report.exit_code. rewrite main_outcome, main_files. rewrite A.
    repeat split.
Qed.


End ReportRuns.

Lemma reply_without_text_witness :
  Report.api_calls (sample_main generator_without_text)
  = [request_of (first_conversation
                   (Report.buildPrompt sample_stringify
                      "You are a senior marketing strategist." (snapshot sample_fetchers)))]
  /\ outcome (sample_main generator_without_text) = Threw TypeError_
  /\ Report.exit_code (sample_main generator_without_text) = 1
  /\ Report.files_written (sample_main generator_without_text) = [].
Proof.
  exact (reply_without_text sample_stringify sample_parse (fun _ => "Unexpected token")
           (fun s => s) (fun s => s) "You are a senior marketing strategist."
           generator_without_text "2026-11-02T06:00:10.000Z" "2026-11-02T06:00:11.000Z"
           (fun _ => true) (fun _ => Ok tt) (fun _ _ => Ok tt) sample_fetchers
           {| Report.content_text := [] |} eq_refl (or_introl eq_refl)).
Defined.

